(** * Contract maintenance of the satellite: a shallow embedding

    This development embeds the contract-maintenance engine of the
    satellite ([satellite/manager/contractor/contractmaintenance.go]) and
    the payment-intent handler of the web portal, and states the
    properties of the specification over that embedding.

    Conventions.
    - [types.Currency] wraps an arbitrary-precision non-negative integer:
      it is [N].  [types.BlockHeight] and the host count are [uint64]:
      they are [N] with the wrap-around modulo [2^64] written out.
    - [types.SiaPublicKey] is represented by its [String()] rendering, the
      only view of a key the contractor ever uses as a map key.
    - Go maps are [gmap]s; the contract set is a list of contracts with
      pairwise distinct ids, whose order stands for the iteration order of
      [ViewAll] (unspecified in Go, hence universally quantified here).
    - Calls that leave the process (host database, wallet, transaction
      pool, network sessions, disk) are answered by an explicit
      environment. *)

From stdpp Require Import gmap strings list fin_maps sorting.
From Stdlib Require Import NArith ZArith Lia.

Local Open Scope N_scope.

(** ** Machine integers and currency *)

Definition uint64_mod : N := 2 ^ 64.

Definition wrap64 (n : N) : N := n mod uint64_mod.

(** [a + b] on [uint64]. *)
Definition add64 (a b : N) : N := wrap64 (a + b).

(** Abbreviations, so that maps keyed by these types are plain [gmap]s
    over [N] and [string]. *)
Abbreviation Currency := N (only parsing).
Abbreviation BlockHeight := N (only parsing).
Abbreviation FileContractID := N (only parsing).
Abbreviation SiaPublicKey := string (only parsing).

Definition ZeroCurrency : Currency := 0.

(** [Currency.Cmp] returns -1, 0 or 1. *)
Definition Currency_Cmp (x y : Currency) : Z :=
  match N.compare x y with
  | Lt => (-1)%Z
  | Eq => 0%Z
  | Gt => 1%Z
  end.

Definition Currency_IsZero (x : Currency) : bool := N.eqb x 0.

(** [Currency.Sub] of the siad [types] package: on an underflow the
    receiver is returned unchanged (after a [build.Critical] report). *)
Definition Currency_Sub (x y : Currency) : Currency :=
  if (Currency_Cmp x y <? 0)%Z then x else x - y.

(** ** Errors *)

Inductive error : Type :=
  | ErrRenterNotFound
  | errHostNotFound
  | errHostBlocked
  | errTooExpensive
  | errContractEnded
  | errContractNotGFR
  | errContractNotFound
  | errNew (msg : string)                      (* errors.New / fmt.Errorf *)
  | errExternal (hostFault : bool) (msg : string) (* raised by a collaborator *)
  | errContext (e : error) (ctx : string)        (* errors.AddContext *)
  | errCompose (e1 e2 : error).                  (* errors.Compose *)

(** [smodules.IsHostsFault]: the error chain contains [ErrHostFault].  Only
    errors coming back from a collaborator can carry that mark. *)
Fixpoint IsHostsFault (e : error) : bool :=
  match e with
  | errExternal hf _ => hf
  | errContext e' _ => IsHostsFault e'
  | errCompose e1 e2 => IsHostsFault e1 || IsHostsFault e2
  | _ => false
  end.

(** [errors.Contains(err, errContractNotGFR)]. *)
Fixpoint ContainsNotGFR (e : error) : bool :=
  match e with
  | errContractNotGFR => true
  | errContext e' _ => ContainsNotGFR e'
  | errCompose e1 e2 => ContainsNotGFR e1 || ContainsNotGFR e2
  | _ => false
  end.

(** ** Data model *)

Record ContractUtility : Type := mkUtility {
  GoodForUpload : bool;
  GoodForRenew : bool;
  Locked : bool
}.

Record MaintenanceSpending : Type := mkMaintenance {
  AccountBalanceCost : Currency;
  FundAccountCost : Currency;
  UpdatePriceTableCost : Currency
}.

Definition MaintenanceSpending_Add (x y : MaintenanceSpending) : MaintenanceSpending :=
  {| AccountBalanceCost := AccountBalanceCost x + AccountBalanceCost y;
     FundAccountCost := FundAccountCost x + FundAccountCost y;
     UpdatePriceTableCost := UpdatePriceTableCost x + UpdatePriceTableCost y |}.

Definition MaintenanceSpending_Sum (x : MaintenanceSpending) : Currency :=
  AccountBalanceCost x + FundAccountCost x + UpdatePriceTableCost x.

Record FileContractRevision : Type := mkRevision {
  NewFileSize : N
}.

Record RenterContract : Type := mkContract {
  ID : FileContractID;
  RenterPublicKey : SiaPublicKey;
  HostPublicKey : SiaPublicKey;
  StartHeight : BlockHeight;
  EndHeight : BlockHeight;
  TotalCost : Currency;
  RenterFunds : Currency;
  UploadSpending : Currency;
  DownloadSpending : Currency;
  FundAccountSpending : Currency;
  MaintenanceSpendingOf : MaintenanceSpending;
  Utility : ContractUtility;
  FileContractRevisions : list FileContractRevision
}.

Record Allowance : Type := mkAllowance {
  Funds : Currency;
  Hosts : N;
  Period : BlockHeight;
  RenewWindow : BlockHeight;
  MaxRPCPrice : Currency;
  MaxContractPrice : Currency;
  MaxSectorAccessPrice : Currency;
  (* every field of the allowance not named above has its zero value *)
  OtherFieldsZero : bool
}.

Definition emptyAllowance : Allowance :=
  {| Funds := 0; Hosts := 0; Period := 0; RenewWindow := 0;
     MaxRPCPrice := 0; MaxContractPrice := 0; MaxSectorAccessPrice := 0;
     OtherFieldsZero := true |}.

Record HostExternalSettings : Type := mkSettings {
  BaseRPCPrice : Currency;
  ContractPrice : Currency;
  SectorAccessPrice : Currency;
  StoragePrice : Currency;
  UploadBandwidthPrice : Currency;
  DownloadBandwidthPrice : Currency;
  MaxDuration : BlockHeight;
  MaxCollateral : Currency;
  VersionSupported : bool  (* build.VersionCmp(Version, minimum) >= 0 *)
}.

Record HostDBEntry : Type := mkHost {
  HostKey : SiaPublicKey;
  Settings : HostExternalSettings;
  Filtered : bool
}.

Record Renter : Type := mkRenter {
  PublicKey : SiaPublicKey;
  Email : string;
  CurrentPeriod : BlockHeight;
  RenterAllowance : Allowance
}.

Global Instance ContractUtility_eq_dec : EqDecision ContractUtility.
Proof. solve_decision. Defined.

Global Instance Allowance_eq_dec : EqDecision Allowance.
Proof. solve_decision. Defined.

(** ** Gouging filter *)

(** [staticCheckFormPaymentContractGouging]: [nil] is [None]. *)
Definition staticCheckFormPaymentContractGouging
    (allowance : Allowance) (hostSettings : HostExternalSettings) : option error :=
  if negb (Currency_IsZero (MaxRPCPrice allowance))
     && (Currency_Cmp (MaxRPCPrice allowance) (BaseRPCPrice hostSettings) <=? 0)%Z
  then Some (errNew "rpc base price of host is too high - extortion protection enabled")
  else if negb (Currency_IsZero (MaxContractPrice allowance))
     && (Currency_Cmp (MaxContractPrice allowance) (ContractPrice hostSettings) <=? 0)%Z
  then Some (errNew "contract price of host is too high - extortion protection enabled")
  else if negb (Currency_IsZero (MaxSectorAccessPrice allowance))
     && (Currency_Cmp (MaxSectorAccessPrice allowance) (SectorAccessPrice hostSettings) <=? 0)%Z
  then Some (errNew "sector access price of host is too high - extortion protection enabled")
  else None.

(** [checkFormContractGouging]. *)
Definition checkFormContractGouging
    (allowance : Allowance) (hostSettings : HostExternalSettings) : option error :=
  if negb (Currency_IsZero (MaxRPCPrice allowance))
     && (Currency_Cmp (MaxRPCPrice allowance) (BaseRPCPrice hostSettings) <? 0)%Z
  then Some (errNew "rpc base price of host is too high - price gouging protection enabled")
  else if negb (Currency_IsZero (MaxContractPrice allowance))
     && (Currency_Cmp (MaxContractPrice allowance) (ContractPrice hostSettings) <? 0)%Z
  then Some (errNew "contract price of host is too high - price gouging protection enabled")
  else None.

(** ** Constants and collaborators *)

(** The exact value of a non-negative [float64] constant, as
    [big.Rat.SetFloat64] reads it. *)
Record float64 : Type := mkFloat {
  float_num : N;
  float_den : positive
}.

(** [Currency.MulFloat] of the siad [types] package: the product is
    formed over the rationals and truncated. *)
Definition Currency_MulFloat (x : Currency) (y : float64) : Currency :=
  (x * float_num y) / Npos (float_den y).

(** The constants of the package are declared outside the sources at
    hand, or in siad; they are parameters of the embedding. *)
Record Constants : Type := mkConstants {
  fileContractMinimumFunding : float64;
  consecutiveRenewalsBeforeReplacement : BlockHeight;
  maxStoragePrice : Currency;
  maxCollateral : Currency;
  EstimatedFileContractTransactionSetSize : N;
  SectorSize : N;
  (* [percentRemaining < MinContractFundRenewalThreshold], where
     [percentRemaining] is the float64 nearest to funds / total cost *)
  belowMinContractFundRenewalThreshold : Currency -> Currency -> bool;
  randomHostsBufferForScore : N;
  ContractFeeFundingMulFactor : N;
  MaxInitialContractFundingMulFactor : N;
  MaxInitialContractFundingDivFactor : N;
  MinInitialContractFundingDivFactor : N;
  (* [maxAlloc] of the Go runtime, the largest allocation in bytes, and
     [unsafe.Sizeof(modules.RenterContract{})] *)
  maxAlloc : N;
  sizeofRenterContract : N
}.

(** What a Go call delivers: a value, or a run-time panic (an index out
    of range, a division by zero), or no return at all (an [Acquire] on a
    contract that was never returned). *)
Inductive outcome (A : Type) : Type :=
  | Done (a : A)
  | Panic (msg : string)
  | Blocked.
Arguments Done {A} a.
Arguments Panic {A} msg.
Arguments Blocked {A}.

(** The value delivered, or [d] if there is none. *)
Definition delivered {A : Type} (o : outcome A) (d : A) : A :=
  match o with
  | Done a => a
  | _ => d
  end.

(** The answers of the collaborators.  Each question is answered the
    same way throughout one run. *)
Record World : Type := mkWorld {
  (* c.hdb.Host(pk): an error, or the entry if the host is known *)
  hdb_lookup : SiaPublicKey -> error + option HostDBEntry;
  (* c.hdb.ScoreBreakdown(host).Score *)
  hdb_ScoreBreakdown : HostDBEntry -> error + Currency;
  (* c.hdb.CheckForIPViolations, RandomHostsWithLimits *)
  hdb_RandomHostsWithLimits :
    Z -> list SiaPublicKey -> list SiaPublicKey -> Allowance -> error + list HostDBEntry;
  (* c.tpool.FeeEstimation() *)
  tpool_FeeEstimation : Currency * Currency;
  (* types.Tax *)
  types_Tax : BlockHeight -> Currency -> Currency;
  (* c.managedSynced() *)
  synced : bool;
  (* the stop channel is closed *)
  stopped : bool;
  (* c.wallet.Unlocked() *)
  wallet_Unlocked : bool * option error;
  wallet_NextAddress : option error;
  wallet_MarkAddressUnused : option error;
  wallet_PrimarySeed : option error;
  wallet_StartTransaction : option error;
  txnBuilder_FundSiacoins : Currency -> option error;
  (* c.Session(renter, host, ..) and s.Settings() *)
  host_Session : SiaPublicKey -> SiaPublicKey -> option error;
  host_Settings : SiaPublicKey -> SiaPublicKey -> error + HostExternalSettings;
  (* the negotiation inside c.staticContracts.Renew / FormContract *)
  negotiate_Renew :
    RenterContract -> HostDBEntry -> Currency -> BlockHeight -> BlockHeight ->
    error + RenterContract;
  negotiate_Form :
    SiaPublicKey -> HostDBEntry -> Currency -> BlockHeight -> BlockHeight -> error + RenterContract;
  (* c.staticWatchdog.callMonitorContract *)
  watchdog_callMonitorContract : FileContractID -> option error;
  (* the write behind FileContract.UpdateUtility *)
  write_UpdateUtility : FileContractID -> ContractUtility -> option error;
  (* c.PeriodSpending(renter).TotalAllocated *)
  PeriodSpending_TotalAllocated : SiaPublicKey -> error + Currency
}.

(** The zero [HostDBEntry]; [build.VersionCmp] of its empty version
    against the minimum supported version is negative. *)
Definition zeroHostDBEntry : HostDBEntry :=
  mkHost "" (mkSettings 0 0 0 0 0 0 0 0 false) false.

(** [c.hdb.Host(pk)] returns [(host, exists, err)]. *)
Definition hdb_Host (W : World) (pk : SiaPublicKey) : HostDBEntry * bool * option error :=
  match hdb_lookup W pk with
  | inl e => (zeroHostDBEntry, false, Some e)
  | inr None => (zeroHostDBEntry, false, None)
  | inr (Some h) => (h, true, None)
  end.

(** ** Portal: payment intents *)

Module Portal.

Record item : Type := mkItem { itemID : string }.

(** [calculateOrderAmount] ([int64]). *)
Definition calculateOrderAmount (items : list item) : Z := 500%Z.

Record PaymentIntentParams : Type := mkParams {
  Amount : Z;
  CurrencyCode : string;
  AutomaticPaymentMethodsEnabled : bool
}.

(** [stripe.CurrencyUSD]. *)
Definition CurrencyUSD : string := "usd".

Inductive response : Type :=
  | RespNone                              (* [prepareDecoder] already answered *)
  | RespError (code : N)
  | RespClientSecret (secret : string).

(** What the request decoder delivers: [prepareDecoder] may fail, then
    [handleDecodeError] yields a status code and the decoded items. *)
Inductive decoded : Type :=
  | DecoderFailed
  | DecodeStatus (code : N) (items : list item).

Definition StatusOK : N := 200.
Definition StatusInternalServerError : N := 500.

(** [paymentHandlerPOST]: returns the response written and the payment
    intents requested from Stripe ([paymentintent.New] answers with a
    client secret or fails). *)
Definition paymentHandlerPOST (req : decoded)
    (paymentintent_New : PaymentIntentParams -> option string)
    : response * list PaymentIntentParams :=
  match req with
  | DecoderFailed => (RespNone, [])
  | DecodeStatus code items =>
      if negb (N.eqb code StatusOK) then (RespError code, [])
      else
        let params := {| Amount := calculateOrderAmount items;
                         CurrencyCode := CurrencyUSD;
                         AutomaticPaymentMethodsEnabled := true |} in
        match paymentintent_New params with
        | None => (RespError StatusInternalServerError, [params])
        | Some secret => (RespClientSecret secret, [params])
        end
  end.

End Portal.

(** ** The contractor *)

(** The lines of [c.log] that the properties below refer to. *)
Inductive event : Type :=
  | EvDuplicate (newID oldID : FileContractID)
      (* "Duplicate contract found. New contract is .. and old contract is .." *)
  | EvCallingRenew (id : FileContractID)
      (* "calling managedRenew on contract" *)
  | EvSkipLowFunds (id : FileContractID)
      (* "Skipping renewal/refresh because there are not enough funds .." *)
  | EvMarkedBad (id : FileContractID)
      (* "consistently failed to renew .., marked as bad and locked" *)
  | EvRenewed (id : FileContractID)
      (* "Renewed contract .." *)
  | EvRenewError (id : FileContractID).
      (* "Error renewing a contract" / "Error refreshing a contract" *)

Record Contractor : Type := mkContractor {
  staticContracts : list RenterContract;
  renters : gmap string Renter;
  renewedFrom : gmap FileContractID FileContractID;
  renewedTo : gmap FileContractID FileContractID;
  oldContracts : gmap FileContractID RenterContract;
  pubKeysToContractID : gmap string FileContractID;
  numFailedRenews : gmap FileContractID BlockHeight;
  renewing : gmap FileContractID bool;
  blockHeight : BlockHeight;
  (* the low-funds alert is registered with c.staticAlerter *)
  lowFundsAlert : bool;
  log : list event
}.

Definition set_staticContracts (c : Contractor) (v : list RenterContract) : Contractor :=
  mkContractor v (renters c) (renewedFrom c) (renewedTo c) (oldContracts c)
    (pubKeysToContractID c) (numFailedRenews c) (renewing c) (blockHeight c) (lowFundsAlert c) (log c).

Definition set_lineage (c : Contractor)
    (rf rt : gmap FileContractID FileContractID)
    (oc : gmap FileContractID RenterContract) : Contractor :=
  mkContractor (staticContracts c) (renters c) rf rt oc
    (pubKeysToContractID c) (numFailedRenews c) (renewing c) (blockHeight c) (lowFundsAlert c) (log c).

Definition set_pubKeysToContractID (c : Contractor) (v : gmap string FileContractID) : Contractor :=
  mkContractor (staticContracts c) (renters c) (renewedFrom c) (renewedTo c) (oldContracts c)
    v (numFailedRenews c) (renewing c) (blockHeight c) (lowFundsAlert c) (log c).

Definition set_numFailedRenews (c : Contractor) (v : gmap FileContractID BlockHeight) : Contractor :=
  mkContractor (staticContracts c) (renters c) (renewedFrom c) (renewedTo c) (oldContracts c)
    (pubKeysToContractID c) v (renewing c) (blockHeight c) (lowFundsAlert c) (log c).

Definition set_renewing (c : Contractor) (v : gmap FileContractID bool) : Contractor :=
  mkContractor (staticContracts c) (renters c) (renewedFrom c) (renewedTo c) (oldContracts c)
    (pubKeysToContractID c) (numFailedRenews c) v (blockHeight c) (lowFundsAlert c) (log c).

Definition set_lowFundsAlert (c : Contractor) (v : bool) : Contractor :=
  mkContractor (staticContracts c) (renters c) (renewedFrom c) (renewedTo c) (oldContracts c)
    (pubKeysToContractID c) (numFailedRenews c) (renewing c) (blockHeight c) v (log c).

Definition logEvent (c : Contractor) (e : event) : Contractor :=
  mkContractor (staticContracts c) (renters c) (renewedFrom c) (renewedTo c) (oldContracts c)
    (pubKeysToContractID c) (numFailedRenews c) (renewing c) (blockHeight c) (lowFundsAlert c) (log c ++ [e]).

(** *** The contract set *)

(** Modelled from the spec: the [proto] package (the contract set behind
    [c.staticContracts]) is not part of the sources at hand.  The spec
    describes it as the "active contract set with acquire/return locking"
    that "exclusively owns the live contracts".  It is modelled as the
    list of live contracts; in a single thread of control [Acquire] finds
    a contract exactly when [View] does, and [Return] has no effect. *)
Definition ContractSet_View (cs : list RenterContract) (id : FileContractID)
    : option RenterContract :=
  List.find (fun rc => N.eqb (ID rc) id) cs.

(** Modelled from the spec: [ContractSet.Acquire], see [ContractSet_View]. *)
Definition ContractSet_Acquire (cs : list RenterContract) (id : FileContractID)
    : option RenterContract :=
  ContractSet_View cs id.

(** Modelled from the spec: [ContractSet.Delete] removes the contract
    from the live set. *)
Definition ContractSet_Delete (cs : list RenterContract) (sc : RenterContract)
    : list RenterContract :=
  List.filter (fun rc => negb (N.eqb (ID rc) (ID sc))) cs.

(** Modelled from the spec: [ContractSet.ViewAll] lists the metadata of
    every live contract. *)
Definition ContractSet_ViewAll (cs : list RenterContract) : list RenterContract := cs.

(** Modelled from the spec: [ContractSet.ByRenter] lists the live
    contracts of one renter. *)
Definition ContractSet_ByRenter (cs : list RenterContract) (rpk : SiaPublicKey)
    : list RenterContract :=
  List.filter (fun rc => String.eqb (RenterPublicKey rc) rpk) cs.

Definition with_Utility (rc : RenterContract) (u : ContractUtility) : RenterContract :=
  mkContract (ID rc) (RenterPublicKey rc) (HostPublicKey rc) (StartHeight rc)
    (EndHeight rc) (TotalCost rc) (RenterFunds rc) (UploadSpending rc)
    (DownloadSpending rc) (FundAccountSpending rc) (MaintenanceSpendingOf rc)
    u (FileContractRevisions rc).

(** Modelled from the spec: [FileContract.UpdateUtility] on the contract
    with the given id, when the write succeeds: the header of that
    contract carries the new utility; nothing else changes. *)
Definition ContractSet_UpdateUtility (cs : list RenterContract)
    (id : FileContractID) (u : ContractUtility) : list RenterContract :=
  List.map (fun rc => if N.eqb (ID rc) id then with_Utility rc u else rc) cs.

(** *** managedCheckForDuplicates *)

(** The key of the comparison map: the two renderings, concatenated. *)
Definition dupKey (contract : RenterContract) : string :=
  RenterPublicKey contract +:+ HostPublicKey contract.

(** One iteration of the loop over [ViewAll()]; [pubkeys] is the local
    comparison map.  [c.save()] only persists and, when it fails, only
    logs: it leaves no trace here. *)
Definition checkForDuplicate
    (acc : Contractor * gmap string FileContractID) (contract : RenterContract)
    : Contractor * gmap string FileContractID :=
  let '(c, pubkeys) := acc in
  let key := dupKey contract in
  match pubkeys !! key with
  | None => (c, <[key := ID contract]> pubkeys)
  | Some id =>
      match ContractSet_View (staticContracts c) id with
      | None => (c, pubkeys)
      | Some rc =>
          let '(newContract, oldContract) :=
            if StartHeight contract <=? StartHeight rc
            then (rc, contract) else (contract, rc) in
          let c := logEvent c (EvDuplicate (ID newContract) (ID oldContract)) in
          match ContractSet_Acquire (staticContracts c) (ID oldContract) with
          | None => (c, <[key := ID newContract]> pubkeys)
          | Some oldSC =>
              let c := set_lineage c
                         (<[ID newContract := ID oldContract]> (renewedFrom c))
                         (<[ID oldContract := ID newContract]> (renewedTo c))
                         (<[ID oldContract := oldSC]> (oldContracts c)) in
              let c := set_staticContracts c
                         (ContractSet_Delete (staticContracts c) oldSC) in
              (c, <[key := ID newContract]> pubkeys)
          end
      end
  end.

Definition managedCheckForDuplicates (c : Contractor) : Contractor :=
  (fold_left checkForDuplicate (ContractSet_ViewAll (staticContracts c)) (c, ∅)).1.

(** The duplicate pairs [(new, old)] reported in a log. *)
Fixpoint duplicatesFound (l : list event) : list (FileContractID * FileContractID) :=
  match l with
  | [] => []
  | EvDuplicate n o :: l' => (n, o) :: duplicatesFound l'
  | _ :: l' => duplicatesFound l'
  end.

Definition live (c : Contractor) (id : FileContractID) : Prop :=
  is_Some (ContractSet_View (staticContracts c) id).

(** The pairs reported since the log had length [n]. *)
Definition duplicatesSince (n : nat) (c : Contractor) : list (FileContractID * FileContractID) :=
  duplicatesFound (drop n (log c)).

(** The loser most recently reported against the survivor [n]. *)
Fixpoint lastLoser (d : list (FileContractID * FileContractID)) (n : FileContractID)
    : option FileContractID :=
  match d with
  | [] => None
  | (n', o) :: d' =>
      match lastLoser d' n with
      | Some o' => Some o'
      | None => if N.eqb n' n then Some o else None
      end
  end.

(** The invariant of the loop of [managedCheckForDuplicates] over the
    snapshot [L], started in [c0]: [P] are the contracts already visited,
    [S] those still to come, [E] what has been logged so far. *)
Record dedup_inv (L : list RenterContract) (c0 : Contractor)
    (P S : list RenterContract) (c : Contractor)
    (pk : gmap string FileContractID) (E : list event) : Prop := {
  inv_split : L = P ++ S;
  inv_sub : forall x, x ∈ staticContracts c -> x ∈ L;
  inv_nodup : NoDup (ID <$> staticContracts c);
  inv_rest : forall x, x ∈ S -> x ∈ staticContracts c;
  inv_pk : forall k id, pk !! k = Some id ->
    exists x, x ∈ staticContracts c /\ x ∈ P /\ ID x = id /\ dupKey x = k;
  inv_max : forall x, x ∈ P ->
    exists y, pk !! dupKey x = Some (ID y) /\ y ∈ staticContracts c /\
              dupKey y = dupKey x /\ StartHeight x <= StartHeight y;
  inv_uniq : forall x, x ∈ P -> x ∈ staticContracts c ->
    pk !! dupKey x = Some (ID x);
  inv_log : log c = log c0 ++ E;
  inv_dups : forall n o, (n, o) ∈ duplicatesFound E ->
    ~ live c o /\ renewedTo c !! o = Some n /\
    exists xo xn, xo ∈ L /\ xn ∈ L /\ ID xo = o /\ ID xn = n /\
      oldContracts c !! o = Some xo /\ dupKey xn = dupKey xo /\
      StartHeight xo <= StartHeight xn;
  inv_from : forall n o, lastLoser (duplicatesFound E) n = Some o ->
    renewedFrom c !! n = Some o
}.

(** The postcondition read literally: uniqueness per (renter, host), and
    for every duplicate pair reported during the run the survivor is
    still live, the loser is archived with its metadata and the lineage
    maps link the two. *)
Definition dedup_postcondition_literal (c0 : Contractor) : Prop :=
  let c1 := managedCheckForDuplicates c0 in
  (forall x y, x ∈ staticContracts c1 -> y ∈ staticContracts c1 ->
     RenterPublicKey x = RenterPublicKey y -> HostPublicKey x = HostPublicKey y ->
     x = y) /\
  (forall n o, (n, o) ∈ duplicatesSince (length (log c0)) c1 ->
     live c1 n /\
     (exists xo, ContractSet_View (staticContracts c0) o = Some xo /\
                 oldContracts c1 !! o = Some xo) /\
     renewedFrom c1 !! n = Some o /\
     renewedTo c1 !! o = Some n).

Module DedupExamples.

Definition mk (id : N) (r h : string) (start : N) : RenterContract :=
  mkContract id r h start (start + 100) 10 5 0 0 0 (mkMaintenance 0 0 0)
    (mkUtility true true false) [mkRevision 0].

Definition c0 (cs : list RenterContract) : Contractor :=
  mkContractor cs ∅ ∅ ∅ ∅ ∅ ∅ ∅ 0 false [].

(** Scenario S5 of the specification: two contracts for one pair. *)
Definition two : Contractor :=
  c0 [mk 1000 "R" "H" 1000; mk 1500 "R" "H" 1500].

(** Three contracts for one pair. *)
Definition three : Contractor :=
  c0 [mk 1 "R" "H" 1000; mk 2 "R" "H" 1500; mk 3 "R" "H" 2000].

End DedupExamples.

(** *** managedEstimateRenewFundingRequirements *)

Record spendings : Type := mkSpendings {
  prevUploadSpending : Currency;
  prevDownloadSpending : Currency;
  prevFundAccountSpending : Currency;
  prevMaintenanceSpending : MaintenanceSpending
}.

(** The walk back through [renewedFrom], at most [fuel] hops. *)
Fixpoint walkRenewHistory (fuel : nat) (c : Contractor) (renter : Renter)
    (currentID : FileContractID) (acc : spendings) : spendings :=
  match fuel with
  | O => acc
  | S fuel' =>
      match renewedFrom c !! currentID with
      | None => acc
      | Some currentID =>
          match oldContracts c !! currentID with
          | None => acc
          | Some currentContract =>
              if StartHeight currentContract <? CurrentPeriod renter then acc
              else
                walkRenewHistory fuel' c renter currentID
                  {| prevUploadSpending :=
                       prevUploadSpending acc + UploadSpending currentContract;
                     prevDownloadSpending :=
                       prevDownloadSpending acc + DownloadSpending currentContract;
                     prevFundAccountSpending :=
                       prevFundAccountSpending acc + FundAccountSpending currentContract;
                     prevMaintenanceSpending :=
                       MaintenanceSpending_Add (prevMaintenanceSpending acc)
                         (MaintenanceSpendingOf currentContract) |}
          end
      end
  end.

Arguments walkRenewHistory : simpl never.

(** The bound [10e3] of the loop. *)
Definition renewHistoryHops : nat := N.to_nat 10000.

(** [allowance.Funds.MulFloat(fileContractMinimumFunding).Div64(allowance.Hosts)],
    for a non-zero host count. *)
Definition minimumFunding (K : Constants) (allowance : Allowance) : Currency :=
  Currency_MulFloat (Funds allowance) (fileContractMinimumFunding K) / Hosts allowance.

Definition managedEstimateRenewFundingRequirements (W : World) (K : Constants)
    (c : Contractor) (contract : RenterContract) (blockHeight : BlockHeight)
    (allowance : Allowance) : outcome (Currency * option error) :=
  let '(host, exists_, err) := hdb_Host W (HostPublicKey contract) in
  match err with
  | Some err => Done (ZeroCurrency, Some (errContext err "error getting host from hostdb:"))
  | None =>
  if negb exists_ then Done (ZeroCurrency, Some (errNew "could not find host in hostdb"))
  else if Filtered host then Done (ZeroCurrency, Some errHostBlocked)
  else
  match renters c !! RenterPublicKey contract with
  | None => Done (ZeroCurrency, Some ErrRenterNotFound)
  | Some renter =>
  match FileContractRevisions contract with
  | [] => Panic "index out of range [0] with length 0"
  | rev0 :: _ =>
  let dataStored := NewFileSize rev0 in
  let storageCost := dataStored * Period allowance * StoragePrice (Settings host) in
  let prev := walkRenewHistory renewHistoryHops c renter (ID contract)
                {| prevUploadSpending := UploadSpending contract;
                   prevDownloadSpending := DownloadSpending contract;
                   prevFundAccountSpending := FundAccountSpending contract;
                   prevMaintenanceSpending := MaintenanceSpendingOf contract |} in
  let prevUploadDataEstimate := prevUploadSpending prev in
  let prevUploadDataEstimate :=
    if negb (Currency_IsZero (UploadBandwidthPrice (Settings host)))
    then prevUploadDataEstimate / UploadBandwidthPrice (Settings host)
    else prevUploadDataEstimate in
  let prevUploadDataEstimate :=
    if (Currency_Cmp dataStored prevUploadDataEstimate <? 0)%Z
    then dataStored else prevUploadDataEstimate in
  let newUploadsCost :=
    prevUploadSpending prev
    + prevUploadDataEstimate * Period allowance * StoragePrice (Settings host) in
  let newDownloadsCost := prevDownloadSpending prev in
  let newFundAccountCost := prevFundAccountSpending prev in
  let newMaintenanceCost := MaintenanceSpending_Sum (prevMaintenanceSpending prev) in
  let contractPrice := ContractPrice (Settings host) in
  let beforeSiafundFeesEstimate :=
    storageCost + newUploadsCost + newDownloadsCost + newFundAccountCost
    + newMaintenanceCost + contractPrice in
  let afterSiafundFeesEstimate :=
    types_Tax W blockHeight beforeSiafundFeesEstimate + beforeSiafundFeesEstimate in
  let '(_, maxTxnFee) := tpool_FeeEstimation W in
  let txnFees := maxTxnFee * EstimatedFileContractTransactionSetSize K in
  let estimatedCost := afterSiafundFeesEstimate + txnFees in
  let estimatedCost := estimatedCost + estimatedCost / 3 in
  if Hosts allowance =? 0 then Panic "division by zero"
  else
  let minimum := minimumFunding K allowance in
  let estimatedCost :=
    if (Currency_Cmp estimatedCost minimum <? 0)%Z then minimum else estimatedCost in
  Done (estimatedCost, None)
  end
  end
  end.

(** *** Utilities of contracts *)

(** Modelled from the spec: [ContractSet.Renew] and [FormContract] put
    the negotiated contract into the live set, under its id. *)
Definition ContractSet_Insert (cs : list RenterContract) (new : RenterContract)
    : list RenterContract :=
  if existsb (fun rc => N.eqb (ID rc) (ID new)) cs
  then List.map (fun rc => if N.eqb (ID rc) (ID new) then new else rc) cs
  else cs ++ [new].

(** [fileContract.Metadata()]: a handle denotes the live contract with
    its id, and reads what the set holds now. *)
Definition FileContract_Metadata (c : Contractor) (fileContract : RenterContract)
    : RenterContract :=
  default fileContract (ContractSet_View (staticContracts c) (ID fileContract)).

(** [callUpdateUtility]. *)
Definition callUpdateUtility (W : World) (c : Contractor)
    (fileContract : RenterContract) (newUtility : ContractUtility) (renewed : bool)
    : Contractor * option error :=
  match write_UpdateUtility W (ID fileContract) newUtility with
  | Some err => (c, Some err)
  | None =>
      (set_staticContracts c
         (ContractSet_UpdateUtility (staticContracts c) (ID fileContract) newUtility),
       None)
  end.

(** [managedUpdateContractUtility]; the sanity check only logs. *)
Definition managedUpdateContractUtility (W : World) (c : Contractor)
    (fileContract : RenterContract) (utility : ContractUtility)
    : Contractor * option error :=
  callUpdateUtility W c fileContract utility false.

(** [managedAcquireAndUpdateContractUtility]. *)
Definition managedAcquireAndUpdateContractUtility (W : World) (c : Contractor)
    (id : FileContractID) (utility : ContractUtility) : Contractor * option error :=
  match ContractSet_Acquire (staticContracts c) id with
  | None => (c, Some (errNew "failed to acquire contract for update"))
  | Some fileContract => managedUpdateContractUtility W c fileContract utility
  end.

(** Modelled from the spec: [managedContractUtility] reads the utility of
    a live contract. *)
Definition managedContractUtility (c : Contractor) (id : FileContractID)
    : ContractUtility * bool :=
  match ContractSet_View (staticContracts c) id with
  | None => (mkUtility false false false, false)
  | Some rc => (Utility rc, true)
  end.

(** *** managedLimitGFUHosts *)

(** Modelled from the spec: [c.Contracts()] lists the live contracts. *)
Definition Contracts (c : Contractor) : list RenterContract :=
  ContractSet_ViewAll (staticContracts c).

(** A GFU contract with the score of its host. *)
Record gfuContract : Type := mkGfu {
  gfu_c : RenterContract;
  gfu_score : Currency
}.

(** The first loop: the GFU contracts whose host has a score. *)
Fixpoint collectGFU (W : World) (contracts : list RenterContract)
    (hostScores : gmap string Currency) (gfuContracts : list gfuContract)
    : list gfuContract :=
  match contracts with
  | [] => gfuContracts
  | contract :: rest =>
      if negb (GoodForUpload (Utility contract))
      then collectGFU W rest hostScores gfuContracts
      else
        let key := HostPublicKey contract in
        match hostScores !! key with
        | Some hostScore =>
            collectGFU W rest hostScores (gfuContracts ++ [mkGfu contract hostScore])
        | None =>
            let '(host, ok, err) := hdb_Host W (HostPublicKey contract) in
            if negb ok || bool_decide (is_Some err)
            then collectGFU W rest hostScores gfuContracts
            else
              match hdb_ScoreBreakdown W host with
              | inl _ => collectGFU W rest hostScores gfuContracts
              | inr score =>
                  collectGFU W rest (<[key := score]> hostScores)
                    (gfuContracts ++ [mkGfu contract score])
              end
        end
  end.

(** [sort.Slice] with [less(i, j) = score(i) < score(j)].  Go leaves the
    order of equal scores open; this sort keeps it. *)
Fixpoint insertByScore (x : gfuContract) (l : list gfuContract) : list gfuContract :=
  match l with
  | [] => [x]
  | y :: l' =>
      if (Currency_Cmp (gfu_score y) (gfu_score x) <? 0)%Z
      then y :: insertByScore x l'
      else x :: y :: l'
  end.

Definition sortByScore (l : list gfuContract) : list gfuContract :=
  foldr insertByScore [] l.

(** [numHosts[renter.PublicKey.String()] = renter.Allowance.Hosts]. *)
Definition numHostsOf (renters : gmap string Renter) : gmap string N :=
  map_fold (fun _ renter m => <[PublicKey renter := Hosts (RenterAllowance renter)]> m)
    ∅ renters.

(** One iteration of the last loop. *)
Definition limitGFUHost (W : World) (acc : Contractor * gmap string N)
    (contract : gfuContract) : Contractor * gmap string N :=
  let '(c, numHosts) := acc in
  let key := RenterPublicKey (gfu_c contract) in
  if 0 <? default 0 (numHosts !! key)
  then (c, <[key := default 0 (numHosts !! key) - 1]> numHosts)
  else
    match ContractSet_Acquire (staticContracts c) (ID (gfu_c contract)) with
    | None => (c, numHosts)
    | Some sc =>
        let u := Utility (FileContract_Metadata c sc) in
        let u := mkUtility false (GoodForRenew u) (Locked u) in
        ((managedUpdateContractUtility W c sc u).1, numHosts)
    end.

Definition managedLimitGFUHosts (W : World) (c : Contractor) : Contractor :=
  let renters := renters c in
  let gfuContracts := sortByScore (collectGFU W (Contracts c) ∅ []) in
  (fold_left (limitGFUHost W) gfuContracts (c, numHostsOf renters)).1.

(** The renter of a GFU contract, and the number of contracts of renter
    [r] among the first [i] of a list. *)
Definition renterOf (g : gfuContract) : SiaPublicKey := RenterPublicKey (gfu_c g).

Definition rankAmong (gs : list gfuContract) (i : nat) (r : SiaPublicKey) : nat :=
  length (List.filter (fun g => String.eqb (renterOf g) r) (take i gs)).

(** *** managedRenew *)

Record fileContractRenewal : Type := mkRenewal {
  renewal_id : FileContractID;
  renewal_amount : Currency;
  renewal_hostPubKey : SiaPublicKey;
  renewal_renterPubKey : SiaPublicKey
}.

Definition zeroRenterContract : RenterContract :=
  mkContract 0 "" "" 0 0 0 0 0 0 0 (mkMaintenance 0 0 0)
    (mkUtility false false false) [].

(** The deferred [errors.Compose(err, c.wallet.MarkAddressUnused(uc))]. *)
Definition markAddressUnused (W : World) (err : error) : error :=
  match wallet_MarkAddressUnused W with
  | None => err
  | Some err2 => errCompose err err2
  end.

(** [managedRenew].  The third component tells whether the old contract
    is still acquired when the function returns: the [errContractNotGFR]
    exit leaves before [Return]. *)
Definition managedRenew (W : World) (K : Constants) (c : Contractor)
    (id : FileContractID) (rpk hpk : SiaPublicKey) (contractFunding : Currency)
    (newEndHeight : BlockHeight) (hostSettings : HostExternalSettings)
    : Contractor * (error + RenterContract) * bool :=
  match renters c !! rpk with
  | None => (c, inl ErrRenterNotFound, false)
  | Some renter =>
  let '(host, ok, err) := hdb_Host W hpk in
  match err with
  | Some err => (c, inl (errContext err "error getting host from hostdb:"), false)
  | None =>
  let host := mkHost (HostKey host) hostSettings (Filtered host) in
  if bool_decide (RenterAllowance renter = emptyAllowance)
  then (c, inl (errNew "called managedRenew but allowance isn't set"), false)
  else
  let period := Period (RenterAllowance renter) in
  if negb ok then (c, inl errHostNotFound, false)
  else if Filtered host then (c, inl errHostBlocked, false)
  else if (Currency_Cmp (StoragePrice (Settings host)) (maxStoragePrice K) >? 0)%Z
  then (c, inl errTooExpensive, false)
  else if MaxDuration (Settings host) <? period
  then (c, inl (errNew "insufficient MaxDuration of host"), false)
  else
  let hs := Settings host in
  let hs :=
    if (Currency_Cmp (MaxCollateral hs) (maxCollateral K) >? 0)%Z
    then mkSettings (BaseRPCPrice hs) (ContractPrice hs) (SectorAccessPrice hs)
           (StoragePrice hs) (UploadBandwidthPrice hs) (DownloadBandwidthPrice hs)
           (MaxDuration hs) (maxCollateral K) (VersionSupported hs)
    else hs in
  let host := mkHost (HostKey host) hs (Filtered host) in
  match checkFormContractGouging (RenterAllowance renter) (Settings host) with
  | Some err =>
      (c, inl (errContext err "unable to renew - price gouging protection enabled"), false)
  | None =>
  match wallet_NextAddress W with
  | Some err => (c, inl err, false)
  | None =>
  match wallet_PrimarySeed W with
  | Some err => (c, inl (markAddressUnused W err), false)
  | None =>
  let startHeight := blockHeight c in
  match wallet_StartTransaction W with
  | Some err => (c, inl (markAddressUnused W err), false)
  | None =>
  match txnBuilder_FundSiacoins W contractFunding with
  | Some err => (c, inl (markAddressUnused W err), false)
  | None =>
  match ContractSet_Acquire (staticContracts c) id with
  | None => (c, inl (markAddressUnused W errContractNotFound), false)
  | Some oldContract =>
  if negb (GoodForRenew (Utility oldContract))
  then (c, inl (markAddressUnused W errContractNotGFR), true)
  else
  match negotiate_Renew W oldContract host contractFunding startHeight newEndHeight with
  | inl err => (c, inl (markAddressUnused W err), false)
  | inr newContract =>
  let c := set_staticContracts c (ContractSet_Insert (staticContracts c) newContract) in
  match watchdog_callMonitorContract W (ID newContract) with
  | Some err => (c, inl (markAddressUnused W err), false)
  | None =>
  let c := set_pubKeysToContractID c
             (<[RenterPublicKey newContract +:+ HostPublicKey newContract := ID newContract]>
                (pubKeysToContractID c)) in
  (c, inr newContract, false)
  end end end end end end end end end end.

(** *** managedRenewContract *)

(** The deferred [delete(c.renewing, id)]. *)
Definition unmarkRenewing (c : Contractor) (id : FileContractID) : Contractor :=
  set_renewing c (delete id (renewing c)).

Definition lockedUtility : ContractUtility := mkUtility false false true.

(** [managedRenewContract] returns [(fundsSpent, newContract, err)]. *)
Definition managedRenewContract (W : World) (K : Constants) (c : Contractor)
    (renewInstructions : fileContractRenewal) (blockHeight endHeight : BlockHeight)
    : outcome (Contractor * (Currency * RenterContract * option error)) :=
  let key := renewal_renterPubKey renewInstructions in
  match renters c !! key with
  | None => Done (c, (ZeroCurrency, zeroRenterContract, Some ErrRenterNotFound))
  | Some renter =>
  let id := renewal_id renewInstructions in
  let amount := renewal_amount renewInstructions in
  let renterPubKey := renewal_renterPubKey renewInstructions in
  let hostPubKey := renewal_hostPubKey renewInstructions in
  let allowance := RenterAllowance renter in
  match host_Session W renterPubKey hostPubKey with
  | Some err =>
      Done (c, (ZeroCurrency, zeroRenterContract,
                Some (errContext err "Unable to establish session with host")))
  | None =>
  let c := set_renewing c (<[id := true]> (renewing c)) in
  match host_Settings W renterPubKey hostPubKey with
  | inl err =>
      Done (unmarkRenewing c id,
            (ZeroCurrency, zeroRenterContract,
             Some (errContext err "Unable to get host settings")))
  | inr hostSettings =>
  let c := logEvent c (EvCallingRenew id) in
  let '(c, renewed, held) :=
    managedRenew W K c id renterPubKey hostPubKey amount endHeight hostSettings in
  let newContract := match renewed with inl _ => zeroRenterContract | inr nc => nc end in
  if held then Blocked
  else
  match ContractSet_Acquire (staticContracts c) id with
  | None =>
      Done (unmarkRenewing c id,
            (ZeroCurrency, newContract,
             Some (errContext errContractNotFound
                     "failed to acquire oldContract after renewal")))
  | Some oldContract =>
  let oldUtility := Utility (FileContract_Metadata c oldContract) in
  match renewed with
  | inl errRenew =>
      let c :=
        if IsHostsFault errRenew
        then
          let mdID := ID (FileContract_Metadata c oldContract) in
          set_numFailedRenews c
            (<[mdID := add64 (default 0 (numFailedRenews c !! mdID)) 1]>
               (numFailedRenews c))
        else c in
      let md := FileContract_Metadata c oldContract in
      let numRenews := default 0 (numFailedRenews c !! ID md) in
      let failedBefore := bool_decide (is_Some (numFailedRenews c !! ID md)) in
      let secondHalfOfWindow :=
        EndHeight md <=? add64 blockHeight (RenewWindow allowance / 2) in
      let replace := consecutiveRenewalsBeforeReplacement K <=? numRenews in
      if failedBefore && secondHalfOfWindow && replace
      then
        let c := (callUpdateUtility W c oldContract lockedUtility true).1 in
        let c := logEvent c (EvMarkedBad id) in
        Done (unmarkRenewing c id,
              (ZeroCurrency, newContract,
               Some (errContext errRenew
                 "contract marked as bad for too many consecutive failed renew attempts")))
      else
        Done (unmarkRenewing c id,
              (ZeroCurrency, newContract,
               Some (errContext errRenew "contract renewal with host was unsuccessful")))
  | inr _ =>
      let c := logEvent c (EvRenewed id) in
      let newUtility := mkUtility true true false in
      match managedAcquireAndUpdateContractUtility W c (ID newContract) newUtility with
      | (c, Some _) => Done (unmarkRenewing c id, (amount, newContract, None))
      | (c, None) =>
      match callUpdateUtility W c oldContract lockedUtility true with
      | (c, Some _) => Done (unmarkRenewing c id, (amount, newContract, None))
      | (c, None) =>
          let c := set_lineage c
                     (<[ID newContract := id]> (renewedFrom c))
                     (<[id := ID newContract]> (renewedTo c))
                     (<[id := FileContract_Metadata c oldContract]> (oldContracts c)) in
          let c := set_staticContracts c
                     (ContractSet_Delete (staticContracts c) oldContract) in
          Done (unmarkRenewing c id, (amount, newContract, None))
      end
      end
  end
  end
  end
  end
  end.

(** *** Funds remaining in the allowance *)

(** The lines shared by [FormContracts] and [RenewContracts]:
    [fundsRemaining = Funds], and the subtraction only if
    [TotalAllocated.Cmp(fundsRemaining) < 0]. *)
Definition remainingFunds (funds totalAllocated : Currency) : Currency :=
  let fundsRemaining := funds in
  if (Currency_Cmp totalAllocated fundsRemaining <? 0)%Z
  then Currency_Sub fundsRemaining totalAllocated
  else fundsRemaining.

(** *** RenewContracts *)

Record classification : Type := mkClassification {
  cls_contractSet : list RenterContract;
  cls_renewSet : list fileContractRenewal;
  cls_refreshSet : list fileContractRenewal;
  cls_fundsRemaining : Currency
}.

(** The price of one sector stored for the period, uploaded and
    downloaded once. *)
Definition sectorPrice (K : Constants) (allowance : Allowance) (host : HostDBEntry)
    : Currency :=
  let blockBytes := wrap64 (SectorSize K * Period allowance) in
  let sectorStoragePrice := StoragePrice (Settings host) * blockBytes in
  let sectorUploadBandwidthPrice := UploadBandwidthPrice (Settings host) * SectorSize K in
  let sectorDownloadBandwidthPrice := DownloadBandwidthPrice (Settings host) * SectorSize K in
  let sectorBandwidthPrice := sectorUploadBandwidthPrice + sectorDownloadBandwidthPrice in
  sectorStoragePrice + sectorBandwidthPrice.

(** One iteration of the loop over the submitted ids: [inl err] is the
    early [return nil, err], [inr] the state carried on. *)
Definition classifyContract (W : World) (K : Constants) (c : Contractor)
    (renter : Renter) (blockHeight : BlockHeight) (acc : classification)
    (id : FileContractID) : outcome (error + classification) :=
  let allowance := RenterAllowance renter in
  match ContractSet_View (staticContracts c) id with
  | None => Done (inr acc)
  | Some rc =>
  if negb (String.eqb (RenterPublicKey rc) (PublicKey renter)) then Done (inr acc)
  else
  let '(cu, ok) := managedContractUtility c id in
  if (add64 blockHeight (RenewWindow allowance) <? EndHeight rc) && ok
     && GoodForUpload cu
  then Done (inr (mkClassification (cls_contractSet acc ++ [rc]) (cls_renewSet acc)
                    (cls_refreshSet acc) (cls_fundsRemaining acc)))
  else
  match PeriodSpending_TotalAllocated W (PublicKey renter) with
  | inl err => Done (inl err)
  | inr totalAllocated =>
  let acc := mkClassification (cls_contractSet acc) (cls_renewSet acc)
               (cls_refreshSet acc) (remainingFunds (Funds allowance) totalAllocated) in
  let '(host, _, err) := hdb_Host W (HostPublicKey rc) in
  match err with
  | Some _ => Done (inr acc)
  | None =>
  if Filtered host then Done (inr acc)
  else if negb (VersionSupported (Settings host)) then Done (inr acc)
  else if negb ok || negb (GoodForRenew cu) then Done (inr acc)
  else if EndHeight rc <=? add64 blockHeight (RenewWindow allowance)
  then
    match managedEstimateRenewFundingRequirements W K c rc blockHeight allowance with
    | Panic msg => Panic msg
    | Blocked => Blocked
    | Done (_, Some _) => Done (inr acc)
    | Done (renewAmount, None) =>
        Done (inr (mkClassification (cls_contractSet acc)
                     (cls_renewSet acc ++
                        [mkRenewal (ID rc) renewAmount (HostPublicKey rc) (PublicKey renter)])
                     (cls_refreshSet acc) (cls_fundsRemaining acc)))
    end
  else
    (* big.Rat.SetFrac panics on a zero denominator *)
    if TotalCost rc =? 0 then Panic "division by zero"
    else
    if (Currency_Cmp (RenterFunds rc) (sectorPrice K allowance host * 3) <? 0)%Z
       || belowMinContractFundRenewalThreshold K (RenterFunds rc) (TotalCost rc)
    then
      let refreshAmount := TotalCost rc * 2 in
      if Hosts allowance =? 0 then Panic "division by zero"
      else
      let minimum := minimumFunding K allowance in
      let refreshAmount :=
        if (Currency_Cmp refreshAmount minimum <? 0)%Z then minimum else refreshAmount in
      Done (inr (mkClassification (cls_contractSet acc) (cls_renewSet acc)
                   (cls_refreshSet acc ++
                      [mkRenewal (ID rc) refreshAmount (HostPublicKey rc) (PublicKey renter)])
                   (cls_fundsRemaining acc)))
    else Done (inr acc)
  end
  end
  end.

Fixpoint classifyContracts (W : World) (K : Constants) (c : Contractor)
    (renter : Renter) (blockHeight : BlockHeight) (contracts : list FileContractID)
    (acc : classification) : outcome (error + classification) :=
  match contracts with
  | [] => Done (inr acc)
  | id :: rest =>
      match classifyContract W K c renter blockHeight acc id with
      | Done (inr acc) => classifyContracts W K c renter blockHeight rest acc
      | other => other
      end
  end.

(** Modelled from the spec: [renter.ContractEndHeight()] is declared
    outside the sources at hand; the end of the renter's period plus the
    renew window. *)
Definition ContractEndHeight (renter : Renter) : BlockHeight :=
  add64 (add64 (CurrentPeriod renter) (Period (RenterAllowance renter)))
    (RenewWindow (RenterAllowance renter)).

(** What the two renewal loops carry. *)
Record progress : Type := mkProgress {
  pr_c : Contractor;
  pr_contractSet : list RenterContract;
  pr_fundsRemaining : Currency;
  pr_registerLowFundsAlert : bool
}.

(** One iteration of the loop over [renewSet] ([refresh = false]) or
    over [refreshSet] ([refresh = true]).  The second component is the
    early return, if any; its error may be nil. *)
Definition renewOrRefresh (W : World) (K : Constants) (renter : Renter)
    (blockHeight : BlockHeight) (refresh : bool) (st : progress)
    (renewal : fileContractRenewal) : outcome (progress * option (option error)) :=
  if stopped W then Done (st, Some (Some (errNew "the manager was stopped")))
  else
  let '(unlocked, err) := wallet_Unlocked W in
  if negb unlocked || bool_decide (is_Some err) then Done (st, Some err)
  else
  if (Currency_Cmp (renewal_amount renewal) (pr_fundsRemaining st) >? 0)%Z
  then
    Done (mkProgress (logEvent (pr_c st) (EvSkipLowFunds (renewal_id renewal)))
            (pr_contractSet st) (pr_fundsRemaining st) true, None)
  else
  match managedRenewContract W K (pr_c st) renewal blockHeight (ContractEndHeight renter) with
  | Panic msg => Panic msg
  | Blocked => Blocked
  | Done (c, (fundsSpent, newContract, err)) =>
      let c :=
        match err with
        | None => c
        | Some e =>
            if negb refresh && ContainsNotGFR e then c
            else logEvent c (EvRenewError (renewal_id renewal))
        end in
      let fundsRemaining := Currency_Sub (pr_fundsRemaining st) fundsSpent in
      match err with
      | Some _ =>
          Done (mkProgress c (pr_contractSet st) fundsRemaining
                  (pr_registerLowFundsAlert st), None)
      | None =>
          let contractSet := pr_contractSet st ++ [newContract] in
          let c :=
            (managedAcquireAndUpdateContractUtility W c (ID newContract)
               (mkUtility true true false)).1 in
          Done (mkProgress c contractSet fundsRemaining
                  (pr_registerLowFundsAlert st), None)
      end
  end.

Fixpoint renewLoop (W : World) (K : Constants) (renter : Renter)
    (blockHeight : BlockHeight) (refresh : bool) (set : list fileContractRenewal)
    (st : progress) : outcome (progress * option (option error)) :=
  match set with
  | [] => Done (st, None)
  | renewal :: rest =>
      match renewOrRefresh W K renter blockHeight refresh st renewal with
      | Done (st, None) => renewLoop W K renter blockHeight refresh rest st
      | other => other
      end
  end.

(** The entries of [numFailedRenews] kept for one of the two sets. *)
Definition keepFailedRenews (set : list fileContractRenewal)
    (numFailedRenews newFirstFailedRenew : gmap FileContractID BlockHeight)
    : gmap FileContractID BlockHeight :=
  fold_left
    (fun m r =>
       match numFailedRenews !! renewal_id r with
       | Some n => <[renewal_id r := n]> m
       | None => m
       end)
    set newFirstFailedRenew.

(** The last lines of [RenewContracts]. *)
Definition resetFailedRenews (renewSet refreshSet : list fileContractRenewal)
    (numFailedRenews : gmap FileContractID BlockHeight)
    : gmap FileContractID BlockHeight :=
  keepFailedRenews refreshSet numFailedRenews
    (keepFailedRenews renewSet numFailedRenews ∅).

Definition emptyClassification : classification := mkClassification [] [] [] 0.

(** The deferred registration of the low-funds alert. *)
Definition settleAlert (st : progress) : Contractor :=
  set_lowFundsAlert (pr_c st) (pr_registerLowFundsAlert st).

(** [RenewContracts] up to the reset of the failure counters: the
    classification, and the state after the two loops with the early
    return taken, if any. *)
Definition renewPhase (W : World) (K : Constants) (c : Contractor) (renter : Renter)
    (contracts : list FileContractID)
    : outcome (error + classification * (progress * option (option error))) :=
  let blockHeight := blockHeight c in
  match classifyContracts W K c renter blockHeight contracts emptyClassification with
  | Panic msg => Panic msg
  | Blocked => Blocked
  | Done (inl err) => Done (inl err)
  | Done (inr cls) =>
      let st := mkProgress c (cls_contractSet cls) (cls_fundsRemaining cls) false in
      match renewLoop W K renter blockHeight false (cls_renewSet cls) st with
      | Done (st, None) =>
          match renewLoop W K renter blockHeight true (cls_refreshSet cls) st with
          | Done r => Done (inr (cls, r))
          | Panic msg => Panic msg
          | Blocked => Blocked
          end
      | Done r => Done (inr (cls, r))
      | Panic msg => Panic msg
      | Blocked => Blocked
      end
  end.

(** [RenewContracts] returns the contract set and an error. *)
Definition RenewContracts (W : World) (K : Constants) (c : Contractor)
    (rpk : SiaPublicKey) (contracts : list FileContractID)
    : outcome (Contractor * (list RenterContract * option error)) :=
  if negb (synced W) then Done (c, ([], Some (errNew "contractor isn't synced yet")))
  else
  match renters c !! rpk with
  | None => Done (c, ([], Some ErrRenterNotFound))
  | Some renter =>
  match renewPhase W K c renter contracts with
  | Panic msg => Panic msg
  | Blocked => Blocked
  | Done (inl err) => Done (set_lowFundsAlert c false, ([], Some err))
  | Done (inr (cls, (st, Some err))) => Done (settleAlert st, ([], err))
  | Done (inr (cls, (st, None))) =>
      let c := set_numFailedRenews (pr_c st)
                 (resetFailedRenews (cls_renewSet cls) (cls_refreshSet cls)
                    (numFailedRenews (pr_c st))) in
      Done (set_lowFundsAlert c (pr_registerLowFundsAlert st),
            (pr_contractSet st, None))
  end
  end.

(** *** managedNewContract and FormContracts *)

(** [int(x)] for a [uint64]. *)
Definition toInt (n : N) : Z :=
  let z := Z.of_N (wrap64 n) in
  if (z <? 2 ^ 63)%Z then z else (z - 2 ^ 64)%Z.

(** The wrap-around of arithmetic on [int]. *)
Definition wrapInt (z : Z) : Z := ((z + 2 ^ 63) mod 2 ^ 64 - 2 ^ 63)%Z.

(** [runtime.makeslice]: [make] of a slice with room for [n] elements of
    [size] bytes each returns if [n] is not negative and the bytes
    needed neither overflow [uintptr] nor exceed [maxAlloc]; otherwise it
    panics.  An allocation within these bounds is taken to succeed. *)
Definition makeslice_ok (maxAlloc size : N) (n : Z) : bool :=
  (0 <=? n)%Z && (Z.of_N size * n <? 2 ^ 64)%Z
  && (Z.of_N size * n <=? Z.of_N maxAlloc)%Z.

Arguments makeslice_ok : simpl never.

(** [managedNewContract] returns [(fundsSpent, contract, err)]. *)
Definition managedNewContract (W : World) (K : Constants) (c : Contractor)
    (rpk : SiaPublicKey) (host : HostDBEntry) (contractFunding : Currency)
    (endHeight : BlockHeight) : Contractor * (Currency * RenterContract * option error) :=
  match renters c !! rpk with
  | None => (c, (ZeroCurrency, zeroRenterContract, Some ErrRenterNotFound))
  | Some renter =>
  if (Currency_Cmp (StoragePrice (Settings host)) (maxStoragePrice K) >? 0)%Z
  then (c, (ZeroCurrency, zeroRenterContract, Some errTooExpensive))
  else if bool_decide (RenterAllowance renter = emptyAllowance)
  then (c, (ZeroCurrency, zeroRenterContract,
            Some (errNew "called managedNewContract but allowance wasn't set")))
  else
  let hostSettings := Settings host in
  let period := Period (RenterAllowance renter) in
  if MaxDuration (Settings host) <? period
  then (c, (ZeroCurrency, zeroRenterContract,
            Some (errNew
              "unable to form contract with host due to insufficient MaxDuration of host")))
  else
  let hs := Settings host in
  let hs :=
    if (Currency_Cmp (MaxCollateral hs) (maxCollateral K) >? 0)%Z
    then mkSettings (BaseRPCPrice hs) (ContractPrice hs) (SectorAccessPrice hs)
           (StoragePrice hs) (UploadBandwidthPrice hs) (DownloadBandwidthPrice hs)
           (MaxDuration hs) (maxCollateral K) (VersionSupported hs)
    else hs in
  let host := mkHost (HostKey host) hs (Filtered host) in
  match checkFormContractGouging (RenterAllowance renter) hostSettings with
  | Some err =>
      (c, (ZeroCurrency, zeroRenterContract,
           Some (errContext err
                   "unable to form a contract due to price gouging detection")))
  | None =>
  match wallet_NextAddress W with
  | Some err => (c, (ZeroCurrency, zeroRenterContract, Some err))
  | None =>
  match wallet_PrimarySeed W with
  | Some err => (c, (ZeroCurrency, zeroRenterContract, Some (markAddressUnused W err)))
  | None =>
  let startHeight := blockHeight c in
  match wallet_StartTransaction W with
  | Some err => (c, (ZeroCurrency, zeroRenterContract, Some (markAddressUnused W err)))
  | None =>
  match negotiate_Form W rpk host contractFunding startHeight endHeight with
  | inl err => (c, (ZeroCurrency, zeroRenterContract, Some (markAddressUnused W err)))
  | inr contract =>
  let c := set_staticContracts c (ContractSet_Insert (staticContracts c) contract) in
  match watchdog_callMonitorContract W (ID contract) with
  | Some err => (c, (ZeroCurrency, zeroRenterContract, Some (markAddressUnused W err)))
  | None =>
  let key := RenterPublicKey contract +:+ HostPublicKey contract in
  match pubKeysToContractID c !! key with
  | Some _ =>
      (c, (contractFunding, zeroRenterContract,
           Some (markAddressUnused W (errNew "already has a contract with host"))))
  | None =>
  let c := set_pubKeysToContractID c (<[key := ID contract]> (pubKeysToContractID c)) in
  (c, (contractFunding, contract, None))
  end end end end end end end
  end.

(** The loop that counts the contracts good for upload; it stops once
    [uploadContracts >= int(Hosts)]. *)
Fixpoint countUploadContracts (c : Contractor) (hosts : Z)
    (contracts contractSet : list RenterContract) : list RenterContract :=
  match contracts with
  | [] => contractSet
  | contract :: rest =>
      let '(cu, ok) := managedContractUtility c (ID contract) in
      if ok && GoodForUpload cu
      then
        let contractSet := contractSet ++ [contract] in
        if (hosts <=? Z.of_nat (length contractSet))%Z then contractSet
        else countUploadContracts c hosts rest contractSet
      else countUploadContracts c hosts rest contractSet
  end.

Record forming : Type := mkForming {
  fm_c : Contractor;
  fm_contractSet : list RenterContract;
  fm_fundsRemaining : Currency;
  fm_neededContracts : Z;
  fm_registerLowFundsAlert : bool
}.

(** How an iteration of the loop over the candidate hosts ends. *)
Inductive loopExit : Type :=
  | Continue
  | Break
  | Return (err : error).

(** The contract funding for a candidate host, clamped between the
    minimum and the maximum initial funding. *)
Definition initialContractFunds (K : Constants) (allowance : Allowance)
    (txnFee : Currency) (host : HostDBEntry) : Currency :=
  let maxInitialContractFunds :=
    Funds allowance / Hosts allowance * MaxInitialContractFundingMulFactor K
    / MaxInitialContractFundingDivFactor K in
  let minInitialContractFunds :=
    Funds allowance / Hosts allowance / MinInitialContractFundingDivFactor K in
  let contractFunds :=
    (ContractPrice (Settings host) + txnFee) * ContractFeeFundingMulFactor K in
  let contractFunds :=
    if (Currency_Cmp contractFunds maxInitialContractFunds >? 0)%Z
    then maxInitialContractFunds else contractFunds in
  if (Currency_Cmp contractFunds minInitialContractFunds <? 0)%Z
  then minInitialContractFunds else contractFunds.

(** One iteration of the loop over the candidate hosts. *)
Definition formWithHost (W : World) (K : Constants) (renter : Renter)
    (endHeight : BlockHeight) (txnFee : Currency) (st : forming) (host : HostDBEntry)
    : forming * loopExit :=
  if stopped W then (st, Return (errNew "the manager was stopped"))
  else if (fm_neededContracts st <=? 0)%Z then (st, Break)
  else
  let contractFunds := initialContractFunds K (RenterAllowance renter) txnFee host in
  let '(unlocked, err) := wallet_Unlocked W in
  if negb unlocked || bool_decide (is_Some err)
  then (st, Return (errNew "the wallet is locked"))
  else
  if (Currency_Cmp (fm_fundsRemaining st) contractFunds <? 0)%Z
  then
    (mkForming (fm_c st) (fm_contractSet st) (fm_fundsRemaining st)
       (fm_neededContracts st) true, Break)
  else
  match managedNewContract W K (fm_c st) (PublicKey renter) host contractFunds endHeight with
  | (c, (_, _, Some _)) =>
      (mkForming c (fm_contractSet st) (fm_fundsRemaining st) (fm_neededContracts st)
         (fm_registerLowFundsAlert st), Continue)
  | (c, (fundsSpent, newContract, None)) =>
      let fundsRemaining := Currency_Sub (fm_fundsRemaining st) fundsSpent in
      let neededContracts := (fm_neededContracts st - 1)%Z in
      let contractSet := fm_contractSet st ++ [newContract] in
      let c :=
        (managedAcquireAndUpdateContractUtility W c (ID newContract)
           (mkUtility true true false)).1 in
      (mkForming c contractSet fundsRemaining neededContracts
         (fm_registerLowFundsAlert st), Continue)
  end.

Fixpoint formLoop (W : World) (K : Constants) (renter : Renter)
    (endHeight : BlockHeight) (txnFee : Currency) (hosts : list HostDBEntry)
    (st : forming) : forming * option error :=
  match hosts with
  | [] => (st, None)
  | host :: rest =>
      match formWithHost W K renter endHeight txnFee st host with
      | (st, Continue) => formLoop W K renter endHeight txnFee rest st
      | (st, Break) => (st, None)
      | (st, Return err) => (st, Some err)
      end
  end.

(** [FormContracts] returns the contract set and an error, or panics.
    The contractor is given as the deferred function leaves it, which
    runs on a panic too. *)
Definition FormContracts (W : World) (K : Constants) (c : Contractor)
    (rpk : SiaPublicKey) : Contractor * outcome (list RenterContract * option error) :=
  if negb (synced W) then (c, Done ([], Some (errNew "contractor isn't synced yet")))
  else
  match renters c !! rpk with
  | None => (c, Done ([], Some ErrRenterNotFound))
  | Some renter =>
  let blockHeight := blockHeight c in
  let allowance := RenterAllowance renter in
  let numHosts := Hosts allowance in
  if numHosts =? 0
  then (set_lowFundsAlert c false,
        Done ([], Some (errNew "zero number of hosts specified")))
  else
  let endHeight := add64 (add64 blockHeight (Period allowance)) (RenewWindow allowance) in
  match PeriodSpending_TotalAllocated W (PublicKey renter) with
  | inl err => (set_lowFundsAlert c false, Done ([], Some err))
  | inr totalAllocated =>
  let fundsRemaining := remainingFunds (Funds allowance) totalAllocated in
  (* make([]modules.RenterContract, 0, renter.Allowance.Hosts) *)
  if negb (makeslice_ok (maxAlloc K) (sizeofRenterContract K) (toInt (Hosts allowance)))
  then (set_lowFundsAlert c false, Panic "makeslice: cap out of range")
  else
  let contractSet :=
    countUploadContracts c (toInt (Hosts allowance))
      (ContractSet_ByRenter (staticContracts c) (PublicKey renter)) [] in
  let uploadContracts := Z.of_nat (length contractSet) in
  let neededContracts := (toInt (Hosts allowance) - uploadContracts)%Z in
  if (neededContracts <=? 0)%Z then (set_lowFundsAlert c false, Done (contractSet, None))
  else
  let allContracts := ContractSet_ByRenter (staticContracts c) (PublicKey renter) in
  let blacklist := HostPublicKey <$> allContracts in
  let addressBlacklist :=
    HostPublicKey <$>
      List.filter (fun contract =>
                     negb (Locked (Utility contract))
                     || GoodForRenew (Utility contract)
                     || GoodForUpload (Utility contract)) allContracts in
  (* the maximum and the minimum initial funding: [Currency.Div64]
     panics on a zero divisor *)
  if (MaxInitialContractFundingDivFactor K =? 0)
     || (MinInitialContractFundingDivFactor K =? 0)
  then (set_lowFundsAlert c false, Panic "division by zero")
  else
  match hdb_RandomHostsWithLimits W
          (wrapInt (neededContracts * 4 + Z.of_N (randomHostsBufferForScore K)))
          blacklist addressBlacklist allowance with
  | inl err => (set_lowFundsAlert c false, Done ([], Some err))
  | inr hosts =>
  let '(_, maxFee) := tpool_FeeEstimation W in
  let txnFee := maxFee * EstimatedFileContractTransactionSetSize K in
  match formLoop W K renter endHeight txnFee hosts
          (mkForming c contractSet fundsRemaining neededContracts false) with
  | (st, Some err) =>
      (set_lowFundsAlert (fm_c st) (fm_registerLowFundsAlert st), Done ([], Some err))
  | (st, None) =>
      (set_lowFundsAlert (fm_c st) (fm_registerLowFundsAlert st),
       Done (fm_contractSet st, None))
  end
  end
  end
  end.

(** The postcondition of a successful renewal, for the old id [id] and
    the new contract [nc]: [c] is the contractor before the call and [c']
    the contractor after it.  What is archived under [id] is the
    metadata of the contract that was live under [id], with the locked
    utility. *)
Definition renewed_state (c c' : Contractor) (id : FileContractID) (nc : RenterContract)
    : Prop :=
  (exists old, ContractSet_View (staticContracts c) id = Some old /\
               oldContracts c' !! id = Some (with_Utility old lockedUtility)) /\
  renewedFrom c' !! ID nc = Some id /\
  renewedTo c' !! id = Some (ID nc) /\
  ~ live c' id /\
  (exists x, ContractSet_View (staticContracts c') (ID nc) = Some x /\
             Utility x = mkUtility true true false).

(** The property read literally: every return with a nil error leaves
    the renewed state behind. *)
Definition renew_nil_error_literal (W : World) (K : Constants) (c : Contractor)
    (ri : fileContractRenewal) (bh eh : BlockHeight) : Prop :=
  match managedRenewContract W K c ri bh eh with
  | Done (c', (_, nc, None)) => renewed_state c c' (renewal_id ri) nc
  | _ => True
  end.

(** The run returns a nil error and the old contract is still live. *)
Definition renew_nil_error_old_live (W : World) (K : Constants) (c : Contractor)
    (ri : fileContractRenewal) (bh eh : BlockHeight) : bool :=
  match managedRenewContract W K c ri bh eh with
  | Done (c', (_, _, None)) =>
      bool_decide (is_Some (ContractSet_View (staticContracts c') (renewal_id ri)))
  | _ => false
  end.

(** What a nil-error return leaves behind when one of the two utility
    writes has failed: the old contract is live, and nothing is archived
    or linked. *)
Definition renewal_not_recorded (c c' : Contractor) (id : FileContractID) : Prop :=
  live c' id /\ oldContracts c' = oldContracts c /\
  renewedFrom c' = renewedFrom c /\ renewedTo c' = renewedTo c.

(** What the property says of the utility after a failed renewal, read
    literally, for a call that gets as far as the renewal attempt (the
    session is established and the host sends its settings) and returns
    an error, on a contract [old] of renter [renter] that is live before
    and after the call: the utility of the contract is the locked one
    when the contract had a recorded failure before the call, the block
    height plus half the renew window is at least the end height and the
    count, as the call leaves it, has reached
    [consecutiveRenewalsBeforeReplacement]; it is left as it was
    otherwise. *)
Definition renew_failure_literal (W : World) (K : Constants) (c : Contractor)
    (ri : fileContractRenewal) (bh eh : BlockHeight) : Prop :=
  forall c' spent nc e renter hs old old',
    managedRenewContract W K c ri bh eh = Done (c', (spent, nc, Some e)) ->
    renters c !! renewal_renterPubKey ri = Some renter ->
    host_Session W (renewal_renterPubKey ri) (renewal_hostPubKey ri) = None ->
    host_Settings W (renewal_renterPubKey ri) (renewal_hostPubKey ri) = inr hs ->
    ContractSet_View (staticContracts c) (renewal_id ri) = Some old ->
    ContractSet_View (staticContracts c') (renewal_id ri) = Some old' ->
    let failedBefore := is_Some (numFailedRenews c !! renewal_id ri) in
    let secondHalf :=
      EndHeight old <= add64 bh (RenewWindow (RenterAllowance renter) / 2) in
    let reached :=
      consecutiveRenewalsBeforeReplacement K
      <= default 0 (numFailedRenews c' !! renewal_id ri) in
    (failedBefore /\ secondHalf /\ reached -> Utility old' = lockedUtility) /\
    (~ (failedBefore /\ secondHalf /\ reached) -> Utility old' = Utility old).

(** A contract is low on funds: less than three sectors' worth is left,
    or the share of the total cost that is left is below the threshold. *)
Definition lowOnFunds (K : Constants) (allowance : Allowance) (host : HostDBEntry)
    (rc : RenterContract) : Prop :=
  RenterFunds rc < sectorPrice K allowance host * 3 \/
  belowMinContractFundRenewalThreshold K (RenterFunds rc) (TotalCost rc) = true.



(** The contract a log line is about. *)
Definition eventContract (e : event) : FileContractID :=
  match e with
  | EvDuplicate n _ => n
  | EvCallingRenew id => id
  | EvSkipLowFunds id => id
  | EvMarkedBad id => id
  | EvRenewed id => id
  | EvRenewError id => id
  end.

(** The log lines are about contracts of the given set. *)
Definition aboutSet (set : list fileContractRenewal) (E : list event) : Prop :=
  Forall (fun e => eventContract e ∈ renewal_id <$> set) E.

(** The ids of the renew set and of the refresh set. *)
Definition renewalIDs (cls : classification) : list FileContractID :=
  renewal_id <$> (cls_renewSet cls ++ cls_refreshSet cls).

(** The reset read literally: after a pass that ran to its end, the map
    holds, for the ids of the two sets, what it held before the pass, and
    nothing else. *)
Definition failed_renews_literal (W : World) (K : Constants) (c : Contractor)
    (rpk : SiaPublicKey) (contracts : list FileContractID) : Prop :=
  forall renter cls st c' cs,
    renters c !! rpk = Some renter ->
    renewPhase W K c renter contracts = Done (inr (cls, (st, None))) ->
    RenewContracts W K c rpk contracts = Done (c', (cs, None)) ->
    forall id,
      numFailedRenews c' !! id =
      if bool_decide (id ∈ renewalIDs cls) then numFailedRenews c !! id else None.

(** ** Example constants, collaborators and states *)

Module Examples.

(** The float64 nearest to 0.15. *)
Definition float_0_15 : float64 := mkFloat 5404319552844595 36028797018963968.

Definition K3 : Constants :=
  {| fileContractMinimumFunding := float_0_15;
     consecutiveRenewalsBeforeReplacement := 3;
     maxStoragePrice := 1000000;
     maxCollateral := 1000000;
     EstimatedFileContractTransactionSetSize := 2048;
     SectorSize := 4194304;
     belowMinContractFundRenewalThreshold := fun funds total => funds * 100 <? total * 3;
     randomHostsBufferForScore := 50;
     ContractFeeFundingMulFactor := 4;
     MaxInitialContractFundingMulFactor := 10;
     MaxInitialContractFundingDivFactor := 3;
     MinInitialContractFundingDivFactor := 20;
     maxAlloc := 2 ^ 48;
     sizeofRenterContract := 512 |}.

Definition settings : HostExternalSettings := mkSettings 1 100 1 1 1 1 5000 500 true.

Definition hostOf (pk : SiaPublicKey) : HostDBEntry := mkHost pk settings false.

(** The contract a host hands back on a renewal: a new id, the same
    parties, the new term and funding. *)
Definition renewed (old : RenterContract) (funding : Currency)
    (startHeight endHeight : BlockHeight) : RenterContract :=
  mkContract (ID old + 100) (RenterPublicKey old) (HostPublicKey old)
    startHeight endHeight funding funding 0 0 0 (mkMaintenance 0 0 0)
    (mkUtility false false false) [mkRevision 0].

(** Collaborators that all answer; [renewError] is what the host
    answers to a renewal, if it refuses; [writeFails] tells which utility
    writes fail; [score] is the score of a host; [allocated] is the
    spending of the period. *)
Definition world (renewError : option error)
    (writeFails : FileContractID -> ContractUtility -> bool)
    (score : SiaPublicKey -> Currency) (allocated : Currency) : World :=
  {| hdb_lookup := fun pk => inr (Some (hostOf pk));
     hdb_ScoreBreakdown := fun h => inr (score (HostKey h));
     hdb_RandomHostsWithLimits := fun _ _ _ _ => inr [hostOf "Hn1"; hostOf "Hn2"];
     tpool_FeeEstimation := (1, 10);
     types_Tax := fun _ payout => payout * 39 / 1000;
     synced := true;
     stopped := false;
     wallet_Unlocked := (true, None);
     wallet_NextAddress := None;
     wallet_MarkAddressUnused := None;
     wallet_PrimarySeed := None;
     wallet_StartTransaction := None;
     txnBuilder_FundSiacoins := fun _ => None;
     host_Session := fun _ _ => None;
     host_Settings := fun _ _ => inr settings;
     negotiate_Renew := fun old _ funding sh eh =>
       match renewError with
       | Some e => inl e
       | None => inr (renewed old funding sh eh)
       end;
     negotiate_Form := fun rpk host funding sh eh =>
       inr (mkContract (if String.eqb (HostKey host) "Hn1" then 7001 else 7002)
              rpk (HostKey host) sh eh funding funding 0 0 0
              (mkMaintenance 0 0 0) (mkUtility false false false) [mkRevision 0]);
     watchdog_callMonitorContract := fun _ => None;
     write_UpdateUtility := fun id u =>
       if writeFails id u then Some (errExternal false "write failed") else None;
     PeriodSpending_TotalAllocated := fun _ => inr allocated |}.

Definition noScore (pk : SiaPublicKey) : Currency := 0.

Definition friendly : World := world None (fun _ _ => false) noScore 0.

(** The host refuses every renewal. *)
Definition refusing : World :=
  world (Some (errExternal true "host refused")) (fun _ _ => false) noScore 0.

(** The write of a good utility fails. *)
Definition goodWriteFails : World :=
  world None (fun _ u => GoodForUpload u) noScore 0.

(** The write of a locked utility fails. *)
Definition lockWriteFails : World :=
  world None (fun _ u => Locked u) noScore 0.

(** The host refuses every renewal and the write of a locked utility
    fails. *)
Definition refusingLockWriteFails : World :=
  world (Some (errExternal true "host refused")) (fun _ u => Locked u) noScore 0.

Definition allowance : Allowance := mkAllowance 100000 2 1000 100 0 0 0 false.

Definition renterR : Renter := mkRenter "R" "r@example.org" 0 allowance.

Definition contract (id : N) (h : string) (endHeight : N) (funds : Currency)
    (u : ContractUtility) : RenterContract :=
  mkContract id "R" h 0 endHeight 1000 funds 0 0 0 (mkMaintenance 0 0 0) u
    [mkRevision 0].

Definition good : ContractUtility := mkUtility true true false.
Definition renewOnly : ContractUtility := mkUtility false true false.

(** A contractor at height [bh] with the given live contracts and
    renew-failure counters. *)
Definition contractor (bh : BlockHeight) (cs : list RenterContract)
    (failed : gmap FileContractID BlockHeight) : Contractor :=
  mkContractor cs {["R" := renterR]} ∅ ∅ ∅ ∅ failed ∅ bh false [].

(** One contract with host H, ending at height 1000, seen at 950. *)
Definition oneContract : Contractor :=
  contractor 950 [contract 1 "H" 1000 500 good] ∅.

Definition renewOne : fileContractRenewal := mkRenewal 1 2000 "H" "R".

Definition renewedOne : RenterContract :=
  renewed (contract 1 "H" 1000 500 good) 2000 950 2100.

(** Scenario S4: the contract with host H ends at 1000 and is seen at
    960, in the second half of the renew window of 100 blocks. *)
Definition lateContract (failed : gmap FileContractID BlockHeight) : Contractor :=
  contractor 960 [contract 1 "H" 1000 500 good] failed.

(** The state after a renewal attempt. *)
Definition attempt (W : World) (c : Contractor) : Contractor :=
  (delivered (managedRenewContract W K3 c renewOne 960 2100)
     (c, (0, zeroRenterContract, None))).1.

(** Host Ha scores 10 and host Hb scores 20. *)
Definition scoreAB (pk : SiaPublicKey) : Currency :=
  if String.eqb pk "Ha" then 10 else if String.eqb pk "Hb" then 20 else 0.

Definition scored : World := world None (fun _ _ => false) scoreAB 0.

(** A renter who wants one host and has two GFU contracts. *)
Definition twoGFU : Contractor :=
  mkContractor [contract 1 "Ha" 1000 500 good; contract 2 "Hb" 1000 500 good]
    {["R" := mkRenter "R" "r@example.org" 0 (mkAllowance 10000 1 1000 100 0 0 0 false)]}
    ∅ ∅ ∅ ∅ ∅ ∅ 500 false [].


(** The same contract, good for renew only. *)
Definition exhausted : Contractor :=
  contractor 500 [contract 1 "H" 1000 10 renewOnly] ∅.

(** The classification and the state after the two loops of a pass
    for renter R. *)
Definition phaseOf (W : World) (c : Contractor) (ids : list FileContractID)
    : classification * (progress * option (option error)) :=
  match renewPhase W K3 c renterR ids with
  | Done (inr r) => r
  | _ => (emptyClassification, (mkProgress c [] 0 false, None))
  end.

(** The state after a pass for renter R. *)
Definition afterPass (W : World) (c : Contractor) (ids : list FileContractID)
    : Contractor :=
  (delivered (RenewContracts W K3 c "R" ids) (c, ([], None))).1.

(** The period's spending exceeds the allowance. *)
Definition overspent : World := world None (fun _ _ => false) noScore 250000.

(** A renter without contracts. *)
Definition noContracts : Contractor := contractor 500 [] ∅.

(** A renter without contracts who asks for 2^62 hosts. *)
Definition hugeHostCount : Contractor :=
  mkContractor []
    {["R" := mkRenter "R" "r@example.org" 0
               (mkAllowance 100000 (2 ^ 62) 1000 100 0 0 0 false)]}
    ∅ ∅ ∅ ∅ ∅ ∅ 500 false [].

(** One contract with host H that has been marked bad and locked. *)
Definition lockedContract : Contractor :=
  contractor 950 [contract 1 "H" 1000 500 (mkUtility false false true)] ∅.

(** The collaborators of [friendly], with a wallet that is locked and
    reports no error. *)
Definition lockedWallet : World :=
  {| hdb_lookup := hdb_lookup friendly;
     hdb_ScoreBreakdown := hdb_ScoreBreakdown friendly;
     hdb_RandomHostsWithLimits := hdb_RandomHostsWithLimits friendly;
     tpool_FeeEstimation := tpool_FeeEstimation friendly;
     types_Tax := types_Tax friendly;
     synced := true;
     stopped := false;
     wallet_Unlocked := (false, None);
     wallet_NextAddress := None;
     wallet_MarkAddressUnused := None;
     wallet_PrimarySeed := None;
     wallet_StartTransaction := None;
     txnBuilder_FundSiacoins := txnBuilder_FundSiacoins friendly;
     host_Session := host_Session friendly;
     host_Settings := host_Settings friendly;
     negotiate_Renew := negotiate_Renew friendly;
     negotiate_Form := negotiate_Form friendly;
     watchdog_callMonitorContract := watchdog_callMonitorContract friendly;
     write_UpdateUtility := write_UpdateUtility friendly;
     PeriodSpending_TotalAllocated := PeriodSpending_TotalAllocated friendly |}.

(** Two contracts in their renew window. *)
Definition twoInWindow : Contractor :=
  contractor 950 [contract 1 "H" 1000 500 good; contract 2 "G" 1000 500 good] ∅.

(** 60000 of the allowance of 100000 are allocated: what is left pays
    for one renewal of 27444, not for two. *)
Definition tight : World := world None (fun _ _ => false) noScore 60000.

(** Host Ha scores 10, host Hb 20 and every other host 30. *)
Definition scoreABC (pk : SiaPublicKey) : Currency :=
  if String.eqb pk "Ha" then 10 else if String.eqb pk "Hb" then 20 else 30.

(** The host database draws the hosts Hb, Ha and Hc. *)
Definition sampling : World :=
  {| hdb_lookup := hdb_lookup friendly;
     hdb_ScoreBreakdown := fun h => inr (scoreABC (HostKey h));
     hdb_RandomHostsWithLimits := fun _ _ _ _ => inr [hostOf "Hb"; hostOf "Ha"; hostOf "Hc"];
     tpool_FeeEstimation := tpool_FeeEstimation friendly;
     types_Tax := types_Tax friendly;
     synced := true;
     stopped := false;
     wallet_Unlocked := (true, None);
     wallet_NextAddress := None;
     wallet_MarkAddressUnused := None;
     wallet_PrimarySeed := None;
     wallet_StartTransaction := None;
     txnBuilder_FundSiacoins := txnBuilder_FundSiacoins friendly;
     host_Session := host_Session friendly;
     host_Settings := host_Settings friendly;
     negotiate_Renew := negotiate_Renew friendly;
     negotiate_Form := negotiate_Form friendly;
     watchdog_callMonitorContract := watchdog_callMonitorContract friendly;
     write_UpdateUtility := write_UpdateUtility friendly;
     PeriodSpending_TotalAllocated := PeriodSpending_TotalAllocated friendly |}.

(** Scenario S6: two contracts with host Hx, one good for upload and one
    canceled, and a contract with another host. *)
Definition withHx : Contractor :=
  contractor 500
    [contract 1 "Hx" 1000 500 good;
     contract 2 "Hx" 1000 500 (mkUtility false false true);
     contract 3 "Hy" 1000 500 good] ∅.

(** A cancellation that records the id in the log. *)
Definition cancelAndLog (c : Contractor) (id : FileContractID)
    : Contractor * option error :=
  (logEvent c (EvMarkedBad id), None).

End Examples.

(** ** Further definitions *)

(** What the loop of [managedCheckForDuplicates] never touches. *)
Definition dedup_untouched (c0 c : Contractor) : Prop :=
  renters c = renters c0 /\ pubKeysToContractID c = pubKeysToContractID c0 /\
  numFailedRenews c = numFailedRenews c0 /\ renewing c = renewing c0 /\
  blockHeight c = blockHeight c0 /\ lowFundsAlert c = lowFundsAlert c0 /\
  (forall x, x ∈ staticContracts c -> x ∈ staticContracts c0) /\
  (forall id, ~ live c0 id ->
     renewedFrom c !! id = renewedFrom c0 !! id /\
     renewedTo c !! id = renewedTo c0 !! id /\
     oldContracts c !! id = oldContracts c0 !! id).


(** What holds of a renewal instruction [r] that [RenewContracts]
    assembles for the renter: it names a live contract [rc] of the
    renter that is good for renew, and the host [host] of that contract,
    which is known, not filtered and speaks a supported protocol
    version. *)
Definition renewalOf (W : World) (c : Contractor) (renter : Renter)
    (r : fileContractRenewal) (rc : RenterContract) (host : HostDBEntry) : Prop :=
  ContractSet_View (staticContracts c) (renewal_id r) = Some rc /\
  RenterPublicKey rc = PublicKey renter /\
  renewal_renterPubKey r = PublicKey renter /\
  renewal_hostPubKey r = HostPublicKey rc /\
  GoodForRenew (Utility rc) = true /\
  hdb_lookup W (HostPublicKey rc) = inr (Some host) /\
  Filtered host = false /\ VersionSupported (Settings host) = true.

(** The three sets that the first loop of [RenewContracts] assembles
    from the submitted ids [ids], at block height [bh]. *)
Definition classified (W : World) (K : Constants) (c : Contractor) (renter : Renter)
    (bh : BlockHeight) (ids : list FileContractID) (cls : classification) : Prop :=
  let a := RenterAllowance renter in
  (forall rc, rc ∈ cls_contractSet cls ->
     ID rc ∈ ids /\ ContractSet_View (staticContracts c) (ID rc) = Some rc /\
     RenterPublicKey rc = PublicKey renter /\
     GoodForUpload (Utility rc) = true /\
     add64 bh (RenewWindow a) < EndHeight rc) /\
  (forall r, r ∈ cls_renewSet cls ->
     renewal_id r ∈ ids /\ minimumFunding K a <= renewal_amount r /\
     exists rc host, renewalOf W c renter r rc host /\
       EndHeight rc <= add64 bh (RenewWindow a) /\
       managedEstimateRenewFundingRequirements W K c rc bh a
       = Done (renewal_amount r, None)) /\
  (forall r, r ∈ cls_refreshSet cls ->
     renewal_id r ∈ ids /\ minimumFunding K a <= renewal_amount r /\
     exists rc host, renewalOf W c renter r rc host /\
       add64 bh (RenewWindow a) < EndHeight rc /\
       lowOnFunds K a host rc /\
       renewal_amount r = N.max (TotalCost rc * 2) (minimumFunding K a)).

(** The log line that reports a renewal skipped for lack of funds. *)
Definition isSkipLowFunds (e : event) : bool :=
  match e with
  | EvSkipLowFunds _ => true
  | _ => false
  end.

(** The early return that the loops of [RenewContracts] take before
    they touch a contract: the stop channel is closed, or the wallet is
    locked or cannot tell.  [Some err] is the error returned, which is
    nil for a wallet that is merely locked. *)
Definition halted (W : World) : option (option error) :=
  if stopped W then Some (Some (errNew "the manager was stopped"))
  else if negb (wallet_Unlocked W).1 || bool_decide (is_Some (wallet_Unlocked W).2)
       then Some (wallet_Unlocked W).2
       else None.

(** A contract with its [GoodForUpload] flag cleared, the way
    [managedLimitGFUHosts] writes it. *)
Definition demoted (rc : RenterContract) : RenterContract :=
  with_Utility rc
    (mkUtility false (GoodForRenew (Utility rc)) (Locked (Utility rc))).

(** A GFU contract of renter [r] that is still good for upload in the
    contract set [cs]. *)
Definition stillGFU (cs : list RenterContract) (r : SiaPublicKey) (g : gfuContract)
    : bool :=
  String.eqb (renterOf g) r
  && match ContractSet_View cs (ID (gfu_c g)) with
     | Some rc => GoodForUpload (Utility rc)
     | None => false
     end.

(** *** managedFindMinAllowedHostScores *)

(** The loop over [hosts[1:]] that keeps the lowest score; [inl] is the
    early return on a failing [ScoreBreakdown]. *)
Fixpoint lowestScoreOf (W : World) (hosts : list HostDBEntry) (lowestScore : Currency)
    : error + Currency :=
  match hosts with
  | [] => inr lowestScore
  | host :: rest =>
      match hdb_ScoreBreakdown W host with
      | inl err => inl err
      | inr score =>
          lowestScoreOf W rest
            (if (Currency_Cmp score lowestScore <? 0)%Z then score else lowestScore)
      end
  end.

(** [managedFindMinAllowedHostScores] returns
    [(minScoreGFR, minScoreGFU, err)].  The two leeway constants are
    declared outside the sources at hand; [Currency.Div] panics on a
    zero divisor. *)
Definition managedFindMinAllowedHostScores (W : World) (K : Constants)
    (scoreLeewayGoodForRenew scoreLeewayGoodForUpload : Currency)
    (c : Contractor) (rpk : SiaPublicKey)
    : outcome (Currency * Currency * option error) :=
  match renters c !! rpk with
  | None => Done (ZeroCurrency, ZeroCurrency, Some ErrRenterNotFound)
  | Some renter =>
  let hostCount := toInt (Hosts (RenterAllowance renter)) in
  match hdb_RandomHostsWithLimits W
          (wrapInt (hostCount + Z.of_N (randomHostsBufferForScore K))) [] []
          (RenterAllowance renter) with
  | inl err => Done (ZeroCurrency, ZeroCurrency, Some err)
  | inr hosts =>
  match hosts with
  | [] => Done (ZeroCurrency, ZeroCurrency,
                Some (errNew "No hosts returned in RandomHosts"))
  | host0 :: rest =>
  match hdb_ScoreBreakdown W host0 with
  | inl err => Done (ZeroCurrency, ZeroCurrency, Some err)
  | inr score0 =>
  match lowestScoreOf W rest score0 with
  | inl err => Done (ZeroCurrency, ZeroCurrency, Some err)
  | inr lowestScore =>
  if scoreLeewayGoodForRenew =? 0 then Panic "division by zero"
  else if scoreLeewayGoodForUpload =? 0 then Panic "division by zero"
  else Done (lowestScore / scoreLeewayGoodForRenew,
             lowestScore / scoreLeewayGoodForUpload, None)
  end end end end
  end.

(** *** managedPruneRedundantAddressRange *)

(** "Contract is canceled." *)
Definition isCanceled (u : ContractUtility) : bool :=
  Locked u && negb (GoodForRenew u) && negb (GoodForUpload u).

(** One iteration of the loop that collects the public keys of the
    hosts, each once, and the contract ids by host. *)
Definition groupByHost
    (acc : gset string * list SiaPublicKey * gmap string (list FileContractID))
    (contract : RenterContract)
    : gset string * list SiaPublicKey * gmap string (list FileContractID) :=
  let '(hosts, pks, cids) := acc in
  let key := HostPublicKey contract in
  let '(hosts, pks) :=
    if bool_decide (key ∈ hosts) then (hosts, pks)
    else ({[key]} ∪ hosts, pks ++ [HostPublicKey contract]) in
  let cids :=
    match cids !! key with
    | Some fcids => <[key := fcids ++ [ID contract]]> cids
    | None => <[key := [ID contract]]> cids
    end in
  (hosts, pks, cids).

(** The contracts that are not canceled, and what the loop makes of
    them: the keys handed to [CheckForIPViolations] and the map [cids]. *)
Definition pruneCandidates (c : Contractor)
    : list SiaPublicKey * gmap string (list FileContractID) :=
  let allContracts := ContractSet_ViewAll (staticContracts c) in
  let contracts :=
    List.filter (fun contract => negb (isCanceled (Utility contract))) allContracts in
  let '(_, pks, cids) := fold_left groupByHost contracts (∅, [], ∅) in
  (pks, cids).

(** [managedPruneRedundantAddressRange].  [CheckForIPViolations] is a
    call into the host database and [managedCancelContract] is declared
    outside the sources at hand: both are parameters.  An error of
    [managedCancelContract] is only logged. *)
Definition managedPruneRedundantAddressRange
    (hdb_CheckForIPViolations : list SiaPublicKey -> error + list SiaPublicKey)
    (managedCancelContract : Contractor -> FileContractID -> Contractor * option error)
    (c : Contractor) : Contractor :=
  let '(pks, cids) := pruneCandidates c in
  match hdb_CheckForIPViolations pks with
  | inl _ => c
  | inr badHosts =>
      fold_left
        (fun c host =>
           fold_left (fun c fcid => (managedCancelContract c fcid).1)
             (default [] (cids !! host)) c)
        badHosts c
  end.

(** The live contracts with host [host] that are not canceled. *)
Definition activeWith (c : Contractor) (host : SiaPublicKey) : list RenterContract :=
  List.filter
    (fun contract => negb (isCanceled (Utility contract))
                     && String.eqb (HostPublicKey contract) host)
    (staticContracts c).

(** ** The provider: requests on the wire *)

Module Provider.

(** The calls into [types.Encoder] and [types.Decoder] of
    go.sia.tech/core that encoding.go makes.  An encoder appends bytes;
    a decoder reads from where the last read ended and keeps its own
    record of a failed read.  [Signature.DecodeFrom] reads into the
    signature it is called on. *)
Record Wire : Type := mkWire {
  decoder : Type;
  NewBufDecoder : list Byte.byte -> decoder;
  WriteUint64 : N -> list Byte.byte;
  ReadUint64 : decoder -> N * decoder;
  WriteBytes : list Byte.byte -> list Byte.byte;
  ReadBytes : decoder -> list Byte.byte * decoder;
  Currency_EncodeTo : N -> list Byte.byte;
  Currency_DecodeFrom : decoder -> N * decoder;
  Signature_EncodeTo : list Byte.byte -> list Byte.byte;
  Signature_DecodeFrom : list Byte.byte -> decoder -> list Byte.byte * decoder
}.

(** What the decoder reads back from bytes that the encoder wrote,
    whatever follows them: a [uint64], a byte slice, a 128-bit currency,
    a signature of 64 bytes. *)
Record WireLaws (w : Wire) : Prop := {
  read_uint64 : forall n rest, n < 2 ^ 64 ->
    ReadUint64 w (NewBufDecoder w (WriteUint64 w n ++ rest))
    = (n, NewBufDecoder w rest);
  read_bytes : forall b rest, N.of_nat (length b) < 2 ^ 64 ->
    ReadBytes w (NewBufDecoder w (WriteBytes w b ++ rest))
    = (b, NewBufDecoder w rest);
  read_currency : forall c rest, c < 2 ^ 128 ->
    Currency_DecodeFrom w (NewBufDecoder w (Currency_EncodeTo w c ++ rest))
    = (c, NewBufDecoder w rest);
  read_signature : forall s old rest, length s = 64%nat ->
    Signature_DecodeFrom w old (NewBufDecoder w (Signature_EncodeTo w s ++ rest))
    = (s, NewBufDecoder w rest)
}.

(** [copy(dst, src)] on byte slices, as the new contents of [dst]. *)
Definition copy (dst src : list Byte.byte) : list Byte.byte :=
  take (length dst) src ++ drop (length src) dst.

Record formRequest : Type := mkFormRequest {
  fr_PubKey : list Byte.byte;      (* [32]byte *)
  fr_Hosts : N;
  fr_Period : N;
  fr_RenewWindow : N;
  fr_Storage : N;
  fr_Upload : N;
  fr_Download : N;
  fr_MinShards : N;
  fr_TotalShards : N;
  fr_MaxRPCPrice : N;
  fr_MaxContractPrice : N;
  fr_MaxDownloadPrice : N;
  fr_MaxUploadPrice : N;
  fr_MaxStoragePrice : N;
  fr_MaxSectorAccessPrice : N;
  fr_Signature : list Byte.byte    (* [64]byte *)
}.

(** [formRequest.DecodeFrom], called on [fr]. *)
Definition formRequest_DecodeFrom (w : Wire) (fr : formRequest) (d : decoder w)
    : formRequest * decoder w :=
  let '(b, d) := ReadBytes w d in
  let PubKey := copy (fr_PubKey fr) b in
  let '(Hosts, d) := ReadUint64 w d in
  let '(Period, d) := ReadUint64 w d in
  let '(RenewWindow, d) := ReadUint64 w d in
  let '(Storage, d) := ReadUint64 w d in
  let '(Upload, d) := ReadUint64 w d in
  let '(Download, d) := ReadUint64 w d in
  let '(MinShards, d) := ReadUint64 w d in
  let '(TotalShards, d) := ReadUint64 w d in
  let '(MaxRPCPrice, d) := Currency_DecodeFrom w d in
  let '(MaxContractPrice, d) := Currency_DecodeFrom w d in
  let '(MaxDownloadPrice, d) := Currency_DecodeFrom w d in
  let '(MaxUploadPrice, d) := Currency_DecodeFrom w d in
  let '(MaxStoragePrice, d) := Currency_DecodeFrom w d in
  let '(MaxSectorAccessPrice, d) := Currency_DecodeFrom w d in
  let '(Signature, d) := Signature_DecodeFrom w (fr_Signature fr) d in
  (mkFormRequest PubKey Hosts Period RenewWindow Storage Upload Download
     MinShards TotalShards MaxRPCPrice MaxContractPrice MaxDownloadPrice
     MaxUploadPrice MaxStoragePrice MaxSectorAccessPrice Signature, d).

(** [formRequest.EncodeTo]: the bytes written. *)
Definition formRequest_EncodeTo (w : Wire) (fr : formRequest) : list Byte.byte :=
  WriteBytes w (fr_PubKey fr)
  ++ WriteUint64 w (fr_Hosts fr)
  ++ WriteUint64 w (fr_Period fr)
  ++ WriteUint64 w (fr_RenewWindow fr)
  ++ WriteUint64 w (fr_Storage fr)
  ++ WriteUint64 w (fr_Upload fr)
  ++ WriteUint64 w (fr_Download fr)
  ++ WriteUint64 w (fr_MinShards fr)
  ++ WriteUint64 w (fr_TotalShards fr)
  ++ Currency_EncodeTo w (fr_MaxRPCPrice fr)
  ++ Currency_EncodeTo w (fr_MaxContractPrice fr)
  ++ Currency_EncodeTo w (fr_MaxDownloadPrice fr)
  ++ Currency_EncodeTo w (fr_MaxUploadPrice fr)
  ++ Currency_EncodeTo w (fr_MaxStoragePrice fr)
  ++ Currency_EncodeTo w (fr_MaxSectorAccessPrice fr).

(** The fields of a request are within the range of their Go types. *)
Definition formRequest_wf (fr : formRequest) : Prop :=
  length (fr_PubKey fr) = 32%nat /\ length (fr_Signature fr) = 64%nat /\
  Forall (fun n => n < 2 ^ 64)
    [fr_Hosts fr; fr_Period fr; fr_RenewWindow fr; fr_Storage fr; fr_Upload fr;
     fr_Download fr; fr_MinShards fr; fr_TotalShards fr] /\
  Forall (fun c => c < 2 ^ 128)
    [fr_MaxRPCPrice fr; fr_MaxContractPrice fr; fr_MaxDownloadPrice fr;
     fr_MaxUploadPrice fr; fr_MaxStoragePrice fr; fr_MaxSectorAccessPrice fr].

Record renewRequest : Type := mkRenewRequest {
  rr_PubKey : list Byte.byte;              (* [32]byte *)
  rr_Contracts : list (list Byte.byte);    (* each a [32]byte *)
  rr_Period : N;
  rr_RenewWindow : N;
  rr_Storage : N;
  rr_Upload : N;
  rr_Download : N;
  rr_MinShards : N;
  rr_TotalShards : N;
  rr_MaxRPCPrice : N;
  rr_MaxContractPrice : N;
  rr_MaxDownloadPrice : N;
  rr_MaxUploadPrice : N;
  rr_MaxStoragePrice : N;
  rr_MaxSectorAccessPrice : N;
  rr_Signature : list Byte.byte            (* [64]byte *)
}.

(** The loop that fills [rr.Contracts], each id a fresh array of 32
    zero bytes that the bytes read are copied into. *)
Fixpoint readContracts (w : Wire) (numContracts : nat) (d : decoder w)
    : list (list Byte.byte) * decoder w :=
  match numContracts with
  | O => ([], d)
  | S n =>
      let '(b, d) := ReadBytes w d in
      let id := copy (replicate 32 Byte.x00) b in
      let '(ids, d) := readContracts w n d in
      (id :: ids, d)
  end.

(** [renewRequest.DecodeFrom], called on [rr].  [maxAlloc] is the
    largest allocation of the Go runtime; a [types.FileContractID] takes
    32 bytes, and [make] panics on a length that is negative or asks for
    more than [maxAlloc] bytes. *)
Definition renewRequest_DecodeFrom (w : Wire) (maxAlloc : N) (rr : renewRequest)
    (d : decoder w) : outcome (renewRequest * decoder w) :=
  let '(b, d) := ReadBytes w d in
  let PubKey := copy (rr_PubKey rr) b in
  let '(n, d) := ReadUint64 w d in
  let numContracts := toInt n in
  if negb (makeslice_ok maxAlloc 32 numContracts)
  then Panic "makeslice: len out of range"
  else
  let '(Contracts, d) := readContracts w (Z.to_nat numContracts) d in
  let '(Period, d) := ReadUint64 w d in
  let '(RenewWindow, d) := ReadUint64 w d in
  let '(Storage, d) := ReadUint64 w d in
  let '(Upload, d) := ReadUint64 w d in
  let '(Download, d) := ReadUint64 w d in
  let '(MinShards, d) := ReadUint64 w d in
  let '(TotalShards, d) := ReadUint64 w d in
  let '(MaxRPCPrice, d) := Currency_DecodeFrom w d in
  let '(MaxContractPrice, d) := Currency_DecodeFrom w d in
  let '(MaxDownloadPrice, d) := Currency_DecodeFrom w d in
  let '(MaxUploadPrice, d) := Currency_DecodeFrom w d in
  let '(MaxStoragePrice, d) := Currency_DecodeFrom w d in
  let '(MaxSectorAccessPrice, d) := Currency_DecodeFrom w d in
  let '(Signature, d) := Signature_DecodeFrom w (rr_Signature rr) d in
  Done (mkRenewRequest PubKey Contracts Period RenewWindow Storage Upload Download
          MinShards TotalShards MaxRPCPrice MaxContractPrice MaxDownloadPrice
          MaxUploadPrice MaxStoragePrice MaxSectorAccessPrice Signature, d).

(** [renewRequest.EncodeTo]: the bytes written. *)
Definition renewRequest_EncodeTo (w : Wire) (rr : renewRequest) : list Byte.byte :=
  WriteBytes w (rr_PubKey rr)
  ++ WriteUint64 w (wrap64 (N.of_nat (length (rr_Contracts rr))))
  ++ concat (WriteBytes w <$> rr_Contracts rr)
  ++ WriteUint64 w (rr_Period rr)
  ++ WriteUint64 w (rr_RenewWindow rr)
  ++ WriteUint64 w (rr_Storage rr)
  ++ WriteUint64 w (rr_Upload rr)
  ++ WriteUint64 w (rr_Download rr)
  ++ WriteUint64 w (rr_MinShards rr)
  ++ WriteUint64 w (rr_TotalShards rr)
  ++ Currency_EncodeTo w (rr_MaxRPCPrice rr)
  ++ Currency_EncodeTo w (rr_MaxContractPrice rr)
  ++ Currency_EncodeTo w (rr_MaxDownloadPrice rr)
  ++ Currency_EncodeTo w (rr_MaxUploadPrice rr)
  ++ Currency_EncodeTo w (rr_MaxStoragePrice rr)
  ++ Currency_EncodeTo w (rr_MaxSectorAccessPrice rr).

Definition renewRequest_wf (rr : renewRequest) : Prop :=
  length (rr_PubKey rr) = 32%nat /\ length (rr_Signature rr) = 64%nat /\
  Forall (fun id => length id = 32%nat) (rr_Contracts rr) /\
  N.of_nat (length (rr_Contracts rr)) < 2 ^ 63 /\
  Forall (fun n => n < 2 ^ 64)
    [rr_Period rr; rr_RenewWindow rr; rr_Storage rr; rr_Upload rr;
     rr_Download rr; rr_MinShards rr; rr_TotalShards rr] /\
  Forall (fun c => c < 2 ^ 128)
    [rr_MaxRPCPrice rr; rr_MaxContractPrice rr; rr_MaxDownloadPrice rr;
     rr_MaxUploadPrice rr; rr_MaxStoragePrice rr; rr_MaxSectorAccessPrice rr].

(** A wire that keeps the laws: integers little-endian on 8 bytes,
    currencies on 16, byte slices behind their length, signatures as
    they are. *)
Fixpoint leBytes (k : nat) (n : N) : list Byte.byte :=
  match k with
  | O => []
  | S k' => default Byte.x00 (Byte.of_N (n mod 256)) :: leBytes k' (n / 256)
  end.

Fixpoint leValue (bs : list Byte.byte) : N :=
  match bs with
  | [] => 0
  | b :: bs' => Byte.to_N b + 256 * leValue bs'
  end.

Definition littleEndian : Wire :=
  {| decoder := list Byte.byte;
     NewBufDecoder := fun bs => bs;
     WriteUint64 := leBytes 8;
     ReadUint64 := fun d => (leValue (take 8 d), drop 8 d);
     WriteBytes := fun b => leBytes 8 (N.of_nat (length b)) ++ b;
     ReadBytes := fun d =>
       let n := N.to_nat (leValue (take 8 d)) in
       (take n (drop 8 d), drop n (drop 8 d));
     Currency_EncodeTo := leBytes 16;
     Currency_DecodeFrom := fun d => (leValue (take 16 d), drop 16 d);
     Signature_EncodeTo := fun s => s;
     Signature_DecodeFrom := fun _ d => (take 64 d, drop 64 d) |}.

(** A request to form contracts with two hosts. *)
Definition exampleForm : formRequest :=
  mkFormRequest (replicate 32 Byte.x01) 2 1000 100 5 6 7 10 30
    11 12 13 14 15 16 (replicate 64 Byte.x02).

(** A request to renew two contracts. *)
Definition exampleRenew : renewRequest :=
  mkRenewRequest (replicate 32 Byte.x01)
    [replicate 32 Byte.x03; replicate 32 Byte.x04] 1000 100 5 6 7 10 30
    11 12 13 14 15 16 (replicate 64 Byte.x02).

End Provider.

(** ** The node API: middleware and client helpers *)

Module API.

(** What the middleware reads of a request: the user agent, and what
    [req.BasicAuth()] yields, the user name and password of a well-formed
    basic authorization header. *)
Record Request : Type := mkRequest {
  Method : string;
  URL : string;
  UserAgent : string;
  Authorization : option (string * string)
}.

(** What a handler writes: the header, the status code and the body. *)
Inductive body : Type :=
  | JSONError (message : string)    (* the encoding of [Error{message}] *)
  | Written (s : string).

Record Response : Type := mkResponse {
  Header : gmap string string;
  StatusCode : N;
  Body : body
}.

Definition Handle : Type := Request -> Response.

Definition StatusBadRequest : N := 400.
Definition StatusUnauthorized : N := 401.

(** [strings.Contains]. *)
Fixpoint strings_Contains (s substr : string) : bool :=
  String.prefix substr s
  || match s with
     | EmptyString => false
     | String _ s' => strings_Contains s' substr
     end.

(** [WriteError] on a response writer whose header is [header]. *)
Definition WriteError (header : gmap string string) (err : string) (code : N)
    : Response :=
  mkResponse (<["Content-Type" := "application/json; charset=utf-8"]> header)
    code (JSONError err).

(** [RequireUserAgent]. *)
Definition RequireUserAgent (h : Handle) (ua : string) : Handle :=
  fun req =>
    if negb (strings_Contains (UserAgent req) ua)
    then WriteError ∅ "Browser access disabled due to security vulnerability."
           StatusBadRequest
    else h req.

(** [req.BasicAuth()] returns [(username, password, ok)]. *)
Definition BasicAuth (req : Request) : string * string * bool :=
  match Authorization req with
  | Some (username, password) => (username, password, true)
  | None => ("", "", false)
  end.

(** The text [Basic realm="SatAPI"]. *)
Definition realm : string :=
  "Basic realm=" +:+ String (Ascii.ascii_of_nat 34)
    ("SatAPI" +:+ String (Ascii.ascii_of_nat 34) "").

(** [RequirePassword]. *)
Definition RequirePassword (h : Handle) (password : string) : Handle :=
  if String.eqb password "" then h
  else fun req =>
    let '(_, pass, ok) := BasicAuth req in
    if negb ok || negb (String.eqb pass password)
    then WriteError (<["WWW-Authenticate" := realm]> ∅) "API authentication failed."
           StatusUnauthorized
    else h req.

(** The requests that the client helpers send: [HttpGET] and
    [HttpPOST] set the user agent, the authenticated variants also call
    [SetBasicAuth] with an empty user name. *)
Definition HttpGET (url : string) : Request :=
  mkRequest "GET" url "Sat-Agent" None.

Definition HttpGETAuthenticated (url password : string) : Request :=
  mkRequest "GET" url "Sat-Agent" (Some ("", password)).

Definition HttpPOST (url : string) : Request :=
  mkRequest "POST" url "Sat-Agent" None.

Definition HttpPOSTAuthenticated (url password : string) : Request :=
  mkRequest "POST" url "Sat-Agent" (Some ("", password)).

(** A route behind both middlewares, as [buildHTTPRoutes] builds it. *)
Definition protected (h : Handle) (requiredUserAgent requiredPassword : string)
    : Handle :=
  RequireUserAgent (RequirePassword h requiredPassword) requiredUserAgent.

End API.

(** ** The dashboard of the web portal *)

Module Dashboard.

(** A JavaScript string is a sequence of UTF-16 code units.  The
    characters named below: [;] is 59, the space 32, [=] 61. *)

(** The characters of [specialChars], in its order. *)
Definition specialChars : list N :=
  [96; 126; 33; 64; 35; 36; 37; 94; 38; 42; 40; 41;
   45; 95; 61; 43; 91; 93; 123; 125; 59; 58; 39; 34;
   92; 124; 44; 46; 60; 62; 47; 63].

(** [/[a-z]/.test(ch)], [/[A-Z]/.test(ch)], [/[0-9]/.test(ch)] and
    [specialChars.includes(ch)] for a string [ch] of one code unit. *)
Definition isLower (ch : N) : bool := (97 <=? ch) && (ch <=? 122).
Definition isUpper (ch : N) : bool := (65 <=? ch) && (ch <=? 90).
Definition isDigit (ch : N) : bool := (48 <=? ch) && (ch <=? 57).
Definition isSpecial (ch : N) : bool := bool_decide (ch ∈ specialChars).

(** One iteration of the loop of [validatePassword] over the counters
    [l], [u], [d] and [s]. *)
Definition countChar (acc : N * N * N * N) (ch : N) : N * N * N * N :=
  let '(l, u, d, s) := acc in
  (if isLower ch then l + 1 else l,
   if isUpper ch then u + 1 else u,
   if isDigit ch then d + 1 else d,
   if isSpecial ch then s + 1 else s).

(** [validatePassword]. *)
Definition validatePassword (pass : list N) : bool :=
  if (length pass <? 8)%nat then false
  else if (255 <? length pass)%nat then false
  else
    let '(l, u, d, s) := fold_left countChar pass (0, 0, 0, 0) in
    (0 <? l) && (0 <? u) && (0 <? d) && (0 <? s).

(** [s.split(sep)] for a separator of one code unit. *)
Fixpoint split (sep : N) (s : list N) : list (list N) :=
  match s with
  | [] => [[]]
  | ch :: s' =>
      if ch =? sep then [] :: split sep s'
      else match split sep s' with
           | [] => [[ch]]
           | piece :: pieces => (ch :: piece) :: pieces
           end
  end.








End Dashboard.

(** * Theorems *)

(** ** Currency and the contract set *)

Lemma Currency_Cmp_lt x y : (Currency_Cmp x y <? 0)%Z = (x <? y).
Proof.
  unfold Currency_Cmp. rewrite N.ltb_compare.
  destruct (N.compare x y); reflexivity.
Qed.

Lemma Currency_Cmp_le x y : (Currency_Cmp x y <=? 0)%Z = (x <=? y).
Proof.
  unfold Currency_Cmp. rewrite N.leb_compare.
  destruct (N.compare x y); reflexivity.
Qed.

Lemma Currency_Cmp_gt x y : (Currency_Cmp x y >? 0)%Z = (y <? x).
Proof.
  unfold Currency_Cmp. rewrite N.ltb_compare, (N.compare_antisym x y).
  destruct (N.compare x y); reflexivity.
Qed.

Lemma Currency_IsZero_spec x : Currency_IsZero x = true <-> x = 0.
Proof. unfold Currency_IsZero. apply N.eqb_eq. Qed.

Lemma View_Some cs id x :
  ContractSet_View cs id = Some x -> x ∈ cs /\ ID x = id.
Proof.
  unfold ContractSet_View. intros H. apply find_some in H as [Hin Heq].
  split; [by apply list_elem_of_In | by apply N.eqb_eq].
Qed.

Lemma View_ID cs id x : ContractSet_View cs id = Some x -> ID x = id.
Proof. intros H. by apply View_Some in H as [_ ?]. Qed.

Lemma ID_inj cs x y :
  NoDup (ID <$> cs) -> x ∈ cs -> y ∈ cs -> ID x = ID y -> x = y.
Proof.
  induction cs as [|a cs IH]; simpl; intros Hnd Hx Hy Hid.
  - inversion Hx.
  - apply NoDup_cons in Hnd as [Hna Hnd].
    apply elem_of_cons in Hx as [->|Hx]; apply elem_of_cons in Hy as [->|Hy]; auto.
    + exfalso. apply Hna. rewrite Hid. by apply list_elem_of_fmap_2.
    + exfalso. apply Hna. rewrite <- Hid. by apply list_elem_of_fmap_2.
Qed.

Lemma View_elem cs x :
  NoDup (ID <$> cs) -> x ∈ cs -> ContractSet_View cs (ID x) = Some x.
Proof.
  intros Hnd Hx. unfold ContractSet_View.
  destruct (List.find (fun rc => ID rc =? ID x) cs) as [y|] eqn:E.
  - apply find_some in E as [Hin Heq]. apply N.eqb_eq in Heq.
    f_equal. eapply ID_inj; eauto. by apply list_elem_of_In.
  - exfalso. apply list_elem_of_In in Hx.
    pose proof (find_none _ _ E _ Hx) as Hn. simpl in Hn.
    rewrite N.eqb_refl in Hn. discriminate.
Qed.

Lemma View_None cs id :
  ContractSet_View cs id = None -> forall x, x ∈ cs -> ID x <> id.
Proof.
  unfold ContractSet_View. intros H x Hx Hid.
  apply list_elem_of_In in Hx. pose proof (find_none _ _ H _ Hx) as Hn.
  simpl in Hn. apply N.eqb_neq in Hn. contradiction.
Qed.

Lemma elem_of_Delete cs sc x :
  x ∈ ContractSet_Delete cs sc <-> x ∈ cs /\ ID x <> ID sc.
Proof.
  unfold ContractSet_Delete. rewrite !list_elem_of_In, filter_In.
  rewrite negb_true_iff, N.eqb_neq. reflexivity.
Qed.

Lemma NoDup_Delete cs sc :
  NoDup (ID <$> cs) -> NoDup (ID <$> ContractSet_Delete cs sc).
Proof.
  unfold ContractSet_Delete. induction cs as [|a cs IH]; simpl; intros Hnd.
  - constructor.
  - apply NoDup_cons in Hnd as [Hna Hnd].
    destruct (negb (ID a =? ID sc)); simpl; auto.
    apply NoDup_cons. split; auto.
    intros Hin. apply Hna. apply list_elem_of_fmap in Hin as [y [Hy Hin]].
    apply list_elem_of_In, filter_In in Hin as [Hin _].
    rewrite Hy. apply list_elem_of_fmap_2. by apply list_elem_of_In.
Qed.

Lemma not_live_Delete c sc :
  ~ live (set_staticContracts c (ContractSet_Delete (staticContracts c) sc)) (ID sc).
Proof.
  unfold live. simpl. intros [y Hy]. apply View_Some in Hy as [Hin Hid].
  apply elem_of_Delete in Hin as [_ Hne]. contradiction.
Qed.

Lemma live_elem cs x : NoDup (ID <$> cs) -> x ∈ cs ->
  is_Some (ContractSet_View cs (ID x)).
Proof. intros. rewrite View_elem; eauto. Qed.

Lemma View_Insert_eq cs nc :
  ContractSet_View (ContractSet_Insert cs nc) (ID nc) = Some nc.
Proof.
  unfold ContractSet_View, ContractSet_Insert.
  destruct (existsb (fun rc => ID rc =? ID nc) cs) eqn:Hex.
  - induction cs as [|a cs IH]; simpl in *; [discriminate |].
    destruct (N.eqb_spec (ID a) (ID nc)) as [Ha|Ha]; simpl.
    + by rewrite N.eqb_refl.
    + apply N.eqb_neq in Ha. rewrite Ha. auto.
  - induction cs as [|a cs IH]; simpl in *.
    + by rewrite N.eqb_refl.
    + apply orb_false_iff in Hex as [Ha Hex]. rewrite Ha. auto.
Qed.

Lemma View_Insert_ne cs nc id :
  id <> ID nc ->
  ContractSet_View (ContractSet_Insert cs nc) id = ContractSet_View cs id.
Proof.
  intros Hne. unfold ContractSet_View, ContractSet_Insert.
  assert (Hnc : (ID nc =? id) = false) by (apply N.eqb_neq; congruence).
  destruct (existsb (fun rc => ID rc =? ID nc) cs).
  - induction cs as [|a cs IH]; simpl; [reflexivity |].
    destruct (N.eqb_spec (ID a) (ID nc)) as [Ha|Ha].
    + rewrite Hnc, Ha, Hnc. apply IH.
    + destruct (ID a =? id); [reflexivity | apply IH].
  - induction cs as [|a cs IH]; simpl.
    + by rewrite Hnc.
    + destruct (ID a =? id); [reflexivity | apply IH].
Qed.

Lemma View_UpdateUtility cs id u id' :
  ContractSet_View (ContractSet_UpdateUtility cs id u) id' =
  (fun rc => if ID rc =? id then with_Utility rc u else rc) <$> ContractSet_View cs id'.
Proof.
  unfold ContractSet_View, ContractSet_UpdateUtility.
  induction cs as [|a cs IH]; simpl; [reflexivity |].
  assert (Hid : ID (if ID a =? id then with_Utility a u else a) = ID a)
    by (destruct (ID a =? id); reflexivity).
  rewrite Hid. destruct (ID a =? id'); [reflexivity | apply IH].
Qed.

Lemma View_Delete cs sc id :
  ContractSet_View (ContractSet_Delete cs sc) id =
  if id =? ID sc then None else ContractSet_View cs id.
Proof.
  unfold ContractSet_View, ContractSet_Delete.
  induction cs as [|a cs IH]; simpl.
  - destruct (id =? ID sc); reflexivity.
  - destruct (N.eqb_spec (ID a) (ID sc)) as [Ha|Ha]; simpl.
    + rewrite IH. destruct (N.eqb_spec id (ID sc)) as [Hi|Hi]; [reflexivity |].
      assert ((ID a =? id) = false) as -> by (apply N.eqb_neq; congruence).
      reflexivity.
    + rewrite IH. destruct (N.eqb_spec (ID a) id) as [Hai|Hai]; [| reflexivity].
      assert ((id =? ID sc) = false) as -> by (apply N.eqb_neq; congruence).
      reflexivity.
Qed.

(** ** C1: deduplication *)

Lemma duplicatesFound_app l1 l2 :
  duplicatesFound (l1 ++ l2) = duplicatesFound l1 ++ duplicatesFound l2.
Proof.
  induction l1 as [|e l1 IH]; simpl; [reflexivity |].
  destruct e; simpl; rewrite ?IH; reflexivity.
Qed.

Lemma lastLoser_snoc d n o n' :
  lastLoser (d ++ [(n, o)]) n' = if N.eqb n n' then Some o else lastLoser d n'.
Proof.
  induction d as [|[a b] d IH]; simpl.
  - destruct (n =? n'); reflexivity.
  - rewrite IH. destruct (n =? n'); [reflexivity |].
    destruct (lastLoser d n'); reflexivity.
Qed.

Section Dedup.

Variable L : list RenterContract.
Variable c0 : Contractor.
Hypothesis HL : NoDup (ID <$> L).

Local Abbreviation dedup_inv := (dedup_inv L c0).

Lemma dedup_inv_init (c : Contractor) :
  c = c0 -> staticContracts c0 = L -> dedup_inv [] L c ∅ [].
Proof.
  intros -> HS. split; simpl; auto.
  - by rewrite HS.
  - by rewrite HS.
  - by rewrite HS.
  - intros k id H. rewrite lookup_empty in H. discriminate.
  - intros x H. inversion H.
  - intros x H. inversion H.
  - by rewrite app_nil_r.
  - intros n o H. inversion H.
  - intros n o H. discriminate.
Qed.

Lemma split_ID_ne P x S y :
  L = P ++ x :: S -> y ∈ P ++ S -> ID y <> ID x.
Proof.
  intros HLs Hy Hid. rewrite HLs in HL.
  rewrite fmap_app, fmap_cons in HL.
  apply NoDup_app in HL as (_ & Hdisj & Hnd2).
  apply NoDup_cons in Hnd2 as [Hn2 _].
  apply elem_of_app in Hy as [Hy|Hy].
  - apply (Hdisj (ID y)); [by apply list_elem_of_fmap_2 |].
    rewrite Hid. apply elem_of_cons. by left.
  - apply Hn2. rewrite <- Hid. by apply list_elem_of_fmap_2.
Qed.

(** The branch taken when the map has no entry for the key. *)
Lemma dedup_step_fresh P x S c pk E :
  dedup_inv P (x :: S) c pk E -> pk !! dupKey x = None ->
  dedup_inv (P ++ [x]) S c (<[dupKey x := ID x]> pk) E.
Proof.
  intros I Hnone. destruct I. split; auto.
  - by rewrite <- app_assoc.
  - intros y Hy. apply inv_rest0. apply elem_of_cons. by right.
  - intros k id Hk. destruct (decide (dupKey x = k)) as [<-|Hne].
    + rewrite lookup_insert_eq in Hk. injection Hk as <-.
      exists x. repeat split; auto.
      * apply inv_rest0. apply elem_of_cons. by left.
      * apply elem_of_app. right. apply list_elem_of_singleton. reflexivity.
    + rewrite lookup_insert_ne in Hk by assumption.
      destruct (inv_pk0 _ _ Hk) as (y & ? & ? & ? & ?).
      exists y. repeat split; auto. apply elem_of_app. by left.
  - intros z Hz. apply elem_of_app in Hz as [Hz|Hz].
    + destruct (inv_max0 _ Hz) as (y & Hpk & ? & ? & ?).
      exists y. repeat split; auto.
      rewrite lookup_insert_ne; [assumption |]. congruence.
    + apply list_elem_of_singleton in Hz as ->. exists x.
      rewrite lookup_insert_eq. repeat split; auto; try lia.
      apply inv_rest0. apply elem_of_cons. by left.
  - intros z Hz Hlive. apply elem_of_app in Hz as [Hz|Hz].
    + pose proof (inv_uniq0 _ Hz Hlive) as Hpk.
      rewrite lookup_insert_ne; [assumption |]. congruence.
    + apply list_elem_of_singleton in Hz as ->. apply lookup_insert_eq.
Qed.

(** The branch that archives [old] in favour of [new], both live, of
    which one is the contract being visited and the other the one the
    map points to. *)
Lemma dedup_step_archive P x S c pk E new old :
  dedup_inv P (x :: S) c pk E ->
  new ∈ staticContracts c -> old ∈ staticContracts c ->
  dupKey new = dupKey x -> dupKey old = dupKey x ->
  pk !! dupKey x = Some (ID new) \/ pk !! dupKey x = Some (ID old) ->
  (new = x /\ old ∈ P) \/ (old = x /\ new ∈ P) ->
  StartHeight old <= StartHeight new ->
  (forall z, z ∈ P -> dupKey z = dupKey x -> StartHeight z <= StartHeight new) ->
  dedup_inv (P ++ [x]) S
    (set_staticContracts
       (set_lineage (logEvent c (EvDuplicate (ID new) (ID old)))
          (<[ID new := ID old]> (renewedFrom c))
          (<[ID old := ID new]> (renewedTo c))
          (<[ID old := old]> (oldContracts c)))
       (ContractSet_Delete (staticContracts c) old))
    (<[dupKey x := ID new]> pk)
    (E ++ [EvDuplicate (ID new) (ID old)]).
Proof.
  intros I Hnew Hold Hknew Hkold Hpk Hwho Hle Hmax.
  assert (Hne : ID new <> ID old).
  { destruct I. destruct Hwho as [[-> Ho]|[-> Hn]].
    - intros Heq. symmetry in Heq. revert Heq.
      eapply split_ID_ne; eauto. apply elem_of_app. by left.
    - eapply split_ID_ne; eauto. apply elem_of_app. by left. }
  assert (HxS : forall z, z ∈ S -> ID z <> ID old).
  { destruct I. intros z Hz Heq. destruct Hwho as [[-> Ho]|[-> Hn]].
    - assert (z = old) as ->.
      { eapply ID_inj; eauto. apply inv_rest0. apply elem_of_cons. by right. }
      rewrite inv_split0 in HL. apply NoDup_fmap_1 in HL.
      apply NoDup_app in HL as (_ & Hdisj & _).
      apply (Hdisj old Ho). apply elem_of_cons. by right.
    - revert Heq. eapply split_ID_ne; eauto. apply elem_of_app. by right. }
  destruct I. split; simpl.
  - by rewrite <- app_assoc.
  - intros y Hy. apply elem_of_Delete in Hy as [Hy _]. auto.
  - by apply NoDup_Delete.
  - intros y Hy. apply elem_of_Delete. split; auto.
    apply inv_rest0. apply elem_of_cons. by right.
  - intros k id Hk. destruct (decide (dupKey x = k)) as [<-|Hnk].
    + rewrite lookup_insert_eq in Hk. injection Hk as <-.
      exists new. repeat split; auto.
      * apply elem_of_Delete. split; auto.
      * destruct Hwho as [[-> _]|[_ Hn]]; apply elem_of_app; [right | by left].
        apply list_elem_of_singleton. reflexivity.
    + rewrite lookup_insert_ne in Hk by assumption.
      destruct (inv_pk0 _ _ Hk) as (y & Hy & HyP & Hid & Hky).
      exists y. repeat split; auto.
      * apply elem_of_Delete. split; auto. intros Heq.
        assert (y = old) by (eapply ID_inj; eauto). subst y. congruence.
      * apply elem_of_app. by left.
  - intros z Hz.
    assert (Hnl : new ∈ ContractSet_Delete (staticContracts c) old)
      by (apply elem_of_Delete; split; auto).
    apply elem_of_app in Hz as [Hz|Hz].
    + destruct (decide (dupKey z = dupKey x)) as [Hkz|Hkz].
      * exists new. rewrite Hkz, lookup_insert_eq. repeat split; auto.
      * destruct (inv_max0 _ Hz) as (y & Hpy & Hy & Hky & Hsy).
        exists y. rewrite lookup_insert_ne by congruence.
        repeat split; auto. apply elem_of_Delete. split; auto.
        intros Heq. assert (y = old) by (eapply ID_inj; eauto). subst y.
        congruence.
    + apply list_elem_of_singleton in Hz as ->. exists new.
      rewrite lookup_insert_eq. repeat split; auto.
      destruct Hwho as [[-> _]|[<- _]]; [lia | assumption].
  - intros z Hz Hlive. apply elem_of_Delete in Hlive as [Hlive Hzo].
    apply elem_of_app in Hz as [Hz|Hz].
    + pose proof (inv_uniq0 _ Hz Hlive) as Hpz.
      destruct (decide (dupKey z = dupKey x)) as [Hkz|Hkz].
      * rewrite Hkz, lookup_insert_eq. rewrite Hkz in Hpz.
        destruct Hpk as [Hp|Hp]; rewrite Hp in Hpz; congruence.
      * rewrite lookup_insert_ne by congruence. assumption.
    + apply list_elem_of_singleton in Hz as ->. rewrite lookup_insert_eq.
      destruct Hwho as [[-> _]|[-> _]]; [reflexivity | contradiction].
  - rewrite inv_log0. by rewrite <- app_assoc.
  - intros n o Hno. rewrite duplicatesFound_app in Hno. simpl in Hno.
    apply elem_of_app in Hno as [Hno|Hno].
    + destruct (inv_dups0 _ _ Hno) as (Hnl & Hto & xo & xn & ? & ? & ? & ? & Hoc & ? & ?).
      assert (Hoo : ID old <> o).
      { intros <-. apply Hnl. by apply live_elem. }
      split; [| split].
      * unfold live. simpl. intros [y Hy]. apply Hnl.
        apply View_Some in Hy as [Hy Hid]. apply elem_of_Delete in Hy as [Hy _].
        rewrite <- Hid. by apply live_elem.
      * rewrite lookup_insert_ne by assumption. assumption.
      * exists xo, xn. rewrite lookup_insert_ne by assumption. repeat split; auto.
    + apply list_elem_of_singleton in Hno. injection Hno as -> ->.
      split; [| split].
      * apply (not_live_Delete (set_lineage (logEvent c _) _ _ _)).
      * apply lookup_insert_eq.
      * exists old, new. rewrite lookup_insert_eq. repeat split; auto.
        congruence.
  - intros n o. rewrite duplicatesFound_app. simpl. rewrite lastLoser_snoc.
    destruct (N.eqb_spec (ID new) n) as [<-|Hn].
    + intros [= <-]. apply lookup_insert_eq.
    + intros Hl. rewrite lookup_insert_ne by assumption. auto.
Qed.

Lemma dedup_step P x S c pk E :
  dedup_inv P (x :: S) c pk E ->
  exists E', dedup_inv (P ++ [x]) S
    (checkForDuplicate (c, pk) x).1 (checkForDuplicate (c, pk) x).2 E'.
Proof.
  intros I. unfold checkForDuplicate.
  destruct (pk !! dupKey x) as [id|] eqn:Hpk.
  2: { exists E. simpl. by apply dedup_step_fresh. }
  pose proof I as I'. destruct I'.
  destruct (inv_pk0 _ _ Hpk) as (rc & Hrc & HrcP & Hid & Hkrc). subst id.
  assert (Hx : x ∈ staticContracts c).
  { apply inv_rest0. apply elem_of_cons. by left. }
  assert (Hbest : forall z, z ∈ P -> dupKey z = dupKey x ->
                    StartHeight z <= StartHeight rc).
  { intros z Hz Hkz. destruct (inv_max0 _ Hz) as (y & Hpy & Hy & _ & Hsy).
    rewrite Hkz, Hpk in Hpy. injection Hpy as Hpy.
    assert (rc = y) by (eapply ID_inj; eauto). by subst y. }
  rewrite (View_elem _ _ inv_nodup0 Hrc).
  destruct (N.leb_spec (StartHeight x) (StartHeight rc)) as [Hle|Hlt].
  - unfold ContractSet_Acquire. simpl.
    rewrite (View_elem _ _ inv_nodup0 Hx). simpl.
    eexists. eapply dedup_step_archive; eauto.
  - unfold ContractSet_Acquire. simpl.
    rewrite (View_elem _ _ inv_nodup0 Hrc). simpl.
    eexists. eapply dedup_step_archive; eauto; try lia.
    intros z Hz Hkz. specialize (Hbest z Hz Hkz). lia.
Qed.

Lemma dedup_loop S : forall P c pk E,
  dedup_inv P S c pk E ->
  exists pk' E', dedup_inv (P ++ S) []
    (fold_left checkForDuplicate S (c, pk)).1 pk' E'.
Proof.
  induction S as [|x S IH]; intros P c pk E I; cbn [fold_left].
  - exists pk, E. rewrite app_nil_r. exact I.
  - destruct (dedup_step _ _ _ _ _ _ I) as [E' I'].
    destruct (checkForDuplicate (c, pk) x) as [c' pk'] eqn:Hstep.
    simpl in I'. destruct (IH _ _ _ _ I') as (pk'' & E'' & I'').
    exists pk'', E''. rewrite <- app_assoc in I''. exact I''.
Qed.

End Dedup.

(** C1 (as stated) fails with three live contracts for one pair, visited
    in order of start height: the pair (2, 1) is reported first and its
    survivor 2 is itself archived when contract 3 is visited. *)
Lemma dedup_literal_fails_on_three :
  ~ dedup_postcondition_literal DedupExamples.three.
Proof.
  intros [_ H]. destruct (H 2 1) as [[y Hy] _].
  - vm_compute. apply elem_of_cons. by left.
  - vm_compute in Hy. discriminate Hy.
Qed.

(** C1 (amended). After [managedCheckForDuplicates], no two live
    contracts share a (renter, host) pair; every contract of the initial
    set is represented by a live contract with the same key and a start
    height at least as great; for every duplicate pair reported, the
    loser is no longer live, its original metadata is stored in
    [oldContracts] under its id, [renewedTo] maps the loser to the
    survivor of that pair, whose start height is at least the loser's;
    and [renewedFrom] of a survivor is the loser most recently reported
    against it. *)
Theorem dedup_postcondition (c0 : Contractor) :
  NoDup (ID <$> staticContracts c0) ->
  let c1 := managedCheckForDuplicates c0 in
  let D := duplicatesSince (length (log c0)) c1 in
  (forall x y, x ∈ staticContracts c1 -> y ∈ staticContracts c1 ->
     RenterPublicKey x = RenterPublicKey y -> HostPublicKey x = HostPublicKey y ->
     x = y) /\
  (forall y, y ∈ staticContracts c1 -> y ∈ staticContracts c0) /\
  (forall x, x ∈ staticContracts c0 ->
     exists y, y ∈ staticContracts c1 /\ dupKey y = dupKey x /\
               StartHeight x <= StartHeight y) /\
  (forall n o, (n, o) ∈ D ->
     ~ live c1 o /\ renewedTo c1 !! o = Some n /\
     exists xo xn,
       ContractSet_View (staticContracts c0) o = Some xo /\
       ContractSet_View (staticContracts c0) n = Some xn /\
       oldContracts c1 !! o = Some xo /\
       dupKey xn = dupKey xo /\ StartHeight xo <= StartHeight xn) /\
  (forall n o, lastLoser D n = Some o -> renewedFrom c1 !! n = Some o).
Proof.
  intros Hnd c1 D.
  destruct (dedup_loop (staticContracts c0) c0 Hnd (staticContracts c0) [] c0 ∅ [])
    as (pk & E & I).
  { by apply dedup_inv_init. }
  change (dedup_inv (staticContracts c0) c0 (staticContracts c0) [] c1 pk E) in I.
  assert (HD : D = duplicatesFound E).
  { unfold D, duplicatesSince. rewrite (inv_log _ _ _ _ _ _ _ I).
    by rewrite drop_app_length. }
  destruct I. repeat split.
  - intros x y Hx Hy Hr Hh.
    eapply ID_inj; eauto.
    pose proof (inv_uniq0 x (inv_sub0 _ Hx) Hx) as Hpx.
    pose proof (inv_uniq0 y (inv_sub0 _ Hy) Hy) as Hpy.
    unfold dupKey in Hpx, Hpy. rewrite Hr, Hh, Hpy in Hpx. congruence.
  - exact inv_sub0.
  - intros x Hx. destruct (inv_max0 _ Hx) as (y & _ & ? & ? & ?). eauto.
  - rewrite HD in H. by destruct (inv_dups0 _ _ H).
  - rewrite HD in H. by destruct (inv_dups0 _ _ H) as (_ & ? & _).
  - rewrite HD in H.
    destruct (inv_dups0 _ _ H) as (_ & _ & xo & xn & ? & ? & <- & <- & ? & ? & ?).
    exists xo, xn. rewrite !View_elem by assumption. auto.
  - intros n o. rewrite HD. apply inv_from0.
Qed.

Lemma dedup_postcondition_witness :
  let c0 := DedupExamples.three in
  let c1 := managedCheckForDuplicates c0 in
  ID <$> staticContracts c1 = [3] /\
  forall n o, lastLoser (duplicatesSince (length (log c0)) c1) n = Some o ->
              renewedFrom c1 !! n = Some o.
Proof.
  split; [reflexivity |].
  apply (dedup_postcondition DedupExamples.three).
  apply (bool_decide_unpack _). vm_compute. reflexivity.
Defined.

(** Scenario S5: with two contracts for the pair, started at 1000 and
    1500, only the second stays live, the first is archived and the
    lineage maps link them. *)
Example dedup_scenario_S5 :
  let c1 := managedCheckForDuplicates DedupExamples.two in
  ID <$> staticContracts c1 = [1500] /\
  oldContracts c1 !! 1000 = Some (DedupExamples.mk 1000 "R" "H" 1000) /\
  renewedFrom c1 !! 1500 = Some 1000 /\
  renewedTo c1 !! 1000 = Some 1500.
Proof. vm_compute. repeat split. Qed.

(** ** C2: a successful renewal *)

Lemma managedRenew_success W K c id rpk hpk funding eh hs c1 nc held :
  managedRenew W K c id rpk hpk funding eh hs = (c1, inr nc, held) ->
  held = false /\
  c1 = set_pubKeysToContractID
         (set_staticContracts c (ContractSet_Insert (staticContracts c) nc))
         (<[RenterPublicKey nc +:+ HostPublicKey nc := ID nc]> (pubKeysToContractID c)) /\
  exists old, ContractSet_View (staticContracts c) id = Some old /\
              GoodForRenew (Utility old) = true.
Proof.
  unfold managedRenew, ContractSet_Acquire.
  destruct (hdb_Host W hpk) as [[host ok] err].
  repeat (case_match; try (intros; discriminate));
    intros [= <- <- <-]; repeat split;
    eexists; (split; [reflexivity | by apply negb_false_iff]).
Qed.

Lemma managedRenew_frame W K c id rpk hpk funding eh hs c1 res held :
  managedRenew W K c id rpk hpk funding eh hs = (c1, res, held) ->
  numFailedRenews c1 = numFailedRenews c /\ renters c1 = renters c /\
  renewedFrom c1 = renewedFrom c /\ renewedTo c1 = renewedTo c /\
  oldContracts c1 = oldContracts c /\ log c1 = log c.
Proof.
  unfold managedRenew, ContractSet_Acquire.
  destruct (hdb_Host W hpk) as [[host ok] e].
  repeat (case_match; try (intros; discriminate));
    intros [= <- <- <-]; repeat split; auto.
Qed.

(** C2 (as stated) fails when the write of the new contract's utility
    fails: [managedRenewContract] still returns a nil error, and the old
    contract is neither locked, nor archived, nor deleted. *)
Lemma renew_nil_error_without_renewed_state :
  ~ renew_nil_error_literal Examples.goodWriteFails Examples.K3
      Examples.oneContract Examples.renewOne 950 2100.
Proof.
  assert (Hlive : renew_nil_error_old_live Examples.goodWriteFails Examples.K3
            Examples.oneContract Examples.renewOne 950 2100 = true)
    by (vm_compute; reflexivity).
  unfold renew_nil_error_literal, renew_nil_error_old_live in *.
  destruct (managedRenewContract _ _ _ _ _ _) as [[c' [[spent nc] [e|]]]| |];
    try discriminate Hlive.
  intros (_ & _ & _ & Hnl & _). apply Hnl.
  by apply bool_decide_eq_true in Hlive.
Qed.

(** C2 (amended). Whenever [managedRenewContract] returns a nil error,
    the funds reported spent are the renewal amount.  If both utility
    writes (good for the new contract, locked for the old one) succeed
    and the new contract has an id of its own, then the metadata of the
    contract that was live under the old id is archived in
    [oldContracts] under that id, with utility not-GoodForUpload,
    not-GoodForRenew and Locked, the lineage maps link old and new id,
    the old contract is no longer live, and the new contract is live
    with utility GoodForUpload, GoodForRenew and not-Locked.  If one of
    the two writes fails, the old contract is still live and
    [oldContracts], [renewedFrom] and [renewedTo] are as they were. *)
Theorem renew_success_postcondition (W : World) (K : Constants) (c c' : Contractor)
    (ri : fileContractRenewal) (bh eh : BlockHeight) (spent : Currency)
    (nc : RenterContract) :
  managedRenewContract W K c ri bh eh = Done (c', (spent, nc, None)) ->
  let id := renewal_id ri in
  let newWrite := write_UpdateUtility W (ID nc) (mkUtility true true false) in
  let oldWrite := write_UpdateUtility W id lockedUtility in
  spent = renewal_amount ri /\
  (newWrite = None -> oldWrite = None -> ID nc <> id -> renewed_state c c' id nc) /\
  (is_Some newWrite \/ is_Some oldWrite -> renewal_not_recorded c c' id).
Proof.
  intros Hrun id newWrite oldWrite. unfold managedRenewContract in Hrun.
  destruct (renters c !! renewal_renterPubKey ri) as [renter|]; [| discriminate].
  destruct (host_Session W _ _); [discriminate |].
  destruct (host_Settings W _ _) as [|hs]; [discriminate |].
  destruct (managedRenew W K _ _ _ _ _ _ _) as [[c1 res] held] eqn:Hren.
  destruct held; [discriminate |].
  destruct res as [errRenew|nc'].
  { destruct (ContractSet_Acquire _ _); [| discriminate].
    destruct (_ && _); discriminate. }
  apply managedRenew_success in Hren as (_ & -> & old & Hold & _).
  simpl in Hold. fold id in Hold, Hrun.
  unfold ContractSet_Acquire in Hrun. simpl in Hrun.
  destruct (ContractSet_View (ContractSet_Insert (staticContracts c) nc') id)
    as [old'|] eqn:Hold'; [| discriminate].
  pose proof (View_ID _ _ _ Hold') as Hid'.
  unfold managedAcquireAndUpdateContractUtility, ContractSet_Acquire,
    managedUpdateContractUtility, callUpdateUtility in Hrun. simpl in Hrun.
  rewrite View_Insert_eq in Hrun. simpl in Hrun.
  destruct (write_UpdateUtility W (ID nc') _) eqn:Hw1'.
  { injection Hrun as <- <- <-. subst newWrite. rewrite ?Hw1'.
    split; [reflexivity |]. split; [discriminate |]. intros _.
    unfold renewal_not_recorded, live. simpl. rewrite Hold'. eauto. }
  simpl in Hrun. rewrite Hid' in Hrun.
  destruct (write_UpdateUtility W id lockedUtility) eqn:Hw2'.
  { injection Hrun as <- <- <-. subst newWrite oldWrite. rewrite ?Hw1', ?Hw2'.
    split; [reflexivity |]. split; [discriminate |]. intros _.
    unfold renewal_not_recorded, live. simpl.
    rewrite View_UpdateUtility, Hold'. eauto. }
  simpl in Hrun. injection Hrun as <- <- <-. subst newWrite oldWrite.
  rewrite ?Hw1', ?Hw2'.
  split; [reflexivity |]. split; [| intros [[? [=]]|[? [=]]]].
  intros _ _ Hne.
  assert (Hnid : (id =? ID nc') = false) by (apply N.eqb_neq; congruence).
  assert (Hnid' : (ID nc' =? id) = false) by (apply N.eqb_neq; congruence).
  assert (Hsame : old' = old).
  { rewrite View_Insert_ne in Hold' by congruence. congruence. }
  subst old'.
  unfold renewed_state, live, FileContract_Metadata. simpl.
  rewrite !lookup_insert_eq, !View_Delete, !View_UpdateUtility, View_Insert_eq.
  rewrite Hid', Hold', N.eqb_refl, Hnid'. simpl.
  rewrite Hid', Hnid, N.eqb_refl. simpl. rewrite Hid', N.eqb_refl, Hnid'.
  repeat split; eauto;
    try (eexists; repeat split; [reflexivity | simpl; assumption]);
    try (intros [x Hx]; discriminate Hx).
Qed.

Lemma renew_success_witness :
  (let run := managedRenewContract Examples.friendly Examples.K3 Examples.oneContract
                Examples.renewOne 950 2100 in
   renewed_state Examples.oneContract
     (delivered run (Examples.oneContract, (0, zeroRenterContract, None))).1
     1 Examples.renewedOne) /\
  (let run := managedRenewContract Examples.lockWriteFails Examples.K3 Examples.oneContract
                Examples.renewOne 950 2100 in
   renewal_not_recorded Examples.oneContract
     (delivered run (Examples.oneContract, (0, zeroRenterContract, None))).1 1).
Proof.
  split.
  - refine (proj1 (proj2 (renew_success_postcondition Examples.friendly Examples.K3
                     Examples.oneContract _ Examples.renewOne 950 2100 2000
                     Examples.renewedOne _)) _ _ _).
    + vm_compute. reflexivity.
    + reflexivity.
    + reflexivity.
    + discriminate.
  - refine (proj2 (proj2 (renew_success_postcondition Examples.lockWriteFails Examples.K3
                     Examples.oneContract _ Examples.renewOne 950 2100 2000
                     Examples.renewedOne _)) _).
    + vm_compute. reflexivity.
    + right. vm_compute. eauto.
Defined.

(** ** C3: the gouging filter *)

(** C3. The form-time gouging check rejects exactly when a non-zero
    ceiling among [MaxRPCPrice] (against the base RPC price) and
    [MaxContractPrice] (against the contract price) is strictly less than
    the quoted price; the payment-contract check rejects exactly when a
    non-zero ceiling among those two and [MaxSectorAccessPrice] (against
    the sector access price) is less than or equal to the quoted price.
    Both are functions of their two arguments alone. *)
Theorem gouging_checks_reject_iff (a : Allowance) (hs : HostExternalSettings) :
  (is_Some (checkFormContractGouging a hs) <->
     (MaxRPCPrice a <> 0 /\ MaxRPCPrice a < BaseRPCPrice hs) \/
     (MaxContractPrice a <> 0 /\ MaxContractPrice a < ContractPrice hs))
  /\
  (is_Some (staticCheckFormPaymentContractGouging a hs) <->
     (MaxRPCPrice a <> 0 /\ MaxRPCPrice a <= BaseRPCPrice hs) \/
     (MaxContractPrice a <> 0 /\ MaxContractPrice a <= ContractPrice hs) \/
     (MaxSectorAccessPrice a <> 0 /\ MaxSectorAccessPrice a <= SectorAccessPrice hs)).
Proof.
  unfold checkFormContractGouging, staticCheckFormPaymentContractGouging.
  rewrite !Currency_Cmp_lt, !Currency_Cmp_le. unfold Currency_IsZero.
  split.
  - destruct (N.eqb_spec (MaxRPCPrice a) 0) as [E1|E1];
      destruct (N.ltb_spec (MaxRPCPrice a) (BaseRPCPrice hs));
      destruct (N.eqb_spec (MaxContractPrice a) 0) as [E2|E2];
      destruct (N.ltb_spec (MaxContractPrice a) (ContractPrice hs)); simpl;
      (split; [intros Hs | intros Hd]);
      try (eexists; reflexivity);
      try (destruct Hs as [? Hs]; discriminate Hs);
      try lia; try (left; split; [assumption | lia]);
      try (right; split; [assumption | lia]).
  - destruct (N.eqb_spec (MaxRPCPrice a) 0) as [E1|E1];
      destruct (N.leb_spec (MaxRPCPrice a) (BaseRPCPrice hs));
      destruct (N.eqb_spec (MaxContractPrice a) 0) as [E2|E2];
      destruct (N.leb_spec (MaxContractPrice a) (ContractPrice hs));
      destruct (N.eqb_spec (MaxSectorAccessPrice a) 0) as [E3|E3];
      destruct (N.leb_spec (MaxSectorAccessPrice a) (SectorAccessPrice hs)); simpl;
      (split; [intros Hs | intros Hd]);
      try (eexists; reflexivity);
      try (destruct Hs as [? Hs]; discriminate Hs);
      try lia;
      try (left; split; [assumption | lia]);
      try (right; left; split; [assumption | lia]);
      try (right; right; split; [assumption | lia]).
Qed.

Lemma gouging_checks_witness :
  let a := mkAllowance 10000 2 1000 100 5 100 7 false in
  let hs := mkSettings 5 100 7 1 1 1 2000 50 true in
  checkFormContractGouging a hs = None /\
  is_Some (staticCheckFormPaymentContractGouging a hs).
Proof.
  split; [reflexivity |].
  apply (gouging_checks_reject_iff (mkAllowance 10000 2 1000 100 5 100 7 false)
           (mkSettings 5 100 7 1 1 1 2000 50 true)).
  left. simpl. split; [discriminate | reflexivity].
Defined.

(** ** C4: the funding floor *)

(** C4. For an allowance with positive funds and a positive host count,
    whenever [managedEstimateRenewFundingRequirements] returns without
    error, the amount returned is at least
    [allowance.Funds.MulFloat(fileContractMinimumFunding).Div64(allowance.Hosts)]. *)
Theorem estimate_at_least_minimum (W : World) (K : Constants) (c : Contractor)
    (contract : RenterContract) (bh : BlockHeight) (a : Allowance) (v : Currency) :
  0 < Funds a -> 0 < Hosts a ->
  managedEstimateRenewFundingRequirements W K c contract bh a = Done (v, None) ->
  Currency_MulFloat (Funds a) (fileContractMinimumFunding K) / Hosts a <= v.
Proof.
  intros _ _. unfold managedEstimateRenewFundingRequirements.
  destruct (hdb_Host W (HostPublicKey contract)) as [[host ex] [err|]]; [discriminate |].
  destruct (negb ex); [discriminate |].
  destruct (Filtered host); [discriminate |].
  destruct (renters c !! RenterPublicKey contract) as [renter|]; [| discriminate].
  destruct (FileContractRevisions contract) as [|rev0 revs]; [discriminate |].
  destruct (tpool_FeeEstimation W) as [minFee maxFee].
  destruct (Hosts a =? 0); [discriminate |].
  match goal with |- context [walkRenewHistory ?f ?c' ?r ?i ?acc] =>
    generalize (walkRenewHistory f c' r i acc); intros prev end.
  rewrite Currency_Cmp_lt. unfold minimumFunding.
  match goal with |- context [if ?x <? ?y then _ else _] =>
    generalize x; intros est; destruct (N.ltb_spec est y) as [Hlt|Hge] end;
    intros [= <-]; [reflexivity | exact Hge].
Qed.

(** The estimator does return an amount once the host is known and not
    filtered, the renter is known, the contract carries a revision and
    the host count is not zero. *)
Lemma estimate_returns (W : World) (K : Constants) (c : Contractor)
    (contract : RenterContract) (bh : BlockHeight) (a : Allowance) host renter :
  hdb_lookup W (HostPublicKey contract) = inr (Some host) ->
  Filtered host = false ->
  renters c !! RenterPublicKey contract = Some renter ->
  FileContractRevisions contract <> [] ->
  Hosts a <> 0 ->
  exists v, managedEstimateRenewFundingRequirements W K c contract bh a = Done (v, None).
Proof.
  intros Hh Hf Hr Hrev Hhosts. unfold managedEstimateRenewFundingRequirements, hdb_Host.
  rewrite Hh. simpl. rewrite Hf, Hr.
  destruct (FileContractRevisions contract) as [|rev0 revs]; [contradiction |].
  destruct (tpool_FeeEstimation W) as [minFee maxFee].
  apply N.eqb_neq in Hhosts. rewrite Hhosts. eauto.
Qed.

Lemma estimate_at_least_minimum_witness :
  let est := managedEstimateRenewFundingRequirements Examples.friendly Examples.K3
               Examples.oneContract (Examples.contract 1 "H" 1000 500 Examples.good)
               950 Examples.allowance in
  est = Done (27444, None) /\
  Currency_MulFloat 100000 Examples.float_0_15 / 2 <= 27444.
Proof.
  split; [vm_compute; reflexivity |].
  apply (estimate_at_least_minimum Examples.friendly Examples.K3 Examples.oneContract
           (Examples.contract 1 "H" 1000 500 Examples.good) 950 Examples.allowance).
  - reflexivity.
  - reflexivity.
  - vm_compute. reflexivity.
Defined.

(** The floor is what is returned when the estimate falls below it. *)
Example estimate_floor_is_reached :
  managedEstimateRenewFundingRequirements Examples.friendly Examples.K3
    Examples.oneContract (Examples.contract 1 "H" 1000 500 Examples.good) 950
    (mkAllowance 1000000 2 1000 100 0 0 0 false)
  = Done (Currency_MulFloat 1000000 Examples.float_0_15 / 2, None).
Proof. vm_compute. reflexivity. Qed.

(** ** C5: a failed renewal *)

(** C5 (as stated) fails when the write of the locked utility fails:
    the contract has failed before, the height is in the second half of
    the renew window and the count has reached the threshold, yet the
    utility stays as it was; the code only logs the failed write. *)
Lemma renew_failure_literal_fails_when_write_fails :
  ~ renew_failure_literal Examples.refusingLockWriteFails Examples.K3
      (Examples.lateContract {[1 := 3]}) Examples.renewOne 960 2100.
Proof.
  intros H.
  destruct (H (delivered
                 (managedRenewContract Examples.refusingLockWriteFails Examples.K3
                    (Examples.lateContract {[1 := 3]}) Examples.renewOne 960 2100)
                 (Examples.lateContract {[1 := 3]}, (0, zeroRenterContract, None))).1
              0 zeroRenterContract
              (errContext (errExternal true "host refused")
                 "contract marked as bad for too many consecutive failed renew attempts")
              Examples.renterR Examples.settings
              (Examples.contract 1 "H" 1000 500 Examples.good)
              (Examples.contract 1 "H" 1000 500 Examples.good))
    as [Hlock _].
  - vm_compute. reflexivity.
  - reflexivity.
  - reflexivity.
  - reflexivity.
  - reflexivity.
  - vm_compute. reflexivity.
  - assert (Hu : Utility (Examples.contract 1 "H" 1000 500 Examples.good) = lockedUtility).
    { apply Hlock. split; [| split].
      - vm_compute. eauto.
      - vm_compute. discriminate.
      - vm_compute. discriminate. }
    discriminate Hu.
Qed.

(** C5 (amended). When [managedRenewContract] reaches the renewal
    attempt (the renter is known, the session with the host is
    established and the host sends its settings), the attempt fails, and
    the old contract has been handed back and is live afterwards: the
    call returns the error and no funds spent; if the failure is the
    host's fault, [numFailedRenews] of the contract is incremented (on
    [uint64]), otherwise the map is unchanged.  The lock is tried
    exactly when the contract has a recorded failure, the block height
    plus half the renew window is at least the end height, and the count
    has reached [consecutiveRenewalsBeforeReplacement], and the log then
    reports the contract as marked bad: the utility becomes
    not-GoodForUpload, not-GoodForRenew and Locked if the utility write
    succeeds, and the contract set is left as the attempt left it if the
    write fails; it is left so too when the lock is not tried.
    The recorded failure is read after the tally; with a threshold of at
    least two this is the same as a failure recorded before the call. *)
Theorem renew_failure_handling (W : World) (K : Constants) (c c1 : Contractor)
    (ri : fileContractRenewal) (bh eh : BlockHeight) (renter : Renter)
    (hs : HostExternalSettings) (errRenew : error) (old : RenterContract) :
  let id := renewal_id ri in
  renters c !! renewal_renterPubKey ri = Some renter ->
  host_Session W (renewal_renterPubKey ri) (renewal_hostPubKey ri) = None ->
  host_Settings W (renewal_renterPubKey ri) (renewal_hostPubKey ri) = inr hs ->
  managedRenew W K
    (logEvent (set_renewing c (<[id := true]> (renewing c))) (EvCallingRenew id))
    id (renewal_renterPubKey ri) (renewal_hostPubKey ri) (renewal_amount ri) eh hs
    = (c1, inl errRenew, false) ->
  ContractSet_View (staticContracts c1) id = Some old ->
  exists c' e,
    managedRenewContract W K c ri bh eh = Done (c', (0, zeroRenterContract, Some e)) /\
    let before := numFailedRenews c !! id in
    let after := numFailedRenews c' !! id in
    let secondHalf :=
      EndHeight old <= add64 bh (RenewWindow (RenterAllowance renter) / 2) in
    let reached := consecutiveRenewalsBeforeReplacement K <= default 0 after in
    (if IsHostsFault errRenew
     then numFailedRenews c' = <[id := add64 (default 0 before) 1]> (numFailedRenews c)
     else numFailedRenews c' = numFailedRenews c) /\
    (IsHostsFault errRenew = true -> default 0 before + 1 < uint64_mod ->
     after = Some (default 0 before + 1)) /\
    (is_Some after /\ secondHalf /\ reached ->
     log c' = log c1 ++ [EvMarkedBad id] /\
     match write_UpdateUtility W id lockedUtility with
     | None =>
         staticContracts c' =
           ContractSet_UpdateUtility (staticContracts c1) id lockedUtility /\
         ContractSet_View (staticContracts c') id = Some (with_Utility old lockedUtility)
     | Some _ => staticContracts c' = staticContracts c1
     end) /\
    (~ (is_Some after /\ secondHalf /\ reached) ->
     log c' = log c1 /\ staticContracts c' = staticContracts c1) /\
    (1 < consecutiveRenewalsBeforeReplacement K ->
     (is_Some after /\ secondHalf /\ reached <->
      is_Some before /\ secondHalf /\ reached)).
Proof.
  intros id Hr Hs Hset Hren Hold.
  pose proof (managedRenew_frame _ _ _ _ _ _ _ _ _ _ _ _ Hren) as (Hnf & _).
  simpl in Hnf.
  pose proof (View_ID _ _ _ Hold) as Hid.
  unfold managedRenewContract. fold id. rewrite Hr, Hs, Hset, Hren.
  unfold ContractSet_Acquire. rewrite Hold.
  assert (Hmd : forall m, FileContract_Metadata (set_numFailedRenews c1 m) old = old).
  { intros m. unfold FileContract_Metadata. simpl. by rewrite Hid, Hold. }
  assert (Hmd1 : FileContract_Metadata c1 old = old).
  { unfold FileContract_Metadata. by rewrite Hid, Hold. }
  set (c2 := if IsHostsFault errRenew
             then set_numFailedRenews c1
                    (<[id := add64 (default 0 (numFailedRenews c !! id)) 1]>
                       (numFailedRenews c))
             else c1).
  assert (Hc2s : staticContracts c2 = staticContracts c1)
    by (unfold c2; destruct (IsHostsFault errRenew); reflexivity).
  assert (Hc2l : log c2 = log c1)
    by (unfold c2; destruct (IsHostsFault errRenew); reflexivity).
  assert (Hc2n : numFailedRenews c2 =
                 if IsHostsFault errRenew
                 then <[id := add64 (default 0 (numFailedRenews c !! id)) 1]>
                        (numFailedRenews c)
                 else numFailedRenews c).
  { unfold c2. destruct (IsHostsFault errRenew); [reflexivity | exact Hnf]. }
  match goal with |- context [if IsHostsFault errRenew then ?a else ?b] =>
    replace (if IsHostsFault errRenew then a else b) with c2
      by (unfold c2; rewrite Hmd1, Hid, Hnf; reflexivity) end.
  assert (Hmd2 : FileContract_Metadata c2 old = old).
  { unfold FileContract_Metadata. by rewrite Hc2s, Hid, Hold. }
  rewrite Hmd2, Hid. fold id.
  set (after := numFailedRenews c2 !! id).
  set (secondHalf := EndHeight old <= add64 bh (RenewWindow (RenterAllowance renter) / 2)).
  set (reached := consecutiveRenewalsBeforeReplacement K <= default 0 after).
  assert (Hinc : if IsHostsFault errRenew
                 then numFailedRenews c2 =
                      <[id := add64 (default 0 (numFailedRenews c !! id)) 1]>
                        (numFailedRenews c)
                 else numFailedRenews c2 = numFailedRenews c).
  { rewrite Hc2n. destruct (IsHostsFault errRenew); reflexivity. }
  assert (Hafter : IsHostsFault errRenew = true ->
                   default 0 (numFailedRenews c !! id) + 1 < uint64_mod ->
                   after = Some (default 0 (numFailedRenews c !! id) + 1)).
  { intros Hf Hlt. unfold after. rewrite Hc2n, Hf, lookup_insert_eq.
    f_equal. unfold add64, wrap64. by apply N.mod_small. }
  assert (Hiff : 1 < consecutiveRenewalsBeforeReplacement K ->
                 (is_Some after /\ secondHalf /\ reached <->
                  is_Some (numFailedRenews c !! id) /\ secondHalf /\ reached)).
  { intros HK. unfold reached, after. rewrite Hc2n.
    destruct (IsHostsFault errRenew); [| tauto].
    rewrite lookup_insert_eq. simpl.
    destruct (numFailedRenews c !! id) as [n|] eqn:Hb; simpl.
    - split; intros (_ & ? & ?); repeat split; eauto.
    - unfold add64, wrap64. rewrite N.mod_small by reflexivity.
      split; [intros (_ & _ & ?); lia | intros ([? [=]] & _)]. }
  destruct (bool_decide (is_Some after) &&
            (EndHeight old <=? add64 bh (RenewWindow (RenterAllowance renter) / 2)) &&
            (consecutiveRenewalsBeforeReplacement K <=? default 0 after)) eqn:Hcond.
  - apply andb_true_iff in Hcond as [Hcond Hreach].
    apply andb_true_iff in Hcond as [Hsome Hhalf].
    apply bool_decide_eq_true in Hsome. apply N.leb_le in Hhalf, Hreach.
    unfold callUpdateUtility. rewrite Hid. fold id.
    destruct (write_UpdateUtility W id lockedUtility) eqn:Hw;
      (do 2 eexists; split; [reflexivity |]); simpl; fold after secondHalf reached;
      (split; [exact Hinc |]); (split; [exact Hafter |]);
      (split; [| split; [| exact Hiff]]).
    + intros _. by rewrite Hc2l.
    + intros Hn. exfalso. apply Hn. auto.
    + intros _. rewrite Hc2s, Hc2l. split; [reflexivity |]. split; [reflexivity |].
      rewrite View_UpdateUtility, Hold. simpl. by rewrite Hid, N.eqb_refl.
    + intros Hn. exfalso. apply Hn. auto.
  - do 2 eexists. split; [reflexivity |]. simpl. fold after secondHalf reached.
    assert (Hncond : ~ (is_Some after /\ secondHalf /\ reached)).
    { intros (Hsome & Hhalf & Hreach).
      apply (bool_decide_eq_true_2 _) in Hsome. apply N.leb_le in Hhalf, Hreach.
      rewrite Hsome, Hhalf, Hreach in Hcond. discriminate. }
    split; [exact Hinc |]. split; [exact Hafter |].
    split; [| split; [| exact Hiff]].
    + intros Hc. contradiction.
    + intros _. by rewrite Hc2l.
Qed.

Lemma renew_failure_witness :
  exists c' e,
    managedRenewContract Examples.refusing Examples.K3
      (Examples.lateContract {[1 := 2]}) Examples.renewOne 960 2100
    = Done (c', (0, zeroRenterContract, Some e)) /\
    numFailedRenews c' !! 1 = Some 3 /\
    ContractSet_View (staticContracts c') 1 =
      Some (with_Utility (Examples.contract 1 "H" 1000 500 Examples.good) lockedUtility).
Proof.
  destruct (renew_failure_handling Examples.refusing Examples.K3
              (Examples.lateContract {[1 := 2]})
              (logEvent (set_renewing (Examples.lateContract {[1 := 2]})
                           (<[1 := true]> ∅)) (EvCallingRenew 1))
              Examples.renewOne 960 2100 Examples.renterR Examples.settings
              (errExternal true "host refused")
              (Examples.contract 1 "H" 1000 500 Examples.good))
    as (c' & e & Hrun & _ & Hafter & Hlock & _).
  - reflexivity.
  - reflexivity.
  - reflexivity.
  - vm_compute. reflexivity.
  - reflexivity.
  - exists c', e. split; [exact Hrun |].
    assert (Hc : numFailedRenews c' !! 1 = Some 3).
    { apply Hafter; [reflexivity | vm_compute; reflexivity]. }
    split; [exact Hc |]. refine (proj2 (proj2 (Hlock _))).
    change (renewal_id Examples.renewOne) with 1. rewrite Hc.
    repeat split; [by eexists | vm_compute; discriminate | vm_compute; discriminate].
Defined.

(** Scenario S4: three failed renewals in the second half of the window,
    with a threshold of three: the contract is locked after the third
    attempt, and not before. *)
Example three_failures_lock :
  let c2 := Examples.attempt Examples.refusing
              (Examples.attempt Examples.refusing (Examples.lateContract ∅)) in
  let c3 := Examples.attempt Examples.refusing c2 in
  (Utility <$> ContractSet_View (staticContracts c2) 1 = Some Examples.good /\
   numFailedRenews c2 !! 1 = Some 2) /\
  (Utility <$> ContractSet_View (staticContracts c3) 1 = Some lockedUtility /\
   numFailedRenews c3 !! 1 = Some 3).
Proof. vm_compute. repeat split. Qed.

(** ** C6: the cap on GFU contracts *)

(** C6 (the code at the failing input). A renter wants one host and has
    two GFU contracts, with hosts scoring 10 and 20.  The loop walks the
    contracts in ascending order of score and spends the renter's quota on
    the first ones: the contract with score 10 stays GFU and the contract
    with score 20 is demoted. *)
Theorem limit_gfu_keeps_lowest_score :
  let c' := managedLimitGFUHosts Examples.scored Examples.twoGFU in
  gfu_score <$> sortByScore (collectGFU Examples.scored (Contracts Examples.twoGFU) ∅ [])
    = [10; 20] /\
  Utility <$> ContractSet_View (staticContracts c') 1 = Some (mkUtility true true false) /\
  Utility <$> ContractSet_View (staticContracts c') 2 = Some (mkUtility false true false).
Proof. vm_compute. repeat split. Qed.

Lemma insertByScore_perm x l : insertByScore x l ≡ₚ x :: l.
Proof.
  induction l as [|y l IH]; simpl; [reflexivity |].
  destruct (_ <? _)%Z; [| reflexivity].
  rewrite IH. apply Permutation_swap.
Qed.

Lemma sortByScore_perm l : sortByScore l ≡ₚ l.
Proof.
  induction l as [|x l IH]; simpl; [reflexivity |].
  rewrite insertByScore_perm. by rewrite IH.
Qed.

Lemma insertByScore_sorted x l :
  StronglySorted (fun a b => gfu_score a <= gfu_score b) l ->
  StronglySorted (fun a b => gfu_score a <= gfu_score b) (insertByScore x l).
Proof.
  induction l as [|y l IH]; simpl; intros Hs.
  - repeat constructor.
  - apply StronglySorted_cons in Hs as [Hy Hs].
    rewrite Currency_Cmp_lt. destruct (N.ltb_spec (gfu_score y) (gfu_score x)) as [Hlt|Hge].
    + apply StronglySorted_cons. split; [| auto].
      rewrite insertByScore_perm. constructor; [lia | exact Hy].
    + apply StronglySorted_cons. split.
      * constructor; [exact Hge |].
        eapply Forall_impl; [exact Hy |]. simpl. intros; lia.
      * apply StronglySorted_cons. by split.
Qed.

Lemma sortByScore_sorted l :
  StronglySorted (fun a b => gfu_score a <= gfu_score b) (sortByScore l).
Proof.
  induction l as [|x l IH]; simpl; [constructor |]. by apply insertByScore_sorted.
Qed.

(** The contracts collected are contracts of the list, in its order,
    each good for upload. *)
Lemma collectGFU_spec W contracts : forall hostScores acc,
  exists l, collectGFU W contracts hostScores acc = acc ++ l /\
            sublist (gfu_c <$> l) contracts /\
            Forall (fun g => GoodForUpload (Utility (gfu_c g)) = true) l.
Proof.
  induction contracts as [|contract rest IH]; simpl; intros hostScores acc.
  - exists []. rewrite app_nil_r. repeat split; constructor.
  - destruct (GoodForUpload (Utility contract)) eqn:Hgfu; simpl.
    2: { destruct (IH hostScores acc) as (l & -> & Hsub & Hall).
         exists l. repeat split; auto. by apply sublist_cons. }
    assert (Hadd : forall hs score,
      exists l, collectGFU W rest hs (acc ++ [mkGfu contract score]) = acc ++ l /\
                sublist (gfu_c <$> l) (contract :: rest) /\
                Forall (fun g => GoodForUpload (Utility (gfu_c g)) = true) l).
    { intros hs score. destruct (IH hs (acc ++ [mkGfu contract score])) as (l & -> & Hsub & Hall).
      exists (mkGfu contract score :: l). rewrite <- app_assoc. repeat split.
      - simpl. by apply sublist_skip.
      - by constructor. }
    assert (Hskip : forall hs,
      exists l, collectGFU W rest hs acc = acc ++ l /\
                sublist (gfu_c <$> l) (contract :: rest) /\
                Forall (fun g => GoodForUpload (Utility (gfu_c g)) = true) l).
    { intros hs. destruct (IH hs acc) as (l & -> & Hsub & Hall).
      exists l. repeat split; auto. by apply sublist_cons. }
    destruct (hostScores !! HostPublicKey contract); [apply Hadd |].
    destruct (hdb_Host W (HostPublicKey contract)) as [[host ok] err].
    destruct (_ || _); [apply Hskip |].
    destruct (hdb_ScoreBreakdown W host); [apply Hskip | apply Hadd].
Qed.

Lemma rankAmong_0 gs r : rankAmong gs 0 r = 0%nat.
Proof. reflexivity. Qed.

Lemma rankAmong_S g gs i r :
  rankAmong (g :: gs) (S i) r =
  ((if String.eqb (renterOf g) r then 1 else 0) + rankAmong gs i r)%nat.
Proof. unfold rankAmong. simpl. by destruct (String.eqb (renterOf g) r). Qed.

Section LimitLoop.

Variable W : World.
Hypothesis Hwrite : forall id u, write_UpdateUtility W id u = None.

(** After the loop over [gs], a contract of [gs] is good for upload
    exactly when fewer contracts of its renter come before it in [gs]
    than the renter's quota allows; contracts outside [gs] are
    untouched. *)
Lemma limitGFUHost_loop gs : forall c numHosts,
  NoDup (ID <$> (gfu_c <$> gs)) ->
  (forall g, g ∈ gs ->
     exists rc, ContractSet_View (staticContracts c) (ID (gfu_c g)) = Some rc /\
                GoodForUpload (Utility rc) = true) ->
  let c' := (fold_left (limitGFUHost W) gs (c, numHosts)).1 in
  (forall i g, gs !! i = Some g ->
     exists rc', ContractSet_View (staticContracts c') (ID (gfu_c g)) = Some rc' /\
       (GoodForUpload (Utility rc') = true <->
        N.of_nat (rankAmong gs i (renterOf g)) < default 0 (numHosts !! renterOf g))) /\
  (forall id, id ∉ ID <$> (gfu_c <$> gs) ->
     ContractSet_View (staticContracts c') id = ContractSet_View (staticContracts c) id).
Proof.
  induction gs as [|g gs IH]; intros c numHosts Hnd Hlive; simpl.
  - split; [intros i g Hi; discriminate | reflexivity].
  - simpl in Hnd. apply NoDup_cons in Hnd as [Hg Hnd].
    fold (renterOf g).
    destruct (N.ltb_spec 0 (default 0 (numHosts !! renterOf g))) as [Hq|Hq].
    + (* the contract uses up quota *)
      destruct (IH c (<[renterOf g := default 0 (numHosts !! renterOf g) - 1]> numHosts) Hnd)
        as [Hin Hout].
      { intros g' Hg'. apply Hlive. apply elem_of_cons. by right. }
      split.
      * intros [|i] g' Hi; simpl in Hi.
        -- injection Hi as <-. rewrite Hout by exact Hg.
           destruct (Hlive g) as (rc & Hrc & Hgfu); [apply elem_of_cons; by left |].
           exists rc. split; [exact Hrc |]. rewrite rankAmong_0, Hgfu. simpl. split; auto.
        -- destruct (Hin i g' Hi) as (rc' & Hrc' & Hiff).
           exists rc'. split; [exact Hrc' |]. rewrite Hiff, rankAmong_S.
           destruct (String.eqb_spec (renterOf g) (renterOf g')) as [Heq|Hne].
           ++ rewrite <- Heq, lookup_insert_eq. simpl. lia.
           ++ rewrite lookup_insert_ne by exact Hne. simpl. lia.
      * intros id Hid. apply Hout. intros Hin'. apply Hid. apply elem_of_cons. by right.
    + (* the quota is used up: the contract is demoted *)
      destruct (Hlive g) as (sc & Hsc & Hgfu); [apply elem_of_cons; by left |].
      unfold ContractSet_Acquire. rewrite Hsc.
      unfold managedUpdateContractUtility, callUpdateUtility. rewrite Hwrite. simpl.
      pose proof (View_ID _ _ _ Hsc) as Hid.
      set (u := mkUtility false _ _).
      set (c1 := set_staticContracts c _).
      destruct (IH c1 numHosts Hnd) as [Hin Hout].
      { intros g' Hg'. destruct (Hlive g') as (rc & Hrc & Hgfu'); [apply elem_of_cons; by right |].
        exists rc. split; [| exact Hgfu']. unfold c1. simpl.
        rewrite View_UpdateUtility, Hrc. simpl. rewrite Hid.
        assert (Hne : (ID rc =? ID (gfu_c g)) = false).
        { apply N.eqb_neq. rewrite (View_ID _ _ _ Hrc). intros Heq. apply Hg.
          rewrite <- Heq. apply list_elem_of_fmap_2. by apply list_elem_of_fmap_2. }
        by rewrite Hne. }
      split.
      * intros [|i] g' Hi; simpl in Hi.
        -- injection Hi as <-. rewrite Hout by exact Hg. unfold c1. simpl.
           rewrite View_UpdateUtility, Hsc. simpl. rewrite N.eqb_refl.
           eexists. split; [reflexivity |]. simpl. rewrite rankAmong_0. split; [discriminate | lia].
        -- destruct (Hin i g' Hi) as (rc' & Hrc' & Hiff).
           exists rc'. split; [exact Hrc' |]. rewrite Hiff, rankAmong_S.
           destruct (String.eqb_spec (renterOf g) (renterOf g')) as [Heq|Hne].
           ++ rewrite <- Heq. lia.
           ++ simpl. lia.
      * intros id Hnin. rewrite Hout.
        -- unfold c1. simpl. rewrite View_UpdateUtility.
           destruct (ContractSet_View (staticContracts c) id) as [rc|] eqn:Hrc; [| reflexivity].
           simpl. rewrite Hid.
           assert (Hne : (ID rc =? ID (gfu_c g)) = false).
           { apply N.eqb_neq. rewrite (View_ID _ _ _ Hrc). intros ->. apply Hnin.
             apply elem_of_cons. by left. }
           by rewrite Hne.
        -- intros Hin'. apply Hnin. apply elem_of_cons. by right.
Qed.

(** [managedLimitGFUHosts] in general (ids pairwise distinct, writes
    succeeding): the GFU contracts with a scored host are walked in
    ascending order of score, and such a contract stays good for upload
    exactly when fewer than [allowance.Hosts] contracts of its renter
    come before it in that order. *)
Lemma managedLimitGFUHosts_keeps_first (c : Contractor) :
  NoDup (ID <$> staticContracts c) ->
  let gs := sortByScore (collectGFU W (Contracts c) ∅ []) in
  let c' := managedLimitGFUHosts W c in
  StronglySorted (fun a b => gfu_score a <= gfu_score b) gs /\
  forall i g, gs !! i = Some g ->
    exists rc', ContractSet_View (staticContracts c') (ID (gfu_c g)) = Some rc' /\
      (GoodForUpload (Utility rc') = true <->
       N.of_nat (rankAmong gs i (renterOf g))
       < default 0 (numHostsOf (renters c) !! renterOf g)).
Proof.
  intros Hnd gs c'. split; [apply sortByScore_sorted |].
  destruct (collectGFU_spec W (Contracts c) ∅ []) as (l & Hl & Hsub & Hall).
  simpl in Hl.
  assert (Hperm : gs ≡ₚ l) by (unfold gs; rewrite Hl; apply sortByScore_perm).
  apply (limitGFUHost_loop gs c (numHostsOf (renters c))).
  - rewrite Hperm. apply (sublist_NoDup _ (ID <$> staticContracts c)); [exact Hnd |].
    apply fmap_sublist. exact Hsub.
  - intros g Hg. rewrite Hperm in Hg. exists (gfu_c g). split.
    + apply View_elem; [exact Hnd |].
      eapply elem_of_sublist; [| exact Hsub]. by apply list_elem_of_fmap_2.
    + by apply (proj1 (Forall_forall _ _) Hall).
Qed.

End LimitLoop.

(** ** C7: the refresh set *)





(** A return that logs nothing and leaves the counters alone. *)
Ltac silent_return :=
  intros [= <- <-]; split; [exists []; by rewrite app_nil_r | done].

(** A return after the lines logged so far, all about one contract. *)
Ltac logged_return :=
  split; [eexists; split; [reflexivity | by repeat constructor] | done].

Lemma callUpdateUtility_frame W c fc u b :
  log (callUpdateUtility W c fc u b).1 = log c /\
  numFailedRenews (callUpdateUtility W c fc u b).1 = numFailedRenews c.
Proof. unfold callUpdateUtility. by destruct (write_UpdateUtility W _ _). Qed.

Lemma managedAcquireAndUpdateContractUtility_frame W c id u :
  log (managedAcquireAndUpdateContractUtility W c id u).1 = log c /\
  numFailedRenews (managedAcquireAndUpdateContractUtility W c id u).1 = numFailedRenews c.
Proof.
  unfold managedAcquireAndUpdateContractUtility, managedUpdateContractUtility.
  destruct (ContractSet_Acquire _ _); [apply callUpdateUtility_frame | done].
Qed.

(** What [managedRenewContract] logs is about the contract to renew, and
    the failure counters change at most for that contract, where an entry
    is never removed. *)
Lemma managedRenewContract_frame W K c ri bh eh c' r :
  managedRenewContract W K c ri bh eh = Done (c', r) ->
  (exists E, log c' = log c ++ E /\
             Forall (fun e => eventContract e = renewal_id ri) E) /\
  (forall id, id <> renewal_id ri -> numFailedRenews c' !! id = numFailedRenews c !! id) /\
  (is_Some (numFailedRenews c !! renewal_id ri) ->
   is_Some (numFailedRenews c' !! renewal_id ri)).
Proof.
  unfold managedRenewContract.
  destruct (renters c !! renewal_renterPubKey ri) as [renter|].
  2: silent_return.
  destruct (host_Session W _ _); [silent_return |].
  destruct (host_Settings W _ _) as [e|hs]; [silent_return |].
  destruct (managedRenew W K _ _ _ _ _ _ _) as [[c1 res] held] eqn:Hren.
  apply managedRenew_frame in Hren as (Hnf & _ & _ & _ & _ & Hlog).
  simpl in Hnf, Hlog.
  destruct held; [discriminate |].
  destruct (ContractSet_Acquire (staticContracts c1) (renewal_id ri)) as [old|] eqn:Hacq.
  2: { intros [= <- <-]. simpl. rewrite Hlog, Hnf. logged_return. }
  assert (Hmd : forall c2, staticContracts c2 = staticContracts c1 ->
                           ID (FileContract_Metadata c2 old) = renewal_id ri).
  { intros c2 Hc2. unfold FileContract_Metadata. rewrite Hc2.
    unfold ContractSet_Acquire in Hacq. pose proof (View_ID _ _ _ Hacq) as Hid.
    by rewrite Hid, Hacq. }
  destruct res as [errRenew|nc].
  - set (c2 := if IsHostsFault errRenew then _ else c1).
    assert (Hc2 : staticContracts c2 = staticContracts c1 /\ log c2 = log c1 /\
              (forall id, id <> renewal_id ri ->
                 numFailedRenews c2 !! id = numFailedRenews c !! id) /\
              (is_Some (numFailedRenews c !! renewal_id ri) ->
               is_Some (numFailedRenews c2 !! renewal_id ri))).
    { unfold c2. destruct (IsHostsFault errRenew); simpl.
      - rewrite (Hmd c1 eq_refl). repeat split; auto.
        + intros id Hne. rewrite lookup_insert_ne by done. by rewrite Hnf.
        + intros _. rewrite lookup_insert_eq. eauto.
      - rewrite Hnf. repeat split; auto. }
    destruct Hc2 as (Hs2 & Hl2 & Hn2 & Hk2).
    destruct (_ && _).
    + intros [= <- <-]. simpl.
      destruct (callUpdateUtility_frame W c2 old lockedUtility true) as [-> ->].
      rewrite Hl2, Hlog, <- app_assoc. logged_return.
    + intros [= <- <-]. simpl. rewrite Hl2, Hlog. logged_return.
  - unfold callUpdateUtility.
    destruct (managedAcquireAndUpdateContractUtility W _ (ID nc) _) as [c2 [e|]] eqn:Hupd.
    + intros [= <- <-]. simpl.
      pose proof (managedAcquireAndUpdateContractUtility_frame W
                    (logEvent c1 (EvRenewed (renewal_id ri))) (ID nc)
                    (mkUtility true true false)) as [Hl Hn].
      rewrite Hupd in Hl, Hn. simpl in Hl, Hn. rewrite Hl, Hn, Hlog, Hnf, <- app_assoc.
      logged_return.
    + pose proof (managedAcquireAndUpdateContractUtility_frame W
                    (logEvent c1 (EvRenewed (renewal_id ri))) (ID nc)
                    (mkUtility true true false)) as [Hl Hn].
      rewrite Hupd in Hl, Hn. simpl in Hl, Hn.
      destruct (write_UpdateUtility W (ID old) lockedUtility);
        intros [= <- <-]; simpl; rewrite Hl, Hn, Hlog, Hnf, <- app_assoc;
        logged_return.
Qed.

Lemma renewOrRefresh_frame W K renter bh refresh st r st' oe :
  renewOrRefresh W K renter bh refresh st r = Done (st', oe) ->
  (exists E, log (pr_c st') = log (pr_c st) ++ E /\
             Forall (fun e => eventContract e = renewal_id r) E) /\
  (forall id, id <> renewal_id r ->
     numFailedRenews (pr_c st') !! id = numFailedRenews (pr_c st) !! id) /\
  (is_Some (numFailedRenews (pr_c st) !! renewal_id r) ->
   is_Some (numFailedRenews (pr_c st') !! renewal_id r)).
Proof.
  unfold renewOrRefresh.
  destruct (stopped W); [silent_return |].
  destruct (wallet_Unlocked W) as [unlocked err].
  destruct (_ || _); [silent_return |].
  destruct (_ >? _)%Z.
  { intros [= <- <-]. simpl. logged_return. }
  destruct (managedRenewContract W K (pr_c st) r bh (ContractEndHeight renter))
    as [[c1 [[spent nc] err']]| |] eqn:Hrun; try discriminate.
  apply managedRenewContract_frame in Hrun as ((E & HE & HF) & Hn & Hk).
  destruct err' as [e|].
  - intros [= <- <-]. simpl.
    destruct (negb refresh && ContainsNotGFR e); simpl.
    + split; [exists E; by split | by split].
    + rewrite HE, <- app_assoc. split; [| by split].
      eexists. split; [reflexivity |].
      apply Forall_app. split; [exact HF | by repeat constructor].
  - intros [= <- <-]. simpl.
    destruct (managedAcquireAndUpdateContractUtility_frame W c1 (ID nc)
                (mkUtility true true false)) as [-> ->].
    split; [exists E; by split | by split].
Qed.

Lemma renewLoop_frame W K renter bh refresh set : forall st st' oe,
  renewLoop W K renter bh refresh set st = Done (st', oe) ->
  (exists E, log (pr_c st') = log (pr_c st) ++ E /\ aboutSet set E) /\
  (forall id, id ∉ renewal_id <$> set ->
     numFailedRenews (pr_c st') !! id = numFailedRenews (pr_c st) !! id) /\
  (forall id, is_Some (numFailedRenews (pr_c st) !! id) ->
     is_Some (numFailedRenews (pr_c st') !! id)).
Proof.
  induction set as [|r set IH]; simpl; intros st st' oe Hrun.
  - injection Hrun as <- <-.
    split; [exists []; split; [by rewrite app_nil_r | constructor] | done].
  - destruct (renewOrRefresh W K renter bh refresh st r) as [[st1 oe1]| |] eqn:Hstep;
      try discriminate.
    apply renewOrRefresh_frame in Hstep as ((E1 & HE1 & HF1) & Hn1 & Hk1).
    assert (Hfirst : aboutSet (r :: set) E1).
    { eapply Forall_impl; [exact HF1 |]. intros e ->. simpl. apply elem_of_cons. by left. }
    assert (Hkeep : forall id, is_Some (numFailedRenews (pr_c st) !! id) ->
                               is_Some (numFailedRenews (pr_c st1) !! id)).
    { intros id Hs. destruct (decide (id = renewal_id r)) as [->|Hne]; [auto |].
      by rewrite Hn1. }
    destruct oe1 as [ret|].
    + injection Hrun as <- <-. split; [exists E1; by split |]. split; [| exact Hkeep].
      intros id Hid. apply Hn1. intros ->. apply Hid. apply elem_of_cons. by left.
    + apply IH in Hrun as ((E2 & HE2 & HF2) & Hn2 & Hk2).
      split; [| split].
      * exists (E1 ++ E2). rewrite HE2, HE1, <- app_assoc. split; [reflexivity |].
        apply Forall_app. split; [exact Hfirst |].
        eapply Forall_impl; [exact HF2 |]. intros e He. simpl. apply elem_of_cons. by right.
      * intros id Hid. rewrite Hn2, Hn1; [reflexivity | |].
        -- intros ->. apply Hid. apply elem_of_cons. by left.
        -- intros Hin. apply Hid. apply elem_of_cons. by right.
      * intros id Hs. apply Hk2. by apply Hkeep.
Qed.

(** The state of a pass that ran to the end of both loops, or left one
    of them early. *)
Lemma renewPhase_inv W K c renter ids cls st oe :
  renewPhase W K c renter ids = Done (inr (cls, (st, oe))) ->
  classifyContracts W K c renter (blockHeight c) ids emptyClassification = Done (inr cls) /\
  (exists E1 E2, log (pr_c st) = log c ++ E1 ++ E2 /\
                 aboutSet (cls_renewSet cls) E1 /\ aboutSet (cls_refreshSet cls) E2) /\
  (forall id, id ∉ renewal_id <$> (cls_renewSet cls ++ cls_refreshSet cls) ->
     numFailedRenews (pr_c st) !! id = numFailedRenews c !! id) /\
  (forall id, is_Some (numFailedRenews c !! id) ->
     is_Some (numFailedRenews (pr_c st) !! id)).
Proof.
  unfold renewPhase.
  destruct (classifyContracts W K c renter (blockHeight c) ids emptyClassification)
    as [[e|cls0]| |]; try discriminate.
  destruct (renewLoop W K renter (blockHeight c) false (cls_renewSet cls0) _)
    as [[st1 oe1]| |] eqn:Hrenew; try discriminate.
  apply renewLoop_frame in Hrenew as ((E1 & HE1 & HF1) & Hn1 & Hk1).
  simpl in HE1, Hn1, Hk1.
  destruct oe1 as [ret|].
  - intros [= <- <- <-]. split; [reflexivity |]. split; [| split].
    + exists E1, []. rewrite app_nil_r. repeat split; auto. constructor.
    + intros id Hid. apply Hn1. intros Hin. apply Hid.
      rewrite fmap_app. apply elem_of_app. by left.
    + exact Hk1.
  - destruct (renewLoop W K renter (blockHeight c) true (cls_refreshSet cls0) st1)
      as [[st2 oe2]| |] eqn:Hrefresh; try discriminate.
    apply renewLoop_frame in Hrefresh as ((E2 & HE2 & HF2) & Hn2 & Hk2).
    intros [= <- <- <-]. split; [reflexivity |]. split; [| split].
    + exists E1, E2. rewrite HE2, HE1, <- app_assoc. by repeat split.
    + intros id Hid. rewrite Hn2, Hn1; [reflexivity | |];
        intros Hin; apply Hid; rewrite fmap_app; apply elem_of_app; auto.
    + intros id Hs. by apply Hk2, Hk1.
Qed.




(** ** C8: the reset of the failure counters *)

Lemma keepFailedRenews_lookup set old : forall m id,
  keepFailedRenews set old m !! id =
  if bool_decide (id ∈ renewal_id <$> set)
  then match old !! id with Some n => Some n | None => m !! id end
  else m !! id.
Proof.
  unfold keepFailedRenews.
  induction set as [|r set IH]; simpl; intros m id; [reflexivity |].
  rewrite IH. destruct (decide (id = renewal_id r)) as [->|Hne].
  - rewrite (bool_decide_eq_true_2 (renewal_id r ∈ renewal_id r :: _))
      by (apply elem_of_cons; by left).
    destruct (old !! renewal_id r) as [n|] eqn:Hold.
    + rewrite lookup_insert_eq. by destruct (bool_decide _).
    + by destruct (bool_decide _).
  - assert (Hm : (match old !! renewal_id r with
                  | Some n => <[renewal_id r := n]> m
                  | None => m
                  end) !! id = m !! id).
    { destruct (old !! renewal_id r); [by rewrite lookup_insert_ne | done]. }
    rewrite Hm.
    destruct (decide (id ∈ renewal_id <$> set)) as [Hin|Hnin].
    + rewrite !bool_decide_eq_true_2; [done | | done]. apply elem_of_cons. by right.
    + rewrite !bool_decide_eq_false_2; [done | | done].
      intros [?|?]%elem_of_cons; contradiction.
Qed.

Lemma resetFailedRenews_lookup renewSet refreshSet old id :
  resetFailedRenews renewSet refreshSet old !! id =
  if bool_decide (id ∈ renewal_id <$> (renewSet ++ refreshSet))
  then old !! id else None.
Proof.
  unfold resetFailedRenews. rewrite !keepFailedRenews_lookup, lookup_empty, fmap_app.
  destruct (decide (id ∈ renewal_id <$> renewSet)) as [H1|H1];
    destruct (decide (id ∈ renewal_id <$> refreshSet)) as [H2|H2].
  - rewrite !bool_decide_eq_true_2; auto; [| apply elem_of_app; auto].
    by destruct (old !! id).
  - rewrite (bool_decide_eq_false_2 _ H2), (bool_decide_eq_true_2 _ H1).
    rewrite bool_decide_eq_true_2 by (apply elem_of_app; auto).
    by destruct (old !! id).
  - rewrite (bool_decide_eq_true_2 _ H2), (bool_decide_eq_false_2 _ H1).
    rewrite bool_decide_eq_true_2 by (apply elem_of_app; auto).
    by destruct (old !! id).
  - rewrite (bool_decide_eq_false_2 _ H2), (bool_decide_eq_false_2 _ H1).
    rewrite bool_decide_eq_false_2; [done |].
    intros [?|?]%elem_of_app; contradiction.
Qed.

(** C8 (as stated) fails when a renewal fails for the first time during
    the pass: the contract had no entry before the pass and has one, with
    count 1, after it. *)
Lemma failed_renews_literal_fails_on_first_failure :
  ~ failed_renews_literal Examples.refusing Examples.K3 (Examples.lateContract ∅) "R" [1].
Proof.
  intros H.
  pose proof (H Examples.renterR
                (Examples.phaseOf Examples.refusing (Examples.lateContract ∅) [1]).1
                (Examples.phaseOf Examples.refusing (Examples.lateContract ∅) [1]).2.1
                (Examples.afterPass Examples.refusing (Examples.lateContract ∅) [1])
                []) as H1.
  assert (Hafter : numFailedRenews
                     (Examples.afterPass Examples.refusing (Examples.lateContract ∅) [1])
                     !! 1 = Some 1) by (vm_compute; reflexivity).
  assert (Hin : bool_decide
                  (1 ∈ renewalIDs
                     (Examples.phaseOf Examples.refusing (Examples.lateContract ∅) [1]).1)
                = true) by (vm_compute; reflexivity).
  specialize (H1 eq_refl).
  assert (Hphase : renewPhase Examples.refusing Examples.K3 (Examples.lateContract ∅)
                     Examples.renterR [1] =
                   Done (inr ((Examples.phaseOf Examples.refusing
                                 (Examples.lateContract ∅) [1]).1,
                              ((Examples.phaseOf Examples.refusing
                                  (Examples.lateContract ∅) [1]).2.1, None))))
    by (vm_compute; reflexivity).
  assert (Hrun : RenewContracts Examples.refusing Examples.K3 (Examples.lateContract ∅)
                   "R" [1] =
                 Done (Examples.afterPass Examples.refusing (Examples.lateContract ∅) [1],
                       ([], None)))
    by (vm_compute; reflexivity).
  specialize (H1 Hphase Hrun 1). rewrite Hafter, Hin in H1. discriminate H1.
Qed.

(** C8 (amended). When [RenewContracts] runs a pass to its end, the
    [numFailedRenews] map contains exactly those contract ids that appear
    in the pass's renew set or refresh set and have an entry when the two
    renewal loops are done, with the count the loops left; every other
    entry is removed.  The loops remove no entry and touch only entries of
    the two sets, so an entry from before the pass is retained if its id
    is in one of the sets, and so is an entry recorded by a failure
    during the pass. *)
Theorem failed_renews_after_pass (W : World) (K : Constants) (c : Contractor)
    (rpk : SiaPublicKey) (ids : list FileContractID) (renter : Renter)
    (cls : classification) (st : progress) :
  synced W = true ->
  renters c !! rpk = Some renter ->
  renewPhase W K c renter ids = Done (inr (cls, (st, None))) ->
  exists c',
    RenewContracts W K c rpk ids = Done (c', (pr_contractSet st, None)) /\
    (forall id,
       numFailedRenews c' !! id =
       if bool_decide (id ∈ renewalIDs cls)
       then numFailedRenews (pr_c st) !! id else None) /\
    (forall id, id ∈ renewalIDs cls -> is_Some (numFailedRenews c !! id) ->
       is_Some (numFailedRenews c' !! id)).
Proof.
  intros Hsync Hr Hphase. unfold RenewContracts. rewrite Hsync, Hr, Hphase. simpl.
  eexists. split; [reflexivity |]. simpl.
  apply renewPhase_inv in Hphase as (_ & _ & _ & Hkeep).
  split.
  - intros id. apply resetFailedRenews_lookup.
  - intros id Hin Hs. rewrite resetFailedRenews_lookup.
    unfold renewalIDs in Hin. rewrite (bool_decide_eq_true_2 _ Hin). by apply Hkeep.
Qed.

Lemma failed_renews_after_pass_witness :
  exists c',
    RenewContracts Examples.refusing Examples.K3 (Examples.lateContract {[1 := 1; 9 := 4]})
      "R" [1] = Done (c', ([], None)) /\
    numFailedRenews c' !! 1 = Some 2 /\ numFailedRenews c' !! 9 = None.
Proof.
  destruct (failed_renews_after_pass Examples.refusing Examples.K3
              (Examples.lateContract {[1 := 1; 9 := 4]}) "R" [1] Examples.renterR
              (Examples.phaseOf Examples.refusing
                 (Examples.lateContract {[1 := 1; 9 := 4]}) [1]).1
              (Examples.phaseOf Examples.refusing
                 (Examples.lateContract {[1 := 1; 9 := 4]}) [1]).2.1)
    as (c' & Hrun & Hmap & _).
  - reflexivity.
  - reflexivity.
  - vm_compute. reflexivity.
  - exists c'. split; [exact Hrun |]. rewrite !Hmap.
    split; vm_compute; reflexivity.
Defined.

(** ** C9: the funds that remain *)






(** With the spending of the period above the allowance, the one
    contract that the full allowance pays for is formed. *)
Example form_when_overspent :
  match (FormContracts Examples.overspent Examples.K3 Examples.noContracts "R").2 with
  | Done (contractSet, None) => ID <$> contractSet = [7001]
  | _ => False
  end.
Proof. vm_compute. reflexivity. Qed.

(** A host count that [make] refuses: [FormContracts] panics before it
    looks at the contracts, with the alert unregistered by the deferred
    function. *)
Example form_panics_on_host_count :
  FormContracts Examples.friendly Examples.K3 Examples.hugeHostCount "R"
  = (set_lowFundsAlert Examples.hugeHostCount false, Panic "makeslice: cap out of range").
Proof. vm_compute. reflexivity. Qed.

(** Scenario S1, with literal values: no contracts, two candidate hosts
    with contract price 100, a fee estimate of 10 per byte and a
    transaction set of 2048 bytes: each contract is funded
    [(100 + 10 * 2048) * 4 = 82320], clamped into
    [[100000/2/20, 100000/2*10/3]] = [[2500, 166666]]; the first contract
    is formed and stored good for upload and renew; the second finds
    17680 left and raises the low-funds alert. *)
Example form_from_empty :
  let run := FormContracts Examples.friendly Examples.K3 Examples.noContracts "R" in
  (fun rc => (ID rc, TotalCost rc, Utility rc)) <$> staticContracts run.1
    = [(7001, 82320, mkUtility true true false)] /\
  lowFundsAlert run.1 = true /\
  match run.2 with
  | Done (contractSet, None) => ID <$> contractSet = [7001]
  | _ => False
  end.
Proof. vm_compute. repeat split; reflexivity. Qed.

(** ** C10: payment intents *)

(** C10. [calculateOrderAmount] is the constant 500 whatever the items,
    and the handler requests payment intents for that amount only: for a
    request that decodes with status 200 it asks Stripe for exactly one
    payment intent, of amount 500 in USD with automatic payment methods
    enabled, whatever the items and whatever Stripe answers; for any
    other request it asks for none. *)
Theorem payment_intent_amount_is_500 (items : list Portal.item)
    (stripe : Portal.PaymentIntentParams -> option string) :
  Portal.calculateOrderAmount items = 500%Z /\
  (forall code,
     (Portal.paymentHandlerPOST (Portal.DecodeStatus code items) stripe).2
     = if code =? 200 then [Portal.mkParams 500 "usd" true] else []) /\
  (Portal.paymentHandlerPOST Portal.DecoderFailed stripe).2 = [].
Proof.
  split; [reflexivity |]. split; [| reflexivity].
  intros code. unfold Portal.paymentHandlerPOST, Portal.StatusOK.
  destruct (code =? 200); simpl; [| reflexivity].
  by destruct (stripe _).
Qed.

(** The handler answers with the client secret of the intent, or with
    status 500 when Stripe fails. *)
Example payment_intent_responses :
  let items := [Portal.mkItem "a"; Portal.mkItem "b"] in
  Portal.paymentHandlerPOST (Portal.DecodeStatus 200 items) (fun _ => Some "cs")
    = (Portal.RespClientSecret "cs", [Portal.mkParams 500 "usd" true]) /\
  Portal.paymentHandlerPOST (Portal.DecodeStatus 200 items) (fun _ => None)
    = (Portal.RespError 500, [Portal.mkParams 500 "usd" true]) /\
  Portal.paymentHandlerPOST (Portal.DecodeStatus 400 items) (fun _ => Some "cs")
    = (Portal.RespError 400, []).
Proof. repeat split. Qed.

(** * Further properties of the code *)

(** ** The gouging filter *)

(** X1. The check for payment contracts is the stricter of the two: a
    host it lets through is let through by [checkFormContractGouging]
    too, under the same allowance. *)
Theorem payment_gouging_check_is_stricter (a : Allowance) (hs : HostExternalSettings) :
  staticCheckFormPaymentContractGouging a hs = None ->
  checkFormContractGouging a hs = None.
Proof.
  unfold staticCheckFormPaymentContractGouging, checkFormContractGouging.
  rewrite !Currency_Cmp_le, !Currency_Cmp_lt.
  destruct (Currency_IsZero (MaxRPCPrice a)),
           (Currency_IsZero (MaxContractPrice a)),
           (Currency_IsZero (MaxSectorAccessPrice a)); simpl;
    repeat match goal with
           | |- context [?x <=? ?y] => destruct (N.leb_spec x y)
           | |- context [?x <? ?y] => destruct (N.ltb_spec x y)
           end; simpl; try done; lia.
Qed.

Lemma payment_gouging_check_is_stricter_witness :
  checkFormContractGouging (mkAllowance 10000 2 1000 100 5 100 7 false)
    (mkSettings 4 99 6 1 1 1 2000 50 true) = None.
Proof.
  apply (payment_gouging_check_is_stricter
           (mkAllowance 10000 2 1000 100 5 100 7 false)
           (mkSettings 4 99 6 1 1 1 2000 50 true)).
  reflexivity.
Defined.

(** Both checks are monotone in the prices of the host: a host that
    passes still passes after lowering its RPC base price, its contract
    price and its sector access price. *)
Lemma gouging_checks_monotone (a : Allowance) (hs hs' : HostExternalSettings) :
  BaseRPCPrice hs' <= BaseRPCPrice hs ->
  ContractPrice hs' <= ContractPrice hs ->
  SectorAccessPrice hs' <= SectorAccessPrice hs ->
  (checkFormContractGouging a hs = None -> checkFormContractGouging a hs' = None) /\
  (staticCheckFormPaymentContractGouging a hs = None ->
   staticCheckFormPaymentContractGouging a hs' = None).
Proof.
  intros H1 H2 H3.
  unfold staticCheckFormPaymentContractGouging, checkFormContractGouging.
  rewrite !Currency_Cmp_le, !Currency_Cmp_lt.
  destruct (Currency_IsZero (MaxRPCPrice a)),
           (Currency_IsZero (MaxContractPrice a)),
           (Currency_IsZero (MaxSectorAccessPrice a)); simpl;
    repeat match goal with
           | |- context [?x <=? ?y] => destruct (N.leb_spec x y)
           | |- context [?x <? ?y] => destruct (N.ltb_spec x y)
           end; simpl; split; try done; lia.
Qed.

(** ** More on deduplication *)

Lemma View_is_Some cs x : x ∈ cs -> is_Some (ContractSet_View cs (ID x)).
Proof.
  intros Hx. unfold ContractSet_View.
  destruct (List.find _ cs) eqn:Hf; [eauto |].
  apply list_elem_of_In in Hx.
  pose proof (find_none _ _ Hf _ Hx) as Hn. simpl in Hn.
  by rewrite N.eqb_refl in Hn.
Qed.

(** A contract whose key is not yet in the comparison map, and is not
    shared with a later contract, passes the loop unnoticed. *)
Lemma dedup_fold_fresh S : forall c pk,
  NoDup (dupKey <$> S) ->
  (forall x, x ∈ S -> pk !! dupKey x = None) ->
  (fold_left checkForDuplicate S (c, pk)).1 = c.
Proof.
  induction S as [|x S IH]; intros c pk Hnd Hpk; [done |].
  cbn [fold_left]. unfold checkForDuplicate at 2.
  rewrite (Hpk x) by (apply elem_of_cons; by left).
  rewrite fmap_cons in Hnd. apply NoDup_cons in Hnd as [Hx Hnd].
  apply IH; [exact Hnd |].
  intros y Hy. rewrite lookup_insert_ne.
  - apply Hpk. apply elem_of_cons. by right.
  - intros Heq. apply Hx. rewrite Heq. by apply list_elem_of_fmap_2.
Qed.

(** After the loop the keys of the live contracts are pairwise
    distinct. *)
Lemma dedup_keys_distinct (c0 : Contractor) :
  NoDup (ID <$> staticContracts c0) ->
  NoDup (ID <$> staticContracts (managedCheckForDuplicates c0)) /\
  NoDup (dupKey <$> staticContracts (managedCheckForDuplicates c0)).
Proof.
  intros Hnd.
  destruct (dedup_loop (staticContracts c0) c0 Hnd (staticContracts c0) [] c0 ∅ [])
    as (pk & E & I).
  { by apply dedup_inv_init. }
  change (dedup_inv (staticContracts c0) c0 (staticContracts c0) []
            (managedCheckForDuplicates c0) pk E) in I.
  destruct I. split; [assumption |].
  apply NoDup_fmap_2_strong.
  - intros x y Hx Hy Hk. eapply ID_inj; eauto.
    pose proof (inv_uniq0 x (inv_sub0 _ Hx) Hx) as Hpx.
    pose proof (inv_uniq0 y (inv_sub0 _ Hy) Hy) as Hpy.
    rewrite Hk, Hpy in Hpx. congruence.
  - eapply NoDup_fmap_1; eauto.
Qed.

(** X2. On a contract set in which no two contracts share the key
    renter ++ host, [managedCheckForDuplicates] changes nothing: no
    contract is archived, no lineage is written, nothing is logged. *)
Theorem dedup_without_duplicates_is_identity (c : Contractor) :
  NoDup (dupKey <$> staticContracts c) ->
  managedCheckForDuplicates c = c.
Proof.
  intros Hnd. unfold managedCheckForDuplicates, ContractSet_ViewAll.
  apply dedup_fold_fresh; [exact Hnd |].
  intros x _. apply lookup_empty.
Qed.

Lemma dedup_without_duplicates_witness :
  let c := DedupExamples.c0 [DedupExamples.mk 1 "R" "H" 1000;
                             DedupExamples.mk 2 "R" "G" 1500;
                             DedupExamples.mk 3 "S" "H" 2000] in
  managedCheckForDuplicates c = c.
Proof.
  apply (dedup_without_duplicates_is_identity
           (DedupExamples.c0 [DedupExamples.mk 1 "R" "H" 1000;
                              DedupExamples.mk 2 "R" "G" 1500;
                              DedupExamples.mk 3 "S" "H" 2000])).
  apply (bool_decide_unpack _). vm_compute. reflexivity.
Defined.

(** X3. [managedCheckForDuplicates] is idempotent: a second run right
    after the first finds nothing to do. *)
Theorem dedup_idempotent (c0 : Contractor) :
  NoDup (ID <$> staticContracts c0) ->
  managedCheckForDuplicates (managedCheckForDuplicates c0)
  = managedCheckForDuplicates c0.
Proof.
  intros Hnd. destruct (dedup_keys_distinct c0 Hnd) as [_ Hk].
  unfold managedCheckForDuplicates at 1. unfold ContractSet_ViewAll.
  apply dedup_fold_fresh; [exact Hk |].
  intros x _. apply lookup_empty.
Qed.

Lemma dedup_idempotent_witness :
  managedCheckForDuplicates (managedCheckForDuplicates DedupExamples.three)
  = managedCheckForDuplicates DedupExamples.three.
Proof.
  apply (dedup_idempotent DedupExamples.three).
  apply (bool_decide_unpack _). vm_compute. reflexivity.
Defined.

Lemma dedup_fold_untouched (c0 : Contractor) S : forall c pk,
  (forall x, x ∈ S -> x ∈ staticContracts c0) ->
  dedup_untouched c0 c ->
  dedup_untouched c0 (fold_left checkForDuplicate S (c, pk)).1.
Proof.
  induction S as [|x S IH]; intros c pk HS J; [exact J |].
  cbn [fold_left].
  assert (HxL : x ∈ staticContracts c0) by (apply HS, elem_of_cons; by left).
  assert (HS' : forall y, y ∈ S -> y ∈ staticContracts c0).
  { intros y Hy. apply HS, elem_of_cons. by right. }
  unfold checkForDuplicate at 2.
  destruct (pk !! dupKey x) as [id|]; [| by apply IH].
  destruct (ContractSet_View (staticContracts c) id) as [rc|] eqn:Hrc; [| by apply IH].
  destruct J as (J1 & J2 & J3 & J4 & J5 & J6 & J7 & J8).
  assert (HrcL : rc ∈ staticContracts c0).
  { apply J7. by destruct (View_Some _ _ _ Hrc). }
  assert (Hpair : forall new old,
            (new, old) = (if StartHeight x <=? StartHeight rc then (rc, x) else (x, rc)) ->
            live c0 (ID new) /\ live c0 (ID old)).
  { intros new old Hp. destruct (StartHeight x <=? StartHeight rc);
      injection Hp as -> ->; split; by apply View_is_Some. }
  destruct (if StartHeight x <=? StartHeight rc then (rc, x) else (x, rc))
    as [new old] eqn:Hno.
  destruct (Hpair new old eq_refl) as [Hnew Hold].
  simpl.
  destruct (ContractSet_Acquire (staticContracts c) (ID old)) as [oldSC|] eqn:Hacq.
  - apply IH; [exact HS' |]. repeat split; try assumption.
    + simpl. intros y Hy. apply elem_of_Delete in Hy as [Hy _]. by apply J7.
    + simpl. rewrite lookup_insert_ne; [by apply J8 |]. intros <-. contradiction.
    + simpl. rewrite lookup_insert_ne; [by apply J8 |]. intros <-. contradiction.
    + simpl. rewrite lookup_insert_ne; [by apply J8 |]. intros <-. contradiction.
  - apply IH; [exact HS' |]. repeat split; try assumption; simpl; by apply J8.
Qed.

(** X4. [managedCheckForDuplicates] only ever rewrites the history of
    contracts that were live when it started: the renters, the map from
    public keys to contract ids, the renewal counters and the entries of
    [renewedFrom], [renewedTo] and [oldContracts] for every other id are
    as before, and no contract is added to the live set. *)
Theorem dedup_frame (c0 : Contractor) :
  let c1 := managedCheckForDuplicates c0 in
  renters c1 = renters c0 /\ pubKeysToContractID c1 = pubKeysToContractID c0 /\
  numFailedRenews c1 = numFailedRenews c0 /\ renewing c1 = renewing c0 /\
  blockHeight c1 = blockHeight c0 /\ lowFundsAlert c1 = lowFundsAlert c0 /\
  (forall x, x ∈ staticContracts c1 -> x ∈ staticContracts c0) /\
  (forall id, ~ live c0 id ->
     renewedFrom c1 !! id = renewedFrom c0 !! id /\
     renewedTo c1 !! id = renewedTo c0 !! id /\
     oldContracts c1 !! id = oldContracts c0 !! id).
Proof.
  apply (dedup_fold_untouched c0 (staticContracts c0) c0 ∅); [done |].
  repeat split; done.
Qed.

(** ** More on the renewal estimate *)

Lemma walkRenewHistory_mono fuel c renter : forall id acc,
  let r := walkRenewHistory fuel c renter id acc in
  prevUploadSpending acc <= prevUploadSpending r /\
  prevDownloadSpending acc <= prevDownloadSpending r /\
  prevFundAccountSpending acc <= prevFundAccountSpending r /\
  MaintenanceSpending_Sum (prevMaintenanceSpending acc)
    <= MaintenanceSpending_Sum (prevMaintenanceSpending r).
Proof.
  induction fuel as [|fuel IH]; intros id acc; [by unfold walkRenewHistory |].
  unfold walkRenewHistory; fold walkRenewHistory.
  destruct (renewedFrom c !! id) as [p|]; [| done].
  destruct (oldContracts c !! p) as [pc|]; [| done].
  destruct (StartHeight pc <? CurrentPeriod renter); [done |].
  match goal with |- context [walkRenewHistory fuel c renter p ?a] =>
    specialize (IH p a); revert IH; generalize (walkRenewHistory fuel c renter p a)
  end.
  intros r. cbv zeta. unfold MaintenanceSpending_Sum, MaintenanceSpending_Add. simpl. lia.
Qed.

(** X5. An estimate returned without error covers at least the contract
    price of the host, the transaction fees, and everything the contract
    itself has spent on uploads, downloads, account funding and
    maintenance. *)
Theorem estimate_covers_price_fees_and_spending (W : World) (K : Constants)
    (c : Contractor) (contract : RenterContract) (bh : BlockHeight) (a : Allowance)
    (v : Currency) (host : HostDBEntry) :
  hdb_lookup W (HostPublicKey contract) = inr (Some host) ->
  managedEstimateRenewFundingRequirements W K c contract bh a = Done (v, None) ->
  ContractPrice (Settings host)
  + (tpool_FeeEstimation W).2 * EstimatedFileContractTransactionSetSize K
  + UploadSpending contract + DownloadSpending contract + FundAccountSpending contract
  + MaintenanceSpending_Sum (MaintenanceSpendingOf contract) <= v.
Proof.
  intros Hh. unfold managedEstimateRenewFundingRequirements, hdb_Host. rewrite Hh.
  destruct (negb true) eqn:Hn; [discriminate Hn |].
  destruct (Filtered host); [discriminate |].
  destruct (renters c !! RenterPublicKey contract) as [renter|]; [| discriminate].
  destruct (FileContractRevisions contract) as [|rev0 revs]; [discriminate |].
  destruct (tpool_FeeEstimation W) as [minFee maxFee].
  destruct (Hosts a =? 0); [discriminate |].
  match goal with |- context [walkRenewHistory ?f ?c' ?r ?i ?acc] =>
    pose proof (walkRenewHistory_mono f c' r i acc) as Hm; revert Hm;
    generalize (walkRenewHistory f c' r i acc); intros prev Hm end.
  cbv zeta in Hm. simpl in Hm. destruct Hm as (Hu & Hd & Hf & Hmt).
  rewrite !Currency_Cmp_lt. simpl.
  match goal with |- context [_ + ?u * Period a * StoragePrice (Settings host)] =>
    generalize (u * Period a * StoragePrice (Settings host)); intros up end.
  generalize (NewFileSize rev0 * Period a * StoragePrice (Settings host)); intros st.
  match goal with |- context [types_Tax W bh ?x] =>
    generalize (types_Tax W bh x); intros tax end.
  match goal with |- context [?x + ?x / 3] =>
    pose proof (N.le_0_l (x / 3)) end.
  generalize (minimumFunding K a); intros m.
  match goal with |- context [if ?x <? m then _ else _] =>
    destruct (N.ltb_spec x m) end; intros [= <-]; lia.
Qed.

Lemma estimate_covers_witness :
  100 + 10 * 2048 + 0 + 0 + 0 + 0 <= 27444.
Proof.
  apply (estimate_covers_price_fees_and_spending Examples.friendly Examples.K3
           Examples.oneContract (Examples.contract 1 "H" 1000 500 Examples.good)
           950 Examples.allowance 27444 (Examples.hostOf "H")).
  - reflexivity.
  - vm_compute. reflexivity.
Defined.

(** X6. The estimator returns an error exactly when the host lookup
    fails, the host is unknown or filtered, or the renter is unknown, and
    then the amount is zero; it panics exactly when host and renter are
    fine and either the contract carries no revision or the allowance
    names zero hosts. *)
Theorem estimate_error_and_panic (W : World) (K : Constants) (c : Contractor)
    (contract : RenterContract) (bh : BlockHeight) (a : Allowance) :
  let est := managedEstimateRenewFundingRequirements W K c contract bh a in
  let hostFine :=
    exists host, hdb_lookup W (HostPublicKey contract) = inr (Some host) /\
                 Filtered host = false in
  let renterKnown := is_Some (renters c !! RenterPublicKey contract) in
  (forall v e, est = Done (v, Some e) -> v = 0) /\
  ((exists v e, est = Done (v, Some e)) <-> ~ (hostFine /\ renterKnown)) /\
  ((exists msg, est = Panic msg) <->
     hostFine /\ renterKnown /\
     (FileContractRevisions contract = [] \/ Hosts a = 0)).
Proof.
  cbv zeta. unfold managedEstimateRenewFundingRequirements, hdb_Host.
  destruct (hdb_lookup W (HostPublicKey contract)) as [e|[host|]]; simpl.
  - split; [by intros v e' [= <- _] |]. split.
    + split; [| by eauto]. intros _ [(h & [=] & _) _].
    + split; [by intros [msg [=]] |]. by intros [(h & [=] & _) _].
  - destruct (Filtered host) eqn:Hf.
    { split; [by intros v e' [= <- _] |]. split.
      + split; [| by eauto]. intros _ [(h & [= <-] & Hc) _]. congruence.
      + split; [by intros [msg [=]] |]. intros [(h & [= <-] & Hc) _]. congruence. }
    destruct (renters c !! RenterPublicKey contract) as [renter|] eqn:Hr.
    2: { split; [by intros v e' [= <- _] |]. split.
         + split; [| by eauto]. intros _ [_ [r [=]]].
         + split; [by intros [msg [=]] |]. by intros (_ & [r [=]] & _). }
    destruct (FileContractRevisions contract) as [|rev0 revs] eqn:Hrev.
    { split; [by intros v e' [=] |]. split.
      + split; [by intros (v & e' & [=]) |]. intros Hn. exfalso. apply Hn. eauto.
      + split; [| by eauto]. intros _. eauto 10. }
    destruct (tpool_FeeEstimation W) as [minFee maxFee].
    destruct (N.eqb_spec (Hosts a) 0) as [Hz|Hnz].
    { split; [by intros v e' [=] |]. split.
      + split; [by intros (v & e' & [=]) |]. intros Hn. exfalso. apply Hn. eauto.
      + split; [| by eauto]. intros _. eauto 10. }
    match goal with |- context [walkRenewHistory ?f ?c' ?r ?i ?acc] =>
      generalize (walkRenewHistory f c' r i acc); intros prev end.
    split; [by intros v e' [=] |]. split.
    + split; [by intros (v & e' & [=]) |]. intros Hn. exfalso. apply Hn. eauto.
    + split; [by intros [msg [=]] |]. intros (_ & _ & [[=]|Hz]). contradiction.
  - split; [by intros v e' [= <- _] |]. split.
    + split; [| by eauto]. intros _ [(h & [=] & _) _].
    + split; [by intros [msg [=]] |]. by intros [(h & [=] & _) _].
Qed.
(** ** More on managedRenew *)

Lemma live_Insert cs nc id :
  is_Some (ContractSet_View cs id) ->
  is_Some (ContractSet_View (ContractSet_Insert cs nc) id).
Proof.
  intros Hl. destruct (decide (id = ID nc)) as [->|Hne].
  - rewrite View_Insert_eq. eauto.
  - by rewrite View_Insert_ne.
Qed.

Lemma live_UpdateUtility cs id' u id :
  is_Some (ContractSet_View (ContractSet_UpdateUtility cs id' u) id)
  <-> is_Some (ContractSet_View cs id).
Proof. rewrite View_UpdateUtility. apply fmap_is_Some. Qed.

(** The gouging check does not look at the collateral. *)
Lemma checkFormContractGouging_collateral a hs m :
  checkFormContractGouging a
    (mkSettings (BaseRPCPrice hs) (ContractPrice hs) (SectorAccessPrice hs)
       (StoragePrice hs) (UploadBandwidthPrice hs) (DownloadBandwidthPrice hs)
       (MaxDuration hs) m (VersionSupported hs))
  = checkFormContractGouging a hs.
Proof. reflexivity. Qed.

(** What [managedRenew] does to the contractor. *)
Lemma managedRenew_effect W K c id rpk hpk funding eh hs c1 res held :
  managedRenew W K c id rpk hpk funding eh hs = (c1, res, held) ->
  match res with
  | inr nc =>
      held = false /\
      c1 = set_pubKeysToContractID
             (set_staticContracts c (ContractSet_Insert (staticContracts c) nc))
             (<[RenterPublicKey nc +:+ HostPublicKey nc := ID nc]> (pubKeysToContractID c))
  | inl e =>
      c1 = c \/
      (held = false /\
       exists nc, is_Some (watchdog_callMonitorContract W (ID nc)) /\
         c1 = set_staticContracts c (ContractSet_Insert (staticContracts c) nc))
  end.
Proof.
  unfold managedRenew, ContractSet_Acquire.
  destruct (hdb_Host W hpk) as [[host ok] err].
  repeat (case_match; try (intros; discriminate));
    intros [= <- <- <-]; try (by left); try (by split);
    right; (split; [reflexivity |]); eexists; (split; [| reflexivity]); eauto.
Qed.

(** X7. [managedRenew] succeeds only behind all of its guards: the
    renter is known and has an allowance, the host is in the host
    database and not filtered, the fresh settings of the host keep the
    storage price at or below [maxStoragePrice], allow the period and
    pass the gouging check, and the contract to renew is live and good
    for renew.  The host is then offered the renewal with its collateral
    capped at [maxCollateral], from the current block height. *)
Theorem managedRenew_success_guards (W : World) (K : Constants) (c c1 : Contractor)
    (id : FileContractID) (rpk hpk : SiaPublicKey) (funding : Currency)
    (eh : BlockHeight) (hs : HostExternalSettings) (nc : RenterContract) (held : bool) :
  managedRenew W K c id rpk hpk funding eh hs = (c1, inr nc, held) ->
  exists renter host old hs',
    renters c !! rpk = Some renter /\
    RenterAllowance renter <> emptyAllowance /\
    hdb_lookup W hpk = inr (Some host) /\ Filtered host = false /\
    StoragePrice hs <= maxStoragePrice K /\
    Period (RenterAllowance renter) <= MaxDuration hs /\
    checkFormContractGouging (RenterAllowance renter) hs = None /\
    ContractSet_View (staticContracts c) id = Some old /\
    GoodForRenew (Utility old) = true /\
    MaxCollateral hs' = N.min (MaxCollateral hs) (maxCollateral K) /\
    negotiate_Renew W old (mkHost (HostKey host) hs' false) funding (blockHeight c) eh
      = inr nc /\
    watchdog_callMonitorContract W (ID nc) = None.
Proof.
  unfold managedRenew, ContractSet_Acquire, hdb_Host.
  destruct (renters c !! rpk) as [renter|]; [| discriminate].
  destruct (hdb_lookup W hpk) as [e|[host|]]; [discriminate | |];
    cbn [Filtered HostKey Settings negb].
  2: { destruct (bool_decide _); discriminate. }
  destruct (bool_decide_reflect (RenterAllowance renter = emptyAllowance)) as [|Ha];
    [discriminate |].
  destruct (Filtered host) eqn:Hf; [discriminate |].
  rewrite Currency_Cmp_gt.
  destruct (N.ltb_spec (maxStoragePrice K) (StoragePrice hs)) as [|Hsp]; [discriminate |].
  destruct (N.ltb_spec (MaxDuration hs) (Period (RenterAllowance renter))) as [|Hmd];
    [discriminate |].
  set (hs' := if (Currency_Cmp (MaxCollateral hs) (maxCollateral K) >? 0)%Z then _ else hs).
  assert (Hcap : MaxCollateral hs' = N.min (MaxCollateral hs) (maxCollateral K) /\
                 checkFormContractGouging (RenterAllowance renter) hs'
                 = checkFormContractGouging (RenterAllowance renter) hs).
  { unfold hs'. rewrite Currency_Cmp_gt.
    destruct (N.ltb_spec (maxCollateral K) (MaxCollateral hs)); simpl; split;
      try reflexivity; lia. }
  destruct Hcap as [Hcap Hg]. rewrite Hg.
  destruct (checkFormContractGouging (RenterAllowance renter) hs) eqn:Hgo; [discriminate |].
  destruct (wallet_NextAddress W); [discriminate |].
  destruct (wallet_PrimarySeed W); [discriminate |].
  destruct (wallet_StartTransaction W); [discriminate |].
  destruct (txnBuilder_FundSiacoins W funding); [discriminate |].
  destruct (ContractSet_View (staticContracts c) id) as [old|] eqn:Hold; [| discriminate].
  destruct (GoodForRenew (Utility old)) eqn:Hgfr; [| discriminate]. simpl.
  destruct (negotiate_Renew W old _ funding (blockHeight c) eh) as [|nc'] eqn:Hneg;
    [discriminate |].
  destruct (watchdog_callMonitorContract W (ID nc')) eqn:Hwd; [discriminate |].
  intros [= <- <- <-].
  exists renter, host, old, hs'. repeat split; auto.
Qed.

Lemma managedRenew_success_guards_witness :
  exists renter host old hs',
    renters Examples.oneContract !! "R" = Some renter /\
    RenterAllowance renter <> emptyAllowance /\
    hdb_lookup Examples.friendly "H" = inr (Some host) /\ Filtered host = false /\
    StoragePrice Examples.settings <= maxStoragePrice Examples.K3 /\
    Period (RenterAllowance renter) <= MaxDuration Examples.settings /\
    checkFormContractGouging (RenterAllowance renter) Examples.settings = None /\
    ContractSet_View (staticContracts Examples.oneContract) 1 = Some old /\
    GoodForRenew (Utility old) = true /\
    MaxCollateral hs' = N.min (MaxCollateral Examples.settings) (maxCollateral Examples.K3) /\
    negotiate_Renew Examples.friendly old (mkHost (HostKey host) hs' false) 2000
      (blockHeight Examples.oneContract) 2100 = inr Examples.renewedOne /\
    watchdog_callMonitorContract Examples.friendly (ID Examples.renewedOne) = None.
Proof.
  apply (managedRenew_success_guards Examples.friendly Examples.K3 Examples.oneContract
           (managedRenew Examples.friendly Examples.K3 Examples.oneContract 1 "R" "H"
              2000 2100 Examples.settings).1.1
           1 "R" "H" 2000 2100 Examples.settings Examples.renewedOne false).
  vm_compute. reflexivity.
Defined.

(** X8. A failed [managedRenew] leaves the contractor as it was, with
    one exception: when the watchdog refuses to monitor a contract that
    the host has already signed, the new contract stays in the contract
    set although the error is returned; the map from public keys to
    contract ids is not updated then. *)
Theorem managedRenew_failure_effect (W : World) (K : Constants) (c c1 : Contractor)
    (id : FileContractID) (rpk hpk : SiaPublicKey) (funding : Currency)
    (eh : BlockHeight) (hs : HostExternalSettings) (e : error) (held : bool) :
  managedRenew W K c id rpk hpk funding eh hs = (c1, inl e, held) ->
  c1 = c \/
  exists nc, is_Some (watchdog_callMonitorContract W (ID nc)) /\
    c1 = set_staticContracts c (ContractSet_Insert (staticContracts c) nc).
Proof.
  intros Hrun. apply managedRenew_effect in Hrun as [->|(_ & nc & ? & ->)]; eauto.
Qed.

Lemma managedRenew_failure_effect_witness :
  let c1 := (managedRenew Examples.refusing Examples.K3 Examples.oneContract 1 "R" "H"
               2000 2100 Examples.settings).1.1 in
  c1 = Examples.oneContract \/
  exists nc, is_Some (watchdog_callMonitorContract Examples.refusing (ID nc)) /\
    c1 = set_staticContracts Examples.oneContract
           (ContractSet_Insert (staticContracts Examples.oneContract) nc).
Proof.
  apply (managedRenew_failure_effect Examples.refusing Examples.K3 Examples.oneContract _
           1 "R" "H" 2000 2100 Examples.settings
           (errExternal true "host refused") false).
  vm_compute. reflexivity.
Defined.

(** X9. [managedRenew] returns with the old contract still acquired in
    one case only: the contract is live and not good for renew.  It then
    returns [errContractNotGFR] (composed with what marking the address
    unused reports) and has changed nothing else. *)
Theorem managedRenew_returns_acquired (W : World) (K : Constants) (c c1 : Contractor)
    (id : FileContractID) (rpk hpk : SiaPublicKey) (funding : Currency)
    (eh : BlockHeight) (hs : HostExternalSettings) (res : error + RenterContract) :
  managedRenew W K c id rpk hpk funding eh hs = (c1, res, true) ->
  c1 = c /\ res = inl (markAddressUnused W errContractNotGFR) /\
  exists old, ContractSet_View (staticContracts c) id = Some old /\
              GoodForRenew (Utility old) = false.
Proof.
  unfold managedRenew, ContractSet_Acquire.
  destruct (hdb_Host W hpk) as [[host ok] err].
  repeat (case_match; try (intros; discriminate));
    intros [= <- <-]; repeat split; eexists; (split; [reflexivity |]);
    by apply negb_true_iff.
Qed.

Lemma managedRenew_returns_acquired_witness :
  exists old,
    ContractSet_View (staticContracts Examples.lockedContract) 1 = Some old /\
    GoodForRenew (Utility old) = false.
Proof.
  apply (managedRenew_returns_acquired Examples.friendly Examples.K3
           Examples.lockedContract Examples.lockedContract 1 "R" "H" 2000 2100
           Examples.settings (inl errContractNotGFR)).
  vm_compute. reflexivity.
Defined.
(** ** More on managedRenewContract *)

Lemma callUpdateUtility_effect W c fc u b :
  (callUpdateUtility W c fc u b).1 = c \/
  (callUpdateUtility W c fc u b).1
  = set_staticContracts c (ContractSet_UpdateUtility (staticContracts c) (ID fc) u).
Proof. unfold callUpdateUtility. destruct (write_UpdateUtility W _ _); auto. Qed.

Lemma managedAcquireAndUpdateContractUtility_effect W c id u :
  (managedAcquireAndUpdateContractUtility W c id u).1 = c \/
  (managedAcquireAndUpdateContractUtility W c id u).1
  = set_staticContracts c (ContractSet_UpdateUtility (staticContracts c) id u).
Proof.
  unfold managedAcquireAndUpdateContractUtility, managedUpdateContractUtility,
    ContractSet_Acquire.
  destruct (ContractSet_View (staticContracts c) id) as [fc|] eqn:Hfc; [| by left].
  rewrite <- (View_ID _ _ _ Hfc). apply callUpdateUtility_effect.
Qed.

(** X10. [managedRenewContract] reports the renewal amount as spent
    exactly when it returns a nil error; with an error it reports zero. *)
Theorem managedRenewContract_funds_spent (W : World) (K : Constants) (c c' : Contractor)
    (ri : fileContractRenewal) (bh eh : BlockHeight) (spent : Currency)
    (nc : RenterContract) (err : option error) :
  managedRenewContract W K c ri bh eh = Done (c', (spent, nc, err)) ->
  spent = match err with None => renewal_amount ri | Some _ => ZeroCurrency end.
Proof.
  unfold managedRenewContract.
  repeat (case_match; try (intros; discriminate)); intros H'; by simplify_eq.
Qed.

Lemma managedRenewContract_funds_spent_witness :
  (delivered (managedRenewContract Examples.refusing Examples.K3 Examples.oneContract
                Examples.renewOne 950 2100)
     (Examples.oneContract, (7, zeroRenterContract, None))).2.1.1 = 0.
Proof.
  refine (managedRenewContract_funds_spent Examples.refusing Examples.K3
            Examples.oneContract _ Examples.renewOne 950 2100 _ zeroRenterContract
            (Some (errContext (errExternal true "host refused")
                     "contract renewal with host was unsuccessful")) _).
  vm_compute. reflexivity.
Defined.

(** What [managedRenewContract] never touches, whatever it returns: the
    renters, the block height, the alert, and the marks of other
    contracts in [renewing]; its own mark it removes. *)
Lemma managedRenewContract_marks W K c ri bh eh c' r :
  managedRenewContract W K c ri bh eh = Done (c', r) ->
  renters c' = renters c /\ blockHeight c' = blockHeight c /\
  lowFundsAlert c' = lowFundsAlert c /\
  (forall id, id <> renewal_id ri -> renewing c' !! id = renewing c !! id) /\
  (c' = c \/ renewing c' !! renewal_id ri = None).
Proof.
  unfold managedRenewContract.
  destruct (renters c !! renewal_renterPubKey ri) as [renter|];
    [| intros [= <- <-]; repeat split; by left].
  destruct (host_Session W _ _); [intros [= <- <-]; repeat split; by left |].
  assert (Hdel : forall c2 : Contractor,
            renters c2 = renters c -> blockHeight c2 = blockHeight c ->
            lowFundsAlert c2 = lowFundsAlert c ->
            renewing c2 = <[renewal_id ri := true]> (renewing c) ->
            let c3 := unmarkRenewing c2 (renewal_id ri) in
            renters c3 = renters c /\ blockHeight c3 = blockHeight c /\
            lowFundsAlert c3 = lowFundsAlert c /\
            (forall id, id <> renewal_id ri -> renewing c3 !! id = renewing c !! id) /\
            (c3 = c \/ renewing c3 !! renewal_id ri = None)).
  { intros c2 H1 H2 H3 H4. simpl. rewrite H4. repeat split; auto.
    - intros id Hne. by rewrite lookup_delete_ne, lookup_insert_ne.
    - right. apply lookup_delete_eq. }
  destruct (host_Settings W _ _) as [e|hs].
  { intros [= <- <-]. by apply Hdel. }
  destruct (managedRenew W K _ _ _ _ _ _ _) as [[c1 res] held] eqn:Hren.
  destruct held; [discriminate |].
  assert (H1 : renters c1 = renters c /\ blockHeight c1 = blockHeight c /\
               lowFundsAlert c1 = lowFundsAlert c /\
               renewing c1 = <[renewal_id ri := true]> (renewing c)).
  { apply managedRenew_effect in Hren. destruct res as [e|nc].
    - destruct Hren as [->|(_ & nc & _ & ->)]; by repeat split.
    - destruct Hren as [_ ->]. by repeat split. }
  destruct H1 as (Hr1 & Hb1 & Ha1 & Hm1).
  destruct (ContractSet_Acquire (staticContracts c1) (renewal_id ri)) as [old|].
  2: { intros [= <- <-]. by apply Hdel. }
  destruct res as [errRenew|nc].
  - set (c2 := if IsHostsFault errRenew then _ else c1).
    assert (H2 : renters c2 = renters c /\ blockHeight c2 = blockHeight c /\
                 lowFundsAlert c2 = lowFundsAlert c /\
                 renewing c2 = <[renewal_id ri := true]> (renewing c)).
    { unfold c2. destruct (IsHostsFault errRenew); by repeat split. }
    destruct H2 as (Hr2 & Hb2 & Ha2 & Hm2).
    destruct (_ && _); intros [= <- <-]; apply Hdel; simpl; auto;
      by destruct (callUpdateUtility_effect W c2 old lockedUtility true) as [-> | ->].
  - destruct (managedAcquireAndUpdateContractUtility W _ (ID nc) _) as [c2 oe] eqn:Hupd.
    assert (H2 : renters c2 = renters c /\ blockHeight c2 = blockHeight c /\
                 lowFundsAlert c2 = lowFundsAlert c /\
                 renewing c2 = <[renewal_id ri := true]> (renewing c)).
    { pose proof (managedAcquireAndUpdateContractUtility_effect W
                    (logEvent c1 (EvRenewed (renewal_id ri))) (ID nc)
                    (mkUtility true true false)) as He.
      rewrite Hupd in He. simpl in He. destruct He as [-> | ->]; by repeat split. }
    destruct H2 as (Hr2 & Hb2 & Ha2 & Hm2).
    destruct oe; [intros [= <- <-]; by apply Hdel |].
    destruct (callUpdateUtility W c2 old lockedUtility true) as [c3 oe] eqn:Hupd2.
    pose proof (callUpdateUtility_effect W c2 old lockedUtility true) as He.
    rewrite Hupd2 in He. simpl in He.
    destruct oe; intros [= <- <-]; apply Hdel; simpl;
      destruct He as [-> | ->]; auto.
Qed.

(** X11. [managedRenewContract] cleans up after itself: when it returns,
    the contract is not marked in [renewing] (unless the call left before
    marking it, having changed nothing), the marks of all other contracts
    are as before, and the renters, the block height and the low-funds
    alert are untouched. *)
Theorem managedRenewContract_unmarks_renewing (W : World) (K : Constants)
    (c c' : Contractor) (ri : fileContractRenewal) (bh eh : BlockHeight)
    (r : Currency * RenterContract * option error) :
  managedRenewContract W K c ri bh eh = Done (c', r) ->
  renters c' = renters c /\ blockHeight c' = blockHeight c /\
  lowFundsAlert c' = lowFundsAlert c /\
  (forall id, id <> renewal_id ri -> renewing c' !! id = renewing c !! id) /\
  (c' = c \/ renewing c' !! renewal_id ri = None).
Proof. apply managedRenewContract_marks. Qed.

Lemma managedRenewContract_unmarks_renewing_witness :
  let c' := (delivered (managedRenewContract Examples.friendly Examples.K3
                          Examples.oneContract Examples.renewOne 950 2100)
               (Examples.oneContract, (0, zeroRenterContract, None))).1 in
  c' = Examples.oneContract \/ renewing c' !! 1 = None.
Proof.
  refine (proj2 (proj2 (proj2 (proj2
            (managedRenewContract_unmarks_renewing Examples.friendly Examples.K3
               Examples.oneContract _ Examples.renewOne 950 2100
               (2000, Examples.renewedOne, None) _))))).
  vm_compute. reflexivity.
Defined.

(** X12. A renewal that returns an error archives nothing: the lineage
    maps, the archive of old contracts and the map from public keys to
    contract ids are as before, and every contract that was live is
    still live. *)
Theorem managedRenewContract_failure_keeps_contracts (W : World) (K : Constants)
    (c c' : Contractor) (ri : fileContractRenewal) (bh eh : BlockHeight)
    (spent : Currency) (nc : RenterContract) (e : error) :
  managedRenewContract W K c ri bh eh = Done (c', (spent, nc, Some e)) ->
  renewedFrom c' = renewedFrom c /\ renewedTo c' = renewedTo c /\
  oldContracts c' = oldContracts c /\
  pubKeysToContractID c' = pubKeysToContractID c /\
  (forall id, live c id -> live c' id).
Proof.
  unfold managedRenewContract, live.
  destruct (renters c !! renewal_renterPubKey ri) as [renter|];
    [| by intros [= <- _ _ _]].
  destruct (host_Session W _ _); [by intros [= <- _ _ _] |].
  destruct (host_Settings W _ _) as [e'|hs]; [by intros [= <- _ _ _] |].
  destruct (managedRenew W K _ _ _ _ _ _ _) as [[c1 res] held] eqn:Hren.
  destruct held; [discriminate |].
  pose proof Hren as Hsucc. apply managedRenew_effect in Hren.
  destruct res as [errRenew|nc1].
  - assert (H1 : renewedFrom c1 = renewedFrom c /\ renewedTo c1 = renewedTo c /\
                 oldContracts c1 = oldContracts c /\
                 pubKeysToContractID c1 = pubKeysToContractID c /\
                 (forall id, is_Some (ContractSet_View (staticContracts c) id) ->
                             is_Some (ContractSet_View (staticContracts c1) id))).
    { destruct Hren as [->|(_ & nc1 & _ & ->)]; repeat split; auto.
      simpl. intros id. apply live_Insert. }
    clear Hren Hsucc. destruct H1 as (Hf & Ht & Ho & Hp & Hl).
    destruct (ContractSet_Acquire (staticContracts c1) (renewal_id ri)) as [old|].
    2: { intros [= <- _ _ _]. by repeat split. }
    set (c2 := if IsHostsFault errRenew then _ else c1).
    assert (H2 : renewedFrom c2 = renewedFrom c /\ renewedTo c2 = renewedTo c /\
                 oldContracts c2 = oldContracts c /\
                 pubKeysToContractID c2 = pubKeysToContractID c /\
                 staticContracts c2 = staticContracts c1).
    { unfold c2. destruct (IsHostsFault errRenew); by repeat split. }
    destruct H2 as (Hf2 & Ht2 & Ho2 & Hp2 & Hs2).
    destruct (_ && _); intros [= <- _ _ _]; simpl.
    + destruct (callUpdateUtility_effect W c2 old lockedUtility true) as [-> | ->];
        simpl; repeat split; auto; intros id Hid; rewrite ?live_UpdateUtility, Hs2;
        by apply Hl.
    + repeat split; auto. intros id Hid. rewrite Hs2. by apply Hl.
  - apply managedRenew_success in Hsucc as (_ & _ & old & Hold & _).
    simpl in Hold. destruct Hren as [_ ->]. simpl. unfold ContractSet_Acquire.
    destruct (ContractSet_View (ContractSet_Insert (staticContracts c) nc1) (renewal_id ri))
      eqn:Hv.
    + repeat (case_match; try (intros; discriminate)).
    + exfalso. destruct (decide (renewal_id ri = ID nc1)) as [Heq|Hne].
      * rewrite Heq, View_Insert_eq in Hv. discriminate.
      * rewrite View_Insert_ne in Hv by done. congruence.
Qed.

Lemma managedRenewContract_failure_witness :
  let c' := (delivered (managedRenewContract Examples.refusing Examples.K3
                          Examples.oneContract Examples.renewOne 950 2100)
               (Examples.oneContract, (0, zeroRenterContract, None))).1 in
  live c' 1.
Proof.
  refine (proj2 (proj2 (proj2 (proj2
            (managedRenewContract_failure_keeps_contracts Examples.refusing Examples.K3
               Examples.oneContract _ Examples.renewOne 950 2100 0 zeroRenterContract
               (errContext (errExternal true "host refused")
                  "contract renewal with host was unsuccessful") _)))) 1 _).
  - vm_compute. reflexivity.
  - vm_compute. eauto.
Defined.

(** X13. A renewal that returns a nil error touches no contract but the
    two it is about: the view of every contract other than the renewed
    one and the new one is as before. *)
Theorem managedRenewContract_success_frame (W : World) (K : Constants)
    (c c' : Contractor) (ri : fileContractRenewal) (bh eh : BlockHeight)
    (spent : Currency) (nc : RenterContract) (id : FileContractID) :
  managedRenewContract W K c ri bh eh = Done (c', (spent, nc, None)) ->
  id <> renewal_id ri -> id <> ID nc ->
  ContractSet_View (staticContracts c') id = ContractSet_View (staticContracts c) id.
Proof.
  intros Hrun Hne1 Hne2. revert Hrun. unfold managedRenewContract.
  destruct (renters c !! renewal_renterPubKey ri) as [renter|]; [| discriminate].
  destruct (host_Session W _ _); [discriminate |].
  destruct (host_Settings W _ _) as [e'|hs]; [discriminate |].
  destruct (managedRenew W K _ _ _ _ _ _ _) as [[c1 res] held] eqn:Hren.
  destruct held; [discriminate |].
  apply managedRenew_effect in Hren.
  destruct (ContractSet_Acquire (staticContracts c1) (renewal_id ri)) as [old|] eqn:Hold;
    [| discriminate].
  destruct res as [errRenew|nc1]; [destruct (_ && _); discriminate |].
  destruct Hren as [_ ->]. simpl in Hold.
  pose proof (View_ID _ _ _ Hold) as Hoid.
  assert (Hupd : forall cs i u, i <> id ->
            ContractSet_View (ContractSet_UpdateUtility cs i u) id = ContractSet_View cs id).
  { intros cs i u Hi. rewrite View_UpdateUtility.
    destruct (ContractSet_View cs id) as [x|] eqn:Hx; [| done]. simpl.
    rewrite (View_ID _ _ _ Hx).
    assert ((id =? i) = false) as -> by (apply N.eqb_neq; congruence). done. }
  assert (Hdel : forall cs, ContractSet_View (ContractSet_Delete cs old) id
                            = ContractSet_View cs id).
  { intros cs. rewrite View_Delete, Hoid. by apply N.eqb_neq in Hne1 as ->. }
  destruct (managedAcquireAndUpdateContractUtility W _ (ID nc1) _) as [c2 oe] eqn:Hupd1.
  pose proof (managedAcquireAndUpdateContractUtility_effect W
                (logEvent
                   (set_pubKeysToContractID
                      (set_staticContracts
                         (logEvent (set_renewing c (<[renewal_id ri := true]> (renewing c)))
                            (EvCallingRenew (renewal_id ri)))
                         (ContractSet_Insert (staticContracts c) nc1))
                      (<[RenterPublicKey nc1 +:+ HostPublicKey nc1 := ID nc1]>
                         (pubKeysToContractID c)))
                   (EvRenewed (renewal_id ri))) (ID nc1)
                (mkUtility true true false)) as He.
  simpl in He. simpl in Hupd1. rewrite Hupd1 in He. simpl in He.
  assert (H2 : nc1 = nc ->
               ContractSet_View (staticContracts c2) id
               = ContractSet_View (staticContracts c) id).
  { intros ->. destruct He as [-> | ->]; simpl; rewrite ?Hupd by congruence;
      by rewrite View_Insert_ne. }
  destruct oe; [intros [= <- _ Hn]; simpl; by apply H2 |].
  destruct (callUpdateUtility W c2 old lockedUtility true) as [c3 oe] eqn:Hupd2.
  pose proof (callUpdateUtility_effect W c2 old lockedUtility true) as He2.
  rewrite Hupd2 in He2. simpl in He2.
  destruct oe; intros [= <- _ Hn]; simpl; destruct He2 as [-> | ->]; simpl;
    rewrite ?Hdel, ?Hupd by congruence; by apply H2.
Qed.

Lemma managedRenewContract_success_frame_witness :
  let c := Examples.contractor 950
             [Examples.contract 1 "H" 1000 500 Examples.good;
              Examples.contract 2 "G" 1000 500 Examples.good] ∅ in
  let c' := (delivered (managedRenewContract Examples.friendly Examples.K3 c
                          Examples.renewOne 950 2100)
               (c, (0, zeroRenterContract, None))).1 in
  ContractSet_View (staticContracts c') 2 = ContractSet_View (staticContracts c) 2.
Proof.
  refine (managedRenewContract_success_frame Examples.friendly Examples.K3
            _ _ Examples.renewOne 950 2100 2000 Examples.renewedOne 2 _ _ _).
  - vm_compute. reflexivity.
  - discriminate.
  - discriminate.
Defined.
(** ** More on RenewContracts *)

Lemma estimate_floor W K c contract bh a v :
  managedEstimateRenewFundingRequirements W K c contract bh a = Done (v, None) ->
  minimumFunding K a <= v.
Proof.
  unfold managedEstimateRenewFundingRequirements.
  destruct (hdb_Host W (HostPublicKey contract)) as [[host ex] [err|]]; [discriminate |].
  destruct (negb ex); [discriminate |].
  destruct (Filtered host); [discriminate |].
  destruct (renters c !! RenterPublicKey contract) as [renter|]; [| discriminate].
  destruct (FileContractRevisions contract) as [|rev0 revs]; [discriminate |].
  destruct (tpool_FeeEstimation W) as [minFee maxFee].
  destruct (Hosts a =? 0); [discriminate |].
  match goal with |- context [walkRenewHistory ?f ?c' ?r ?i ?acc] =>
    generalize (walkRenewHistory f c' r i acc); intros prev end.
  rewrite Currency_Cmp_lt.
  match goal with |- context [if ?x <? ?y then _ else _] =>
    generalize x; intros est; destruct (N.ltb_spec est y) as [Hlt|Hge] end;
    intros [= <-]; [reflexivity | exact Hge].
Qed.

Lemma classifyContract_classified W K c renter bh ids acc id acc' :
  classifyContract W K c renter bh acc id = Done (inr acc') ->
  id ∈ ids ->
  classified W K c renter bh ids acc -> classified W K c renter bh ids acc'.
Proof.
  intros Hrun Hid (HA & HB & HC). revert Hrun. unfold classifyContract.
  destruct (ContractSet_View (staticContracts c) id) as [rc|] eqn:Hrc.
  2: { intros [= <-]. exact (conj HA (conj HB HC)). }
  pose proof (View_ID _ _ _ Hrc) as Hrid.
  destruct (String.eqb_spec (RenterPublicKey rc) (PublicKey renter)) as [Hpk|Hpk]; simpl.
  2: { intros [= <-]. exact (conj HA (conj HB HC)). }
  unfold managedContractUtility. rewrite Hrc. simpl. rewrite !andb_true_r.
  destruct (N.ltb_spec (add64 bh (RenewWindow (RenterAllowance renter))) (EndHeight rc))
    as [Hout|Hin]; simpl.
  - destruct (GoodForUpload (Utility rc)) eqn:Hgfu.
    { intros [= <-]. split; [| by split]. simpl. intros x Hx.
      apply elem_of_app in Hx as [Hx|Hx]; [by apply HA |].
      apply list_elem_of_singleton in Hx as ->. rewrite Hrid. by repeat split. }
    destruct (PeriodSpending_TotalAllocated W (PublicKey renter)) as [e|ta];
      [discriminate |].
    unfold hdb_Host.
    destruct (hdb_lookup W (HostPublicKey rc)) as [e|[host|]] eqn:Hh; simpl;
      try (intros [= <-]; exact (conj HA (conj HB HC))).
    destruct (Filtered host) eqn:Hf; [intros [= <-]; exact (conj HA (conj HB HC)) |].
    destruct (VersionSupported (Settings host)) eqn:Hv; simpl;
      [| intros [= <-]; exact (conj HA (conj HB HC))].
    destruct (GoodForRenew (Utility rc)) eqn:Hgfr; simpl;
      [| intros [= <-]; exact (conj HA (conj HB HC))].
    destruct (N.leb_spec (EndHeight rc) (add64 bh (RenewWindow (RenterAllowance renter))));
      [lia |].
    destruct (TotalCost rc =? 0); [discriminate |].
    destruct (_ || _) eqn:Hlow; [| intros [= <-]; exact (conj HA (conj HB HC))].
    destruct (Hosts (RenterAllowance renter) =? 0); [discriminate |].
    intros [= <-]. split; [done |]. split; [done |]. simpl.
    intros r Hr. apply elem_of_app in Hr as [Hr|Hr]; [by apply HC |].
    apply list_elem_of_singleton in Hr as ->. simpl.
    assert (Hamt : (if (Currency_Cmp (TotalCost rc * 2)
                          (minimumFunding K (RenterAllowance renter)) <? 0)%Z
                    then minimumFunding K (RenterAllowance renter)
                    else TotalCost rc * 2)
                   = N.max (TotalCost rc * 2) (minimumFunding K (RenterAllowance renter))).
    { rewrite Currency_Cmp_lt. destruct (N.ltb_spec (TotalCost rc * 2)
        (minimumFunding K (RenterAllowance renter))); lia. }
    rewrite Hamt, Hrid. split; [done |]. split; [lia |].
    exists rc, host. split; [by repeat split |]. split; [done |]. split; [| done].
    unfold lowOnFunds. apply orb_true_iff in Hlow as [Hlow|Hlow]; [left | by right].
    rewrite Currency_Cmp_lt in Hlow. by apply N.ltb_lt.
  - destruct (PeriodSpending_TotalAllocated W (PublicKey renter)) as [e|ta];
      [discriminate |].
    unfold hdb_Host.
    destruct (hdb_lookup W (HostPublicKey rc)) as [e|[host|]] eqn:Hh; simpl;
      try (intros [= <-]; exact (conj HA (conj HB HC))).
    destruct (Filtered host) eqn:Hf; [intros [= <-]; exact (conj HA (conj HB HC)) |].
    destruct (VersionSupported (Settings host)) eqn:Hv; simpl;
      [| intros [= <-]; exact (conj HA (conj HB HC))].
    destruct (GoodForRenew (Utility rc)) eqn:Hgfr; simpl;
      [| intros [= <-]; exact (conj HA (conj HB HC))].
    destruct (N.leb_spec (EndHeight rc) (add64 bh (RenewWindow (RenterAllowance renter))));
      [| lia].
    destruct (managedEstimateRenewFundingRequirements W K c rc bh (RenterAllowance renter))
      as [[amt [e|]]| |] eqn:Hest; try discriminate; [intros [= <-]; exact (conj HA (conj HB HC)) |].
    intros [= <-]. split; [done |]. split; [| done]. simpl.
    intros r Hr. apply elem_of_app in Hr as [Hr|Hr]; [by apply HB |].
    apply list_elem_of_singleton in Hr as ->. simpl. rewrite Hrid.
    split; [done |]. split; [by eapply estimate_floor |].
    exists rc, host. split; [by repeat split |]. by split.
Qed.

Lemma classifyContracts_classified W K c renter bh ids0 ids : forall acc cls,
  classifyContracts W K c renter bh ids acc = Done (inr cls) ->
  (forall id, id ∈ ids -> id ∈ ids0) ->
  classified W K c renter bh ids0 acc -> classified W K c renter bh ids0 cls.
Proof.
  induction ids as [|id ids IH]; simpl; intros acc cls Hrun Hsub Hacc.
  - by injection Hrun as <-.
  - destruct (classifyContract W K c renter bh acc id) as [[e|acc']| |] eqn:Hstep;
      try discriminate.
    eapply IH; [exact Hrun | |].
    + intros i Hi. apply Hsub, elem_of_cons. by right.
    + eapply classifyContract_classified; [exact Hstep | | exact Hacc].
      apply Hsub, elem_of_cons. by left.
Qed.

(** X14. What the first loop of [RenewContracts] assembles.  Every
    contract it keeps is a submitted, live contract of the renter that is
    good for upload and ends after the renew window.  Every instruction
    in the renew set or in the refresh set is for a submitted, live
    contract of the renter that is good for renew, with a host that is
    known, not filtered and on a supported version, and for an amount of
    at least the minimum funding.  The renew set holds contracts inside
    the renew window, for the estimated amount; the refresh set holds
    contracts outside of it that are low on funds, for twice their total
    cost or the minimum funding if that is more. *)
Theorem classification_sound (W : World) (K : Constants) (c : Contractor)
    (renter : Renter) (bh : BlockHeight) (ids : list FileContractID)
    (cls : classification) :
  classifyContracts W K c renter bh ids emptyClassification = Done (inr cls) ->
  classified W K c renter bh ids cls.
Proof.
  intros Hrun. eapply classifyContracts_classified; [exact Hrun | done |].
  split; [| split]; intros x Hx; inversion Hx.
Qed.

Lemma classification_sound_witness :
  classified Examples.friendly Examples.K3 Examples.exhausted Examples.renterR 500 [1]
    (Examples.phaseOf Examples.friendly Examples.exhausted [1]).1.
Proof.
  apply (classification_sound Examples.friendly Examples.K3 Examples.exhausted
           Examples.renterR 500 [1]).
  vm_compute. reflexivity.
Defined.
Lemma managedRenewContract_no_skip W K c ri bh eh c' r :
  managedRenewContract W K c ri bh eh = Done (c', r) ->
  exists E, log c' = log c ++ E /\ existsb isSkipLowFunds E = false.
Proof.
  unfold managedRenewContract.
  destruct (renters c !! renewal_renterPubKey ri) as [renter|].
  2: { intros [= <- <-]. exists []. by rewrite app_nil_r. }
  destruct (host_Session W _ _).
  { intros [= <- <-]. exists []. by rewrite app_nil_r. }
  destruct (host_Settings W _ _) as [e|hs].
  { intros [= <- <-]. exists []. by rewrite app_nil_r. }
  destruct (managedRenew W K _ _ _ _ _ _ _) as [[c1 res] held] eqn:Hren.
  apply managedRenew_frame in Hren as (_ & _ & _ & _ & _ & Hlog). simpl in Hlog.
  destruct held; [discriminate |].
  destruct (ContractSet_Acquire (staticContracts c1) (renewal_id ri)) as [old|].
  2: { intros [= <- <-]. simpl. rewrite Hlog. eexists. by split. }
  destruct res as [errRenew|nc].
  - set (c2 := if IsHostsFault errRenew then _ else c1).
    assert (Hl2 : log c2 = log c1) by (unfold c2; by destruct (IsHostsFault errRenew)).
    destruct (_ && _); intros [= <- <-]; simpl.
    + destruct (callUpdateUtility_frame W c2 old lockedUtility true) as [-> _].
      rewrite Hl2, Hlog, <- app_assoc. eexists. by split.
    + rewrite Hl2, Hlog. eexists. by split.
  - destruct (managedAcquireAndUpdateContractUtility W _ (ID nc) _) as [c2 oe] eqn:Hupd.
    pose proof (managedAcquireAndUpdateContractUtility_frame W
                  (logEvent c1 (EvRenewed (renewal_id ri))) (ID nc)
                  (mkUtility true true false)) as [Hl _].
    rewrite Hupd in Hl. simpl in Hl.
    destruct oe.
    { intros [= <- <-]. simpl. rewrite Hl, Hlog, <- app_assoc. eexists. by split. }
    destruct (callUpdateUtility W c2 old lockedUtility true) as [c3 oe] eqn:Hupd2.
    pose proof (callUpdateUtility_frame W c2 old lockedUtility true) as [Hl3 _].
    rewrite Hupd2 in Hl3. simpl in Hl3.
    destruct oe; intros [= <- <-]; simpl; rewrite ?Hl3, Hl, Hlog, <- app_assoc;
      eexists; by split.
Qed.

Lemma renewOrRefresh_alert W K renter bh refresh st r st' oe :
  renewOrRefresh W K renter bh refresh st r = Done (st', oe) ->
  exists E, log (pr_c st') = log (pr_c st) ++ E /\
    pr_registerLowFundsAlert st'
    = pr_registerLowFundsAlert st || existsb isSkipLowFunds E.
Proof.
  unfold renewOrRefresh.
  destruct (stopped W).
  { intros [= <- <-]. exists []. by rewrite app_nil_r, orb_false_r. }
  destruct (wallet_Unlocked W) as [unlocked err].
  destruct (_ || _).
  { intros [= <- <-]. exists []. by rewrite app_nil_r, orb_false_r. }
  destruct (_ >? _)%Z.
  { intros [= <- <-]. simpl. eexists. split; [reflexivity |]. simpl.
    by rewrite orb_true_r. }
  destruct (managedRenewContract W K (pr_c st) r bh (ContractEndHeight renter))
    as [[c1 [[spent nc] err']]| |] eqn:Hrun; try discriminate.
  apply managedRenewContract_no_skip in Hrun as (E & HE & HF).
  destruct err' as [e|].
  - intros [= <- <-]. simpl.
    destruct (negb refresh && ContainsNotGFR e); simpl.
    + exists E. by rewrite HF, orb_false_r.
    + rewrite HE, <- app_assoc. eexists. split; [reflexivity |].
      by rewrite existsb_app, HF, orb_false_r.
  - intros [= <- <-]. simpl.
    destruct (managedAcquireAndUpdateContractUtility_frame W c1 (ID nc)
                (mkUtility true true false)) as [-> _].
    exists E. by rewrite HF, orb_false_r.
Qed.

Lemma renewLoop_alert W K renter bh refresh set : forall st st' oe,
  renewLoop W K renter bh refresh set st = Done (st', oe) ->
  exists E, log (pr_c st') = log (pr_c st) ++ E /\
    pr_registerLowFundsAlert st'
    = pr_registerLowFundsAlert st || existsb isSkipLowFunds E.
Proof.
  induction set as [|r set IH]; simpl; intros st st' oe Hrun.
  - injection Hrun as <- <-. exists []. by rewrite app_nil_r, orb_false_r.
  - destruct (renewOrRefresh W K renter bh refresh st r) as [[st1 oe1]| |] eqn:Hstep;
      try discriminate.
    apply renewOrRefresh_alert in Hstep as (E1 & HE1 & HA1).
    destruct oe1 as [ret|].
    + injection Hrun as <- <-. eauto.
    + apply IH in Hrun as (E2 & HE2 & HA2).
      exists (E1 ++ E2). rewrite HE2, HE1, <- app_assoc. split; [reflexivity |].
      by rewrite HA2, HA1, existsb_app, orb_assoc.
Qed.

(** X15. The low-funds alert tells what the pass did: once
    [RenewContracts] is past its first two checks, the alert is
    registered when it returns if and only if the pass skipped a renewal
    or a refresh for lack of funds; whether an alert was registered
    before plays no role. *)
Theorem low_funds_alert_iff_skipped (W : World) (K : Constants) (c c' : Contractor)
    (rpk : SiaPublicKey) (ids : list FileContractID)
    (r : list RenterContract * option error) :
  synced W = true -> is_Some (renters c !! rpk) ->
  RenewContracts W K c rpk ids = Done (c', r) ->
  exists E, log c' = log c ++ E /\ lowFundsAlert c' = existsb isSkipLowFunds E.
Proof.
  intros Hs [renter Hr]. unfold RenewContracts. rewrite Hs, Hr. simpl.
  destruct (renewPhase W K c renter ids) as [[e|[cls [st oe]]]| |] eqn:Hph;
    try discriminate.
  { intros [= <- <-]. exists []. by rewrite app_nil_r. }
  assert (Hst : exists E, log (pr_c st) = log c ++ E /\
                  pr_registerLowFundsAlert st = existsb isSkipLowFunds E).
  { revert Hph. unfold renewPhase.
    destruct (classifyContracts W K c renter (blockHeight c) ids emptyClassification)
      as [[e|cls0]| |]; try discriminate.
    destruct (renewLoop W K renter (blockHeight c) false (cls_renewSet cls0) _)
      as [[st1 oe1]| |] eqn:Hrenew; try discriminate.
    apply renewLoop_alert in Hrenew as (E1 & HE1 & HA1). simpl in HE1, HA1.
    destruct oe1 as [ret|]; [intros [= <- <- <-]; eauto |].
    destruct (renewLoop W K renter (blockHeight c) true (cls_refreshSet cls0) st1)
      as [[st2 oe2]| |] eqn:Hrefresh; try discriminate.
    apply renewLoop_alert in Hrefresh as (E2 & HE2 & HA2).
    intros [= <- <- <-]. exists (E1 ++ E2).
    rewrite HE2, HE1, <- app_assoc. split; [reflexivity |].
    by rewrite HA2, HA1, existsb_app. }
  destruct Hst as (E & HE & HA).
  destruct oe as [ret|]; intros [= <- <-]; exists E; simpl; by rewrite HE, HA.
Qed.

Lemma low_funds_alert_witness :
  let c' := Examples.afterPass Examples.tight Examples.twoInWindow [1; 2] in
  log c' = [EvCallingRenew 1; EvRenewed 1; EvSkipLowFunds 2] /\
  exists E, log c' = log Examples.twoInWindow ++ E /\
            lowFundsAlert c' = existsb isSkipLowFunds E.
Proof.
  split; [vm_compute; reflexivity |].
  refine (low_funds_alert_iff_skipped Examples.tight Examples.K3
            Examples.twoInWindow _ "R" [1; 2]
            (delivered (RenewContracts Examples.tight Examples.K3
                          Examples.twoInWindow "R" [1; 2])
               (Examples.twoInWindow, ([], None))).2 _ _ _).
  - reflexivity.
  - vm_compute. eauto.
  - vm_compute. reflexivity.
Defined.

Lemma renewLoop_halted W K renter bh refresh set st ret :
  halted W = Some ret ->
  renewLoop W K renter bh refresh set st
  = Done (st, match set with [] => None | _ :: _ => Some ret end).
Proof.
  unfold halted. intros Hh. destruct set as [|r set]; [done |].
  simpl. unfold renewOrRefresh.
  destruct (stopped W); [by injection Hh as <- |].
  destruct (wallet_Unlocked W) as [unlocked err]. simpl in Hh.
  destruct (negb unlocked || bool_decide (is_Some err)); [by injection Hh as <- |].
  discriminate.
Qed.

(** X16. Once the stop channel is closed, or while the wallet is locked
    (or fails to tell), [RenewContracts] renews nothing.  If no contract
    was due it returns the contracts it keeps and empties the failure
    counters; otherwise it returns no contracts and the contractor as it
    was, with the alert unregistered, and as error what the halt
    reports: for a wallet that is merely locked that error is nil. *)
Theorem RenewContracts_halted (W : World) (K : Constants) (c : Contractor)
    (rpk : SiaPublicKey) (ids : list FileContractID) (renter : Renter)
    (cls : classification) (ret : option error) :
  halted W = Some ret ->
  synced W = true -> renters c !! rpk = Some renter ->
  classifyContracts W K c renter (blockHeight c) ids emptyClassification
    = Done (inr cls) ->
  RenewContracts W K c rpk ids =
  match cls_renewSet cls ++ cls_refreshSet cls with
  | [] => Done (set_lowFundsAlert (set_numFailedRenews c ∅) false,
                (cls_contractSet cls, None))
  | _ :: _ => Done (set_lowFundsAlert c false, ([], ret))
  end.
Proof.
  intros Hh Hs Hr Hcls. unfold RenewContracts, renewPhase.
  rewrite Hs, Hr, Hcls. simpl.
  rewrite (renewLoop_halted _ _ _ _ _ _ _ _ Hh).
  destruct (cls_renewSet cls) as [|r1 rs] eqn:E1; simpl; [| done].
  rewrite (renewLoop_halted _ _ _ _ _ _ _ _ Hh).
  destruct (cls_refreshSet cls) as [|r2 rs'] eqn:E2; [| reflexivity].
  simpl. by rewrite ?E1, ?E2.
Qed.

Lemma RenewContracts_halted_witness :
  RenewContracts Examples.lockedWallet Examples.K3 Examples.oneContract "R" [1]
  = Done (set_lowFundsAlert Examples.oneContract false, ([], None)).
Proof.
  refine (RenewContracts_halted Examples.lockedWallet Examples.K3 Examples.oneContract
            "R" [1] Examples.renterR
            (mkClassification [] [mkRenewal 1 27444 "H" "R"] [] 100000) None _ _ _ _).
  - reflexivity.
  - reflexivity.
  - reflexivity.
  - vm_compute. reflexivity.
Defined.
(** ** More on managedNewContract and FormContracts *)

(** X17. [managedNewContract] succeeds only behind its guards: the
    renter is known and has an allowance, the storage price of the host
    is at most [maxStoragePrice], the host allows the period and passes
    the gouging check, the host signs the contract (offered with its
    collateral capped at [maxCollateral]) and the watchdog takes it.  The
    (renter, host) pair of the new contract had no entry in
    [pubKeysToContractID]; on return it maps to the new id, the contract
    is in the contract set, and the funding is reported as spent. *)
Theorem managedNewContract_success (W : World) (K : Constants) (c c' : Contractor)
    (rpk : SiaPublicKey) (host : HostDBEntry) (funding : Currency) (eh : BlockHeight)
    (spent : Currency) (nc : RenterContract) :
  managedNewContract W K c rpk host funding eh = (c', (spent, nc, None)) ->
  exists renter hs',
    renters c !! rpk = Some renter /\
    RenterAllowance renter <> emptyAllowance /\
    StoragePrice (Settings host) <= maxStoragePrice K /\
    Period (RenterAllowance renter) <= MaxDuration (Settings host) /\
    checkFormContractGouging (RenterAllowance renter) (Settings host) = None /\
    MaxCollateral hs' = N.min (MaxCollateral (Settings host)) (maxCollateral K) /\
    negotiate_Form W rpk (mkHost (HostKey host) hs' (Filtered host)) funding
      (blockHeight c) eh = inr nc /\
    watchdog_callMonitorContract W (ID nc) = None /\
    pubKeysToContractID c !! (RenterPublicKey nc +:+ HostPublicKey nc) = None /\
    spent = funding /\
    c' = set_pubKeysToContractID
           (set_staticContracts c (ContractSet_Insert (staticContracts c) nc))
           (<[RenterPublicKey nc +:+ HostPublicKey nc := ID nc]> (pubKeysToContractID c)).
Proof.
  unfold managedNewContract.
  destruct (renters c !! rpk) as [renter|]; [| discriminate].
  rewrite Currency_Cmp_gt.
  destruct (N.ltb_spec (maxStoragePrice K) (StoragePrice (Settings host))) as [|Hsp];
    [discriminate |].
  destruct (bool_decide_reflect (RenterAllowance renter = emptyAllowance)) as [|Ha];
    [discriminate |].
  destruct (N.ltb_spec (MaxDuration (Settings host)) (Period (RenterAllowance renter)))
    as [|Hmd]; [discriminate |].
  set (hs' := if (Currency_Cmp (MaxCollateral (Settings host)) (maxCollateral K) >? 0)%Z
              then _ else Settings host).
  assert (Hcap : MaxCollateral hs'
                 = N.min (MaxCollateral (Settings host)) (maxCollateral K)).
  { unfold hs'. rewrite Currency_Cmp_gt.
    destruct (N.ltb_spec (maxCollateral K) (MaxCollateral (Settings host))); simpl; lia. }
  destruct (checkFormContractGouging (RenterAllowance renter) (Settings host)) eqn:Hgo;
    [discriminate |].
  destruct (wallet_NextAddress W); [discriminate |].
  destruct (wallet_PrimarySeed W); [discriminate |].
  destruct (wallet_StartTransaction W); [discriminate |].
  destruct (negotiate_Form W rpk _ funding (blockHeight c) eh) as [|nc'] eqn:Hneg;
    [discriminate |].
  destruct (watchdog_callMonitorContract W (ID nc')) eqn:Hwd; [discriminate |].
  simpl.
  destruct (pubKeysToContractID c !! (RenterPublicKey nc' +:+ HostPublicKey nc')) eqn:Hpk;
    [discriminate |].
  intros [= <- <- <-]. exists renter, hs'. repeat split; auto.
Qed.

Lemma managedNewContract_success_witness :
  let run := managedNewContract Examples.friendly Examples.K3 Examples.noContracts "R"
               (Examples.hostOf "Hn1") 82320 1600 in
  exists renter hs',
    renters Examples.noContracts !! "R" = Some renter /\
    RenterAllowance renter <> emptyAllowance /\
    StoragePrice Examples.settings <= maxStoragePrice Examples.K3 /\
    Period (RenterAllowance renter) <= MaxDuration Examples.settings /\
    checkFormContractGouging (RenterAllowance renter) Examples.settings = None /\
    MaxCollateral hs' = N.min (MaxCollateral Examples.settings) (maxCollateral Examples.K3) /\
    negotiate_Form Examples.friendly "R" (mkHost "Hn1" hs' false) 82320 500 1600
      = inr run.2.1.2 /\
    watchdog_callMonitorContract Examples.friendly (ID run.2.1.2) = None /\
    pubKeysToContractID Examples.noContracts
      !! (RenterPublicKey run.2.1.2 +:+ HostPublicKey run.2.1.2) = None /\
    82320 = 82320 /\
    run.1 = set_pubKeysToContractID
              (set_staticContracts Examples.noContracts
                 (ContractSet_Insert (staticContracts Examples.noContracts) run.2.1.2))
              (<[RenterPublicKey run.2.1.2 +:+ HostPublicKey run.2.1.2 := ID run.2.1.2]>
                 (pubKeysToContractID Examples.noContracts)).
Proof.
  apply (managedNewContract_success Examples.friendly Examples.K3 Examples.noContracts
           _ "R" (Examples.hostOf "Hn1") 82320 1600 82320 _).
  vm_compute. reflexivity.
Defined.

(** X18. When [managedNewContract] returns an error it returns no
    contract, leaves [pubKeysToContractID] as it was and removes no
    contract.  It reports funds as spent together with an error in one
    case only: the host has signed, the watchdog has taken the contract,
    and the (renter, host) pair already had an entry in
    [pubKeysToContractID]; the contract just formed is then in the
    contract set, while the map still names the earlier contract. *)
Theorem managedNewContract_error (W : World) (K : Constants) (c c' : Contractor)
    (rpk : SiaPublicKey) (host : HostDBEntry) (funding : Currency) (eh : BlockHeight)
    (spent : Currency) (nc : RenterContract) (e : error) :
  managedNewContract W K c rpk host funding eh = (c', (spent, nc, Some e)) ->
  nc = zeroRenterContract /\
  pubKeysToContractID c' = pubKeysToContractID c /\
  (forall id, live c id -> live c' id) /\
  (spent = 0 \/
   spent = funding /\
   exists formed earlier,
     pubKeysToContractID c !! (RenterPublicKey formed +:+ HostPublicKey formed)
       = Some earlier /\
     watchdog_callMonitorContract W (ID formed) = None /\
     c' = set_staticContracts c (ContractSet_Insert (staticContracts c) formed)).
Proof.
  unfold managedNewContract, live.
  destruct (renters c !! rpk) as [renter|]; [| intros [= <- <- <- _]; auto].
  destruct (_ >? _)%Z; [intros [= <- <- <- _]; auto |].
  destruct (bool_decide _); [intros [= <- <- <- _]; auto |].
  destruct (_ <? _); [intros [= <- <- <- _]; auto |].
  destruct (checkFormContractGouging _ _); [intros [= <- <- <- _]; auto |].
  destruct (wallet_NextAddress W); [intros [= <- <- <- _]; auto |].
  destruct (wallet_PrimarySeed W); [intros [= <- <- <- _]; auto |].
  destruct (wallet_StartTransaction W); [intros [= <- <- <- _]; auto |].
  destruct (negotiate_Form W rpk _ funding (blockHeight c) eh) as [|formed];
    [intros [= <- <- <- _]; auto |].
  destruct (watchdog_callMonitorContract W (ID formed)) eqn:Hwd.
  { intros [= <- <- <- _]. repeat split; auto. simpl. intros id. apply live_Insert. }
  simpl.
  destruct (pubKeysToContractID c !! (RenterPublicKey formed +:+ HostPublicKey formed))
    as [earlier|] eqn:Hpk; [| discriminate].
  intros [= <- <- <- _]. repeat split; auto.
  - simpl. intros id. apply live_Insert.
  - right. split; [reflexivity |]. by exists formed, earlier.
Qed.

Lemma managedNewContract_error_witness :
  let c := set_pubKeysToContractID Examples.noContracts {["RHn1" := 9]} in
  let run := managedNewContract Examples.friendly Examples.K3 c "R"
               (Examples.hostOf "Hn1") 82320 1600 in
  run.2.1.1 = 82320 /\ ID <$> staticContracts run.1 = [7001] /\
  pubKeysToContractID run.1 = pubKeysToContractID c.
Proof.
  split; [reflexivity |]. split; [reflexivity |].
  refine (proj1 (proj2 (managedNewContract_error Examples.friendly Examples.K3
            (set_pubKeysToContractID Examples.noContracts {["RHn1" := 9]}) _ "R"
            (Examples.hostOf "Hn1") 82320 1600 82320 zeroRenterContract
            (errNew "already has a contract with host") _))).
  vm_compute. reflexivity.
Defined.

(** X19. The funding of a new contract is clamped: it is never below the
    minimum initial funding, never above the larger of the minimum and
    the maximum, and it is the price-based amount whenever that lies
    between the two. *)
Theorem initialContractFunds_clamped (K : Constants) (a : Allowance) (txnFee : Currency)
    (host : HostDBEntry) :
  let lo := Funds a / Hosts a / MinInitialContractFundingDivFactor K in
  let hi := Funds a / Hosts a * MaxInitialContractFundingMulFactor K
            / MaxInitialContractFundingDivFactor K in
  let priced := (ContractPrice (Settings host) + txnFee) * ContractFeeFundingMulFactor K in
  lo <= initialContractFunds K a txnFee host /\
  initialContractFunds K a txnFee host <= N.max lo hi /\
  (lo <= priced <= hi -> initialContractFunds K a txnFee host = priced).
Proof.
  cbv zeta. unfold initialContractFunds. rewrite Currency_Cmp_gt.
  match goal with |- context [if ?x <? ?y then _ else _] =>
    destruct (N.ltb_spec x y) end;
  rewrite Currency_Cmp_lt;
  match goal with |- context [if ?x <? ?y then _ else _] =>
    destruct (N.ltb_spec x y) end; lia.
Qed.

Lemma toInt_le n : (toInt n <= Z.of_N n)%Z.
Proof.
  unfold toInt, wrap64, uint64_mod.
  pose proof (N.Div0.mod_le n (2 ^ 64)).
  destruct (_ <? _)%Z; lia.
Qed.

Lemma countUploadContracts_length c hosts contracts : forall contractSet,
  (Z.of_nat (length contractSet) < Z.max hosts 1)%Z ->
  (Z.of_nat (length (countUploadContracts c hosts contracts contractSet))
   <= Z.max hosts 1)%Z.
Proof.
  induction contracts as [|x contracts IH]; simpl; intros contractSet Hlen; [lia |].
  destruct (managedContractUtility c (ID x)) as [cu ok].
  destruct (ok && GoodForUpload cu); [| by apply IH].
  destruct (Z.leb_spec hosts (Z.of_nat (length (contractSet ++ [x])))) as [Hle|Hgt].
  - rewrite length_app in *. simpl in *. lia.
  - apply IH. lia.
Qed.

Lemma formLoop_count W K renter eh txnFee hosts : forall st st' oe,
  formLoop W K renter eh txnFee hosts st = (st', oe) ->
  (0 <= fm_neededContracts st)%Z ->
  (0 <= fm_neededContracts st')%Z /\
  (Z.of_nat (length (fm_contractSet st')) + fm_neededContracts st'
   = Z.of_nat (length (fm_contractSet st)) + fm_neededContracts st)%Z.
Proof.
  induction hosts as [|host hosts IH]; simpl; intros st st' oe Hrun Hpos.
  - by injection Hrun as <- <-.
  - destruct (formWithHost W K renter eh txnFee st host) as [st1 ex] eqn:Hstep.
    assert (H1 : (0 <= fm_neededContracts st1)%Z /\
                 (Z.of_nat (length (fm_contractSet st1)) + fm_neededContracts st1
                  = Z.of_nat (length (fm_contractSet st)) + fm_neededContracts st)%Z).
    { revert Hstep. unfold formWithHost.
      destruct (stopped W); [by intros [= <- _] |].
      destruct (Z.leb_spec (fm_neededContracts st) 0); [by intros [= <- _] |].
      destruct (wallet_Unlocked W) as [unlocked err].
      destruct (_ || _); [by intros [= <- _] |].
      destruct (_ <? _)%Z; [by intros [= <- _] |].
      destruct (managedNewContract W K (fm_c st) (PublicKey renter) host _ eh)
        as [c1 [[spent nc] [e|]]]; intros [= <- _]; simpl; [done |].
      rewrite length_app. simpl. lia. }
    destruct H1 as [Hp1 He1].
    destruct ex.
    + apply IH in Hrun as [Hp2 He2]; [| done]. split; [done | lia].
    + by injection Hrun as <- <-.
    + by injection Hrun as <- <-.
Qed.

(** X20. [FormContracts] never returns more contracts than the
    allowance asks for: the contracts it returns, those it found and
    those it formed, number at most [Allowance.Hosts]. *)
Theorem FormContracts_at_most_Hosts (W : World) (K : Constants) (c : Contractor)
    (rpk : SiaPublicKey) (renter : Renter) (contractSet : list RenterContract)
    (err : option error) :
  renters c !! rpk = Some renter ->
  (FormContracts W K c rpk).2 = Done (contractSet, err) ->
  N.of_nat (length contractSet) <= Hosts (RenterAllowance renter).
Proof.
  intros Hr. unfold FormContracts. rewrite Hr.
  destruct (negb (synced W)); [intros [= <- _]; simpl; lia |].
  destruct (N.eqb_spec (Hosts (RenterAllowance renter)) 0) as [|Hnz];
    [intros [= <- _]; simpl; lia |].
  destruct (PeriodSpending_TotalAllocated W (PublicKey renter)) as [e|ta];
    [intros [= <- _]; simpl; lia |].
  destruct (makeslice_ok _ _ _); [| discriminate]. cbn [negb].
  pose proof (toInt_le (Hosts (RenterAllowance renter))) as Hint.
  pose proof (countUploadContracts_length c (toInt (Hosts (RenterAllowance renter)))
                (ContractSet_ByRenter (staticContracts c) (PublicKey renter)) []) as Hcnt.
  simpl in Hcnt. specialize (Hcnt ltac:(lia)).
  set (found := countUploadContracts c _ _ []) in *.
  destruct (Z.leb_spec (toInt (Hosts (RenterAllowance renter)) - Z.of_nat (length found)) 0)
    as [Hle|Hgt]; [intros [= <- _]; simpl; lia |].
  destruct (_ || _); [discriminate |].
  destruct (hdb_RandomHostsWithLimits W _ _ _ _) as [e|hosts];
    [intros [= <- _]; simpl; lia |].
  destruct (tpool_FeeEstimation W) as [minFee maxFee].
  destruct (formLoop W K renter _ _ hosts _) as [st oe] eqn:Hloop.
  apply formLoop_count in Hloop as [Hp He]; simpl in *; [| lia].
  destruct oe; intros [= <- _]; simpl; lia.
Qed.

Lemma FormContracts_at_most_Hosts_witness :
  N.of_nat (length (delivered
                      (FormContracts Examples.friendly Examples.K3
                         Examples.noContracts "R").2 ([], None)).1)
  <= 2.
Proof.
  apply (FormContracts_at_most_Hosts Examples.friendly Examples.K3 Examples.noContracts
           "R" Examples.renterR _
           (delivered (FormContracts Examples.friendly Examples.K3
                         Examples.noContracts "R").2 ([], None)).2).
  - reflexivity.
  - vm_compute. reflexivity.
Defined.

Lemma formLoop_halted W K renter eh txnFee hosts st ret :
  halted W = Some ret ->
  (formLoop W K renter eh txnFee hosts st).1 = st.
Proof.
  unfold halted. intros Hh. destruct hosts as [|host hosts]; [done |].
  simpl. unfold formWithHost.
  destruct (stopped W); [done |].
  destruct (fm_neededContracts st <=? 0)%Z; [done |].
  destruct (wallet_Unlocked W) as [unlocked err]. simpl in Hh.
  destruct (negb unlocked || bool_decide (is_Some err)); [done | discriminate].
Qed.

(** X21. Once the stop channel is closed, or while the wallet is locked
    (or fails to tell), [FormContracts] forms no contract: the
    contractor it leaves is the one it found, but for the low-funds
    alert, which it unregisters once it is past its first two checks. *)
Theorem FormContracts_halted (W : World) (K : Constants) (c : Contractor)
    (rpk : SiaPublicKey) (ret : option error) :
  halted W = Some ret ->
  (FormContracts W K c rpk).1
  = if synced W && bool_decide (is_Some (renters c !! rpk))
    then set_lowFundsAlert c false else c.
Proof.
  intros Hh. unfold FormContracts.
  destruct (synced W); [| done]. simpl.
  destruct (renters c !! rpk) as [renter|] eqn:Hr; [| done].
  rewrite bool_decide_eq_true_2 by eauto.
  destruct (_ =? 0); [done |].
  destruct (PeriodSpending_TotalAllocated W (PublicKey renter)) as [e|ta]; [done |].
  destruct (makeslice_ok _ _ _); [| done]. cbn [negb].
  destruct (_ <=? 0)%Z; [done |].
  destruct (_ || _); [done |].
  destruct (hdb_RandomHostsWithLimits W _ _ _ _) as [e|hosts]; [done |].
  destruct (tpool_FeeEstimation W) as [minFee maxFee].
  match goal with |- context [formLoop W K renter ?eh ?fee hosts ?st] =>
    pose proof (formLoop_halted W K renter eh fee hosts st ret Hh) as Hl;
    destruct (formLoop W K renter eh fee hosts st) as [st' oe] end.
  simpl in Hl. subst st'. by destruct oe.
Qed.

Lemma FormContracts_halted_witness :
  (FormContracts Examples.lockedWallet Examples.K3 Examples.noContracts "R").1
  = set_lowFundsAlert Examples.noContracts false.
Proof.
  apply (FormContracts_halted Examples.lockedWallet Examples.K3 Examples.noContracts
           "R" None).
  reflexivity.
Defined.
(** ** More on managedLimitGFUHosts *)

Lemma demoted_demoted rc : demoted (demoted rc) = demoted rc.
Proof. reflexivity. Qed.

Lemma limitGFUHost_demotes W c0 g : forall c numHosts,
  (forall id, ContractSet_View (staticContracts c) id
              = ContractSet_View (staticContracts c0) id \/
              ContractSet_View (staticContracts c) id
              = demoted <$> ContractSet_View (staticContracts c0) id) ->
  let c' := (limitGFUHost W (c, numHosts) g).1 in
  (forall id, ContractSet_View (staticContracts c') id
              = ContractSet_View (staticContracts c0) id \/
              ContractSet_View (staticContracts c') id
              = demoted <$> ContractSet_View (staticContracts c0) id) /\
  set_staticContracts c' (staticContracts c) = c.
Proof.
  intros c numHosts Hinv. unfold limitGFUHost.
  assert (Hsame : set_staticContracts c (staticContracts c) = c) by by destruct c.
  destruct (0 <? _); [by split |].
  unfold ContractSet_Acquire.
  destruct (ContractSet_View (staticContracts c) (ID (gfu_c g))) as [sc|] eqn:Hsc;
    [| by split].
  pose proof (View_ID _ _ _ Hsc) as Hid.
  unfold managedUpdateContractUtility, callUpdateUtility, FileContract_Metadata.
  rewrite Hid, Hsc. simpl.
  destruct (write_UpdateUtility W _ _); [by split |]. simpl.
  split; [| by destruct c].
  intros id. rewrite View_UpdateUtility.
  destruct (ContractSet_View (staticContracts c) id) as [x|] eqn:Hx.
  2: { destruct (Hinv id) as [H|H]; rewrite Hx in H; rewrite <- H; auto. }
  simpl. rewrite (View_ID _ _ _ Hx).
  destruct (N.eqb_spec id (ID (gfu_c g))) as [->|Hne].
  - assert (x = sc) as -> by congruence.
    destruct (Hinv (ID (gfu_c g))) as [H|H]; rewrite Hx in H; rewrite <- H; simpl.
    + by right.
    + destruct (ContractSet_View (staticContracts c0) (ID (gfu_c g))) as [y|]; [| done].
      injection H as ->. right. reflexivity.
  - destruct (Hinv id) as [H|H]; rewrite Hx in H; rewrite <- H; auto.
Qed.

Lemma limitGFUHost_fold_demotes W c0 gs : forall c numHosts,
  (forall id, ContractSet_View (staticContracts c) id
              = ContractSet_View (staticContracts c0) id \/
              ContractSet_View (staticContracts c) id
              = demoted <$> ContractSet_View (staticContracts c0) id) ->
  let c' := (fold_left (limitGFUHost W) gs (c, numHosts)).1 in
  (forall id, ContractSet_View (staticContracts c') id
              = ContractSet_View (staticContracts c0) id \/
              ContractSet_View (staticContracts c') id
              = demoted <$> ContractSet_View (staticContracts c0) id) /\
  set_staticContracts c' (staticContracts c) = c.
Proof.
  induction gs as [|g gs IH]; intros c numHosts Hinv; cbn [fold_left].
  - split; [exact Hinv | by destruct c].
  - destruct (limitGFUHost_demotes W c0 g c numHosts Hinv) as [H1 H2].
    destruct (limitGFUHost W (c, numHosts) g) as [c1 n1] eqn:Hstep. simpl in H1, H2.
    destruct (IH c1 n1 H1) as [H3 H4]. split; [exact H3 |].
    cbv zeta in *. clear H3 IH. revert H4 H2.
    generalize (fold_left (limitGFUHost W) gs (c1, n1)).1. intros c2.
    unfold set_staticContracts. destruct c, c1, c2. simpl. congruence.
Qed.

(** X22. [managedLimitGFUHosts] only ever clears [GoodForUpload]: every
    contract is afterwards as it was, or as it was with that one flag
    cleared; no contract appears or disappears, [GoodForRenew] and
    [Locked] keep their values, and nothing but the contract set
    changes. *)
Theorem managedLimitGFUHosts_only_demotes (W : World) (c : Contractor) :
  let c' := managedLimitGFUHosts W c in
  (forall id, ContractSet_View (staticContracts c') id
              = ContractSet_View (staticContracts c) id \/
              ContractSet_View (staticContracts c') id
              = demoted <$> ContractSet_View (staticContracts c) id) /\
  set_staticContracts c' (staticContracts c) = c.
Proof.
  unfold managedLimitGFUHosts. apply limitGFUHost_fold_demotes. by left.
Qed.

Lemma rankAmong_succ gs i g r :
  gs !! i = Some g ->
  rankAmong gs (S i) r
  = (rankAmong gs i r + if String.eqb (renterOf g) r then 1 else 0)%nat.
Proof.
  intros Hg. unfold rankAmong. rewrite (take_S_r _ _ _ Hg), List.filter_app, length_app.
  simpl. by destruct (String.eqb (renterOf g) r).
Qed.

Lemma kept_at_most gs (P : gfuContract -> bool) r (h : nat) :
  (forall i g, gs !! i = Some g -> String.eqb (renterOf g) r = true ->
     P g = true -> (rankAmong gs i r < h)%nat) ->
  forall suf pre, gs = pre ++ suf ->
    (length (List.filter (fun g => String.eqb (renterOf g) r && P g) suf)
     <= h - rankAmong gs (length pre) r)%nat.
Proof.
  intros HP. induction suf as [|g suf IH]; intros pre Hgs; simpl; [lia |].
  assert (Hg : gs !! length pre = Some g).
  { rewrite Hgs. by rewrite list_lookup_middle. }
  specialize (IH (pre ++ [g])). rewrite length_app in IH. simpl in IH.
  rewrite Nat.add_1_r, (rankAmong_succ _ _ _ _ Hg) in IH.
  specialize (IH ltac:(by rewrite <- app_assoc)).
  destruct (String.eqb (renterOf g) r) eqn:Hr; simpl.
  - destruct (P g) eqn:Hp; simpl.
    + specialize (HP _ _ Hg Hr Hp). lia.
    + lia.
  - rewrite Nat.add_0_r in IH. exact IH.
Qed.

Lemma numHostsOf_lookup (renters : gmap string Renter) r :
  (forall k x, renters !! k = Some x -> PublicKey x = k) ->
  numHostsOf renters !! r = (fun x => Hosts (RenterAllowance x)) <$> renters !! r.
Proof.
  unfold numHostsOf. revert renters.
  apply (map_fold_weak_ind (fun res (m : gmap string Renter) =>
           (forall k x, m !! k = Some x -> PublicKey x = k) ->
           res !! r = (fun x => Hosts (RenterAllowance x)) <$> m !! r)).
  - intros _. by rewrite !lookup_empty.
  - intros i x m res Hi IH Hc.
    assert (Hx : PublicKey x = i) by (apply Hc; by rewrite lookup_insert_eq).
    rewrite Hx.
    destruct (decide (i = r)) as [->|Hne].
    + by rewrite !lookup_insert_eq.
    + rewrite !lookup_insert_ne by done. apply IH.
      intros k y Hk. apply Hc. rewrite lookup_insert_ne; [done |]. congruence.
Qed.

(** X23. [managedLimitGFUHosts] caps the contracts that are good for
    upload: when the writes succeed and the renters are filed under
    their own public keys, then of the contracts of a renter that were
    good for upload with a host that has a score, at most
    [Allowance.Hosts] are still good for upload afterwards. *)
Theorem managedLimitGFUHosts_caps (W : World) (c : Contractor) (r : SiaPublicKey)
    (renter : Renter) :
  (forall id u, write_UpdateUtility W id u = None) ->
  NoDup (ID <$> staticContracts c) ->
  (forall k x, renters c !! k = Some x -> PublicKey x = k) ->
  renters c !! r = Some renter ->
  let gs := sortByScore (collectGFU W (Contracts c) ∅ []) in
  let c' := managedLimitGFUHosts W c in
  N.of_nat (length (List.filter (stillGFU (staticContracts c') r) gs))
  <= Hosts (RenterAllowance renter).
Proof.
  intros Hw Hnd Hkeys Hr. cbv zeta.
  destruct (managedLimitGFUHosts_keeps_first W Hw c Hnd) as [_ Hkeep].
  cbv zeta in Hkeep.
  set (gs := sortByScore (collectGFU W (Contracts c) ∅ [])) in *.
  set (cs' := staticContracts (managedLimitGFUHosts W c)) in *.
  set (P := fun g => match ContractSet_View cs' (ID (gfu_c g)) with
                     | Some rc => GoodForUpload (Utility rc)
                     | None => false
                     end).
  assert (HP : forall i g, gs !! i = Some g -> String.eqb (renterOf g) r = true ->
                 P g = true ->
                 (rankAmong gs i r < N.to_nat (Hosts (RenterAllowance renter)))%nat).
  { intros i g Hg Hgr Hp. destruct (Hkeep i g Hg) as (rc' & Hv & Hiff).
    unfold P in Hp. rewrite Hv in Hp. apply Hiff in Hp.
    apply String.eqb_eq in Hgr. rewrite Hgr in Hp.
    rewrite (numHostsOf_lookup _ _ Hkeys), Hr in Hp. simpl in Hp. lia. }
  pose proof (kept_at_most gs P r _ HP gs [] eq_refl) as Hk.
  unfold stillGFU. fold (P). simpl in Hk.
  change (fun g => String.eqb (renterOf g) r && P g) with
    (fun g => String.eqb (renterOf g) r
              && match ContractSet_View cs' (ID (gfu_c g)) with
                 | Some rc => GoodForUpload (Utility rc)
                 | None => false
                 end) in Hk.
  lia.
Qed.

Lemma managedLimitGFUHosts_caps_witness :
  N.of_nat (length (List.filter
    (stillGFU (staticContracts (managedLimitGFUHosts Examples.scored Examples.twoGFU)) "R")
    (sortByScore (collectGFU Examples.scored (Contracts Examples.twoGFU) ∅ []))))
  <= 1.
Proof.
  refine (managedLimitGFUHosts_caps Examples.scored Examples.twoGFU "R"
            (mkRenter "R" "r@example.org" 0 (mkAllowance 10000 1 1000 100 0 0 0 false))
            _ _ _ _).
  - reflexivity.
  - apply (bool_decide_unpack _). vm_compute. reflexivity.
  - intros k x Hx. unfold Examples.twoGFU in Hx. cbn [renters] in Hx.
    apply lookup_singleton_Some in Hx as [<- <-]. reflexivity.
  - reflexivity.
Defined.
(** ** managedFindMinAllowedHostScores *)

Lemma lowestScoreOf_spec W hosts : forall start lowest,
  lowestScoreOf W hosts start = inr lowest ->
  lowest <= start /\
  (lowest = start \/ exists host, host ∈ hosts /\ hdb_ScoreBreakdown W host = inr lowest) /\
  (forall host, host ∈ hosts ->
     exists score, hdb_ScoreBreakdown W host = inr score /\ lowest <= score).
Proof.
  induction hosts as [|host hosts IH]; simpl; intros start lowest Hrun.
  - injection Hrun as <-. split; [lia |]. split; [by left |].
    intros h Hh. inversion Hh.
  - destruct (hdb_ScoreBreakdown W host) as [e|score] eqn:Hs; [discriminate |].
    rewrite Currency_Cmp_lt in Hrun.
    apply IH in Hrun as (Hle & Hwit & Hall).
    destruct (N.ltb_spec score start) as [Hlt|Hge].
    + split; [lia |]. split.
      * right. destruct Hwit as [->|(h & Hh & Hhs)].
        -- exists host. split; [apply elem_of_cons; by left | done].
        -- exists h. split; [apply elem_of_cons; by right | done].
      * intros h Hh. apply elem_of_cons in Hh as [->|Hh]; [| by apply Hall].
        exists score. split; [done | lia].
    + split; [lia |]. split.
      * destruct Hwit as [->|(h & Hh & Hhs)]; [by left |].
        right. exists h. split; [apply elem_of_cons; by right | done].
      * intros h Hh. apply elem_of_cons in Hh as [->|Hh]; [| by apply Hall].
        exists score. split; [done | lia].
Qed.

(** X24. The floors that [managedFindMinAllowedHostScores] returns
    without error derive from the lowest score among the hosts drawn:
    the list drawn is not empty, every host of it has a score, one of
    them has the lowest score, and the floors are that score divided by
    the two leeways, so that a floor times its leeway is at most the
    score of any host drawn. *)
Theorem min_allowed_scores_from_lowest (W : World) (K : Constants)
    (leewayGFR leewayGFU : Currency) (c : Contractor) (rpk : SiaPublicKey)
    (minScoreGFR minScoreGFU : Currency) :
  managedFindMinAllowedHostScores W K leewayGFR leewayGFU c rpk
    = Done (minScoreGFR, minScoreGFU, None) ->
  exists renter hosts lowest,
    renters c !! rpk = Some renter /\
    hdb_RandomHostsWithLimits W
      (wrapInt (toInt (Hosts (RenterAllowance renter))
                + Z.of_N (randomHostsBufferForScore K))) [] []
      (RenterAllowance renter) = inr hosts /\
    (exists host, host ∈ hosts /\ hdb_ScoreBreakdown W host = inr lowest) /\
    (forall host, host ∈ hosts ->
       exists score, hdb_ScoreBreakdown W host = inr score /\ lowest <= score /\
                     minScoreGFR * leewayGFR <= score /\
                     minScoreGFU * leewayGFU <= score) /\
    minScoreGFR = lowest / leewayGFR /\ minScoreGFU = lowest / leewayGFU.
Proof.
  unfold managedFindMinAllowedHostScores.
  destruct (renters c !! rpk) as [renter|]; [| discriminate].
  destruct (hdb_RandomHostsWithLimits W _ _ _ _) as [e|hosts] eqn:Hh; [discriminate |].
  destruct hosts as [|host0 rest]; [discriminate |].
  destruct (hdb_ScoreBreakdown W host0) as [e|score0] eqn:Hs0; [discriminate |].
  destruct (lowestScoreOf W rest score0) as [e|lowest] eqn:Hlow; [discriminate |].
  destruct (N.eqb_spec leewayGFR 0) as [|Hr]; [discriminate |].
  destruct (N.eqb_spec leewayGFU 0) as [|Hu]; [discriminate |].
  intros [= <- <-].
  apply lowestScoreOf_spec in Hlow as (Hle & Hwit & Hall).
  exists renter, (host0 :: rest), lowest. split; [done |]. split; [done |].
  pose proof (N.Div0.mul_div_le lowest leewayGFR).
  pose proof (N.Div0.mul_div_le lowest leewayGFU).
  split; [| split; [| done]].
  - destruct Hwit as [->|(h & Hhin & Hhs)].
    + exists host0. split; [apply elem_of_cons; by left | done].
    + exists h. split; [apply elem_of_cons; by right | done].
  - intros h Hhin. apply elem_of_cons in Hhin as [->|Hhin].
    + exists score0. split; [done |]. lia.
    + destruct (Hall h Hhin) as (s & Hs & Hls). exists s. split; [done |]. lia.
Qed.

Lemma min_allowed_scores_witness :
  managedFindMinAllowedHostScores Examples.sampling Examples.K3 4 2
    Examples.noContracts "R" = Done (2, 5, None) /\
  exists renter hosts lowest,
    renters Examples.noContracts !! "R" = Some renter /\
    hdb_RandomHostsWithLimits Examples.sampling
      (wrapInt (toInt (Hosts (RenterAllowance renter))
                + Z.of_N (randomHostsBufferForScore Examples.K3))) [] []
      (RenterAllowance renter) = inr hosts /\
    (exists host, host ∈ hosts /\ hdb_ScoreBreakdown Examples.sampling host = inr lowest) /\
    (forall host, host ∈ hosts ->
       exists score, hdb_ScoreBreakdown Examples.sampling host = inr score /\
                     lowest <= score /\ 2 * 4 <= score /\ 5 * 2 <= score) /\
    2 = lowest / 4 /\ 5 = lowest / 2.
Proof.
  split; [vm_compute; reflexivity |].
  apply (min_allowed_scores_from_lowest Examples.sampling Examples.K3 4 2
           Examples.noContracts "R" 2 5).
  vm_compute. reflexivity.
Defined.

(** ** managedPruneRedundantAddressRange *)

Lemma groupByHost_fold contracts : forall hosts pks cids hosts' pks' cids',
  fold_left groupByHost contracts (hosts, pks, cids) = (hosts', pks', cids') ->
  NoDup pks -> (forall k, k ∈ hosts <-> k ∈ pks) ->
  NoDup pks' /\
  (forall k, k ∈ pks' <->
     k ∈ pks \/ exists rc, rc ∈ contracts /\ HostPublicKey rc = k) /\
  (forall k, default [] (cids' !! k)
     = default [] (cids !! k)
       ++ (ID <$> List.filter (fun rc => String.eqb (HostPublicKey rc) k) contracts)).
Proof.
  induction contracts as [|x contracts IH]; cbn [fold_left];
    intros hosts pks cids hosts' pks' cids' Hrun Hnd Hdom.
  - injection Hrun as <- <- <-. split; [done |]. split.
    + intros k. split; [by left |]. intros [?|(rc & Hrc & _)]; [done | inversion Hrc].
    + intros k. simpl. by rewrite app_nil_r.
  - unfold groupByHost at 2 in Hrun.
    set (hp := if bool_decide (HostPublicKey x ∈ hosts) then (hosts, pks)
               else ({[HostPublicKey x]} ∪ hosts, pks ++ [HostPublicKey x])) in Hrun.
    assert (Hhp : NoDup hp.2 /\ (forall k, k ∈ hp.1 <-> k ∈ hp.2) /\
                  (forall k, k ∈ hp.2 <-> k ∈ pks \/ k = HostPublicKey x)).
    { unfold hp. destruct (bool_decide_reflect (HostPublicKey x ∈ hosts)) as [Hin|Hnin];
        simpl.
      - split; [done |]. split; [done |]. intros k. split; [by left |].
        intros [?| ->]; [done |]. by apply Hdom.
      - split; [| split].
        + apply NoDup_app. split; [done |]. split; [| apply NoDup_singleton].
          intros k Hk ->%list_elem_of_singleton. apply Hnin. by apply Hdom.
        + intros k. rewrite elem_of_union, elem_of_singleton, elem_of_app,
            list_elem_of_singleton, Hdom. tauto.
        + intros k. by rewrite elem_of_app, list_elem_of_singleton. }
    destruct hp as [hosts1 pks1]. simpl in Hhp. destruct Hhp as (Hnd1 & Hdom1 & Hpks1).
    apply IH in Hrun as (Hnd' & Hpks' & Hcids'); [| done | done].
    split; [done |]. split.
    + intros k. rewrite Hpks', Hpks1. split.
      * intros [[?| ->]|(rc & Hrc & Hk)]; [by left | |].
        -- right. exists x. split; [apply elem_of_cons; by left | done].
        -- right. exists rc. split; [apply elem_of_cons; by right | done].
      * intros [?|(rc & Hrc & Hk)]; [by left; left |].
        apply elem_of_cons in Hrc as [->|Hrc]; [left; right; done |].
        right. by exists rc.
    + intros k. rewrite Hcids'. simpl.
      destruct (String.eqb_spec (HostPublicKey x) k) as [<-|Hne].
      * destruct (cids !! HostPublicKey x) as [fcids|] eqn:Hc;
          rewrite lookup_insert_eq; simpl; by rewrite <- ?app_assoc.
      * destruct (cids !! HostPublicKey x) as [fcids|] eqn:Hc;
          by rewrite lookup_insert_ne.
Qed.

Lemma fold_left_concat {A B} (f : A -> B -> A) (ls : list (list B)) : forall a,
  fold_left (fun a l => fold_left f l a) ls a = fold_left f (concat ls) a.
Proof.
  induction ls as [|l ls IH]; intros a; simpl; [done |].
  by rewrite IH, fold_left_app.
Qed.

Lemma fold_left_fmap {A B C} (g : A -> C -> A) (f : B -> C) (l : list B) : forall a,
  fold_left g (f <$> l) a = fold_left (fun a x => g a (f x)) l a.
Proof. induction l as [|x l IH]; intros a; simpl; [done | apply IH]. Qed.

Lemma filter_active (l : list RenterContract) k :
  List.filter (fun rc => String.eqb (HostPublicKey rc) k)
    (List.filter (fun x => negb (isCanceled (Utility x))) l)
  = List.filter (fun x => negb (isCanceled (Utility x))
                          && String.eqb (HostPublicKey x) k) l.
Proof.
  induction l as [|x l IHl]; simpl; [done |].
  destruct (negb (isCanceled (Utility x))); simpl; [| exact IHl].
  destruct (String.eqb (HostPublicKey x) k); by rewrite IHl.
Qed.

(** X25. What [managedPruneRedundantAddressRange] asks and cancels.  The
    keys it hands to [CheckForIPViolations] are the hosts of the live
    contracts that are not canceled, each host once.  If the check
    fails, nothing is cancelled.  Otherwise the contracts handed to
    [managedCancelContract] are, for each host reported and in the order
    of the report, the live contracts with that host that are not
    canceled; a contract that is already canceled is never handed over
    again. *)
Theorem prune_cancels_active_contracts_of_bad_hosts
    (check : list SiaPublicKey -> error + list SiaPublicKey)
    (cancel : Contractor -> FileContractID -> Contractor * option error)
    (c : Contractor) :
  let pks := (pruneCandidates c).1 in
  NoDup pks /\
  (forall k, k ∈ pks <-> activeWith c k <> []) /\
  managedPruneRedundantAddressRange check cancel c =
  match check pks with
  | inl _ => c
  | inr badHosts =>
      fold_left (fun c fcid => (cancel c fcid).1)
        (concat ((fun host => ID <$> activeWith c host) <$> badHosts)) c
  end.
Proof.
  unfold managedPruneRedundantAddressRange, pruneCandidates, ContractSet_ViewAll.
  set (contracts := List.filter (fun x => negb (isCanceled (Utility x)))
                      (staticContracts c)).
  destruct (fold_left groupByHost contracts (∅, [], ∅)) as [[hosts pks] cids] eqn:Hrun.
  apply groupByHost_fold in Hrun as (Hnd & Hpks & Hcids);
    [| apply NoDup_nil_2 | intros k; by rewrite elem_of_empty, elem_of_nil].
  assert (Hact : forall k,
            ID <$> List.filter (fun rc => String.eqb (HostPublicKey rc) k) contracts
            = ID <$> activeWith c k).
  { intros k. unfold contracts, activeWith. by rewrite filter_active. }
  cbv zeta. simpl. split; [done |]. split.
  - intros k. rewrite Hpks. split.
    + intros [Hk|(rc & Hrc & Hk)]; [inversion Hk |].
      unfold contracts in Hrc. apply list_elem_of_In, filter_In in Hrc as [Hin Hc].
      intros Hnil. assert (Hmem : In rc (activeWith c k)).
      { unfold activeWith. apply filter_In. split; [done |].
        rewrite Hc. simpl. by apply String.eqb_eq. }
      rewrite Hnil in Hmem. inversion Hmem.
    + intros Hne. right. destruct (activeWith c k) as [|rc l] eqn:Ha; [done |].
      assert (Hmem : In rc (activeWith c k)) by (rewrite Ha; by left).
      unfold activeWith in Hmem. apply filter_In in Hmem as [Hin Hc].
      apply andb_true_iff in Hc as [Hc Hk]. exists rc. split.
      * unfold contracts. apply list_elem_of_In, filter_In. by split.
      * by apply String.eqb_eq.
  - destruct (check pks) as [e|badHosts]; [done |].
    rewrite <- (fold_left_concat (fun c fcid => (cancel c fcid).1)).
    rewrite fold_left_fmap. generalize c at 1 3. clear -Hcids Hact.
    induction badHosts as [|host badHosts IH]; intros c1; simpl; [done |].
    by rewrite IH, Hcids, lookup_empty, Hact.
Qed.

(** Scenario S6: of the two contracts with the reported host only the
    one that is not canceled is handed to [managedCancelContract]. *)
Example prune_scenario_S6 :
  (pruneCandidates Examples.withHx).1 = ["Hx"; "Hy"] /\
  log (managedPruneRedundantAddressRange (fun _ => inr ["Hx"]) Examples.cancelAndLog
         Examples.withHx) = [EvMarkedBad 1].
Proof. vm_compute. split; reflexivity. Qed.
(** ** The provider: requests on the wire *)

Lemma copy_same_length dst src :
  length src = length dst -> Provider.copy dst src = src.
Proof.
  intros Hl. unfold Provider.copy. rewrite <- Hl, firstn_all.
  rewrite drop_ge by lia. apply app_nil_r.
Qed.

Ltac wire_read L :=
  repeat first
    [ rewrite (Provider.read_uint64 _ L) by assumption
    | rewrite (Provider.read_currency _ L) by assumption
    | rewrite (Provider.read_bytes _ L) by assumption
    | rewrite (Provider.read_signature _ L) by assumption ].

(** X26. A request to form contracts survives the wire, once its
    signature is sent after it: [EncodeTo] writes every field but the
    signature, so the bytes it writes do not depend on the signature,
    and [DecodeFrom] reads the request back from these bytes followed by
    the encoded signature, whatever it is called on and whatever bytes
    follow. *)
Theorem formRequest_round_trip (w : Provider.Wire) (fr old : Provider.formRequest)
    (rest : list Byte.byte) :
  Provider.WireLaws w ->
  Provider.formRequest_wf fr ->
  length (Provider.fr_PubKey old) = 32%nat ->
  Provider.formRequest_DecodeFrom w old
    (Provider.NewBufDecoder w
       (Provider.formRequest_EncodeTo w fr
        ++ Provider.Signature_EncodeTo w (Provider.fr_Signature fr) ++ rest))
  = (fr, Provider.NewBufDecoder w rest) /\
  forall s, Provider.formRequest_EncodeTo w
              (Provider.mkFormRequest (Provider.fr_PubKey fr) (Provider.fr_Hosts fr)
                 (Provider.fr_Period fr) (Provider.fr_RenewWindow fr)
                 (Provider.fr_Storage fr) (Provider.fr_Upload fr)
                 (Provider.fr_Download fr) (Provider.fr_MinShards fr)
                 (Provider.fr_TotalShards fr) (Provider.fr_MaxRPCPrice fr)
                 (Provider.fr_MaxContractPrice fr) (Provider.fr_MaxDownloadPrice fr)
                 (Provider.fr_MaxUploadPrice fr) (Provider.fr_MaxStoragePrice fr)
                 (Provider.fr_MaxSectorAccessPrice fr) s)
            = Provider.formRequest_EncodeTo w fr.
Proof.
  intros L (Hpk & Hsig & Hu & Hc) Hold. split; [| reflexivity].
  destruct fr. simpl in *.
  repeat match goal with
         | H : Forall _ (_ :: _) |- _ => apply Forall_cons in H as [? H]
         end.
  assert (Hlen : N.of_nat (length fr_PubKey) < 2 ^ 64) by (rewrite Hpk; reflexivity).
  unfold Provider.formRequest_DecodeFrom, Provider.formRequest_EncodeTo. simpl.
  rewrite <- !app_assoc. wire_read L.
  rewrite copy_same_length by congruence. reflexivity.
Qed.

Lemma leBytes_length k : forall n, length (Provider.leBytes k n) = k.
Proof. induction k as [|k IH]; intros n; simpl; [done | by rewrite IH]. Qed.

Lemma leValue_leBytes k : forall n, Provider.leValue (Provider.leBytes k n) = n mod 256 ^ N.of_nat k.
Proof.
  induction k as [|k IH]; intros n.
  - simpl. by rewrite N.mod_1_r.
  - cbn [Provider.leBytes Provider.leValue]. rewrite IH.
    assert (Hb : Byte.to_N (default Byte.x00 (Byte.of_N (n mod 256))) = n mod 256).
    { destruct (Byte.of_N (n mod 256)) as [b|] eqn:Hb.
      - simpl. by apply Byte.to_of_N.
      - apply Byte.of_N_None_iff in Hb.
        pose proof (N.mod_upper_bound n 256). lia. }
    rewrite Hb, Nat2N.inj_succ, N.pow_succ_r'.
    rewrite (N.Div0.mod_mul_r n 256 (256 ^ N.of_nat k)). lia.
Qed.

Lemma littleEndian_laws : Provider.WireLaws Provider.littleEndian.
Proof.
  split;
    cbn [Provider.littleEndian Provider.NewBufDecoder Provider.WriteUint64
         Provider.ReadUint64 Provider.WriteBytes Provider.ReadBytes
         Provider.Currency_EncodeTo Provider.Currency_DecodeFrom
         Provider.Signature_EncodeTo Provider.Signature_DecodeFrom].
  - intros n rest Hn.
    rewrite take_app_length', drop_app_length' by (by rewrite leBytes_length).
    rewrite leValue_leBytes. by rewrite N.mod_small.
  - intros b rest Hb. rewrite <- !app_assoc.
    rewrite take_app_length', drop_app_length' by (by rewrite leBytes_length).
    rewrite leValue_leBytes, N.mod_small, Nat2N.id by exact Hb.
    by rewrite take_app_length, drop_app_length.
  - intros c rest Hc.
    rewrite take_app_length', drop_app_length' by (by rewrite leBytes_length).
    rewrite leValue_leBytes. by rewrite N.mod_small.
  - intros s old rest Hs. by rewrite take_app_length', drop_app_length'.
Qed.

Lemma formRequest_round_trip_witness :
  Provider.formRequest_DecodeFrom Provider.littleEndian Provider.exampleForm
    (Provider.formRequest_EncodeTo Provider.littleEndian Provider.exampleForm
     ++ Provider.fr_Signature Provider.exampleForm ++ [])
  = (Provider.exampleForm, []).
Proof.
  refine (proj1 (formRequest_round_trip Provider.littleEndian Provider.exampleForm
                   Provider.exampleForm [] littleEndian_laws _ _)).
  - repeat split; repeat constructor.
  - reflexivity.
Defined.

Lemma readContracts_written (w : Provider.Wire) (L : Provider.WireLaws w)
    (ids : list (list Byte.byte)) : forall rest,
  Forall (fun id => length id = 32%nat) ids ->
  Provider.readContracts w (length ids)
    (Provider.NewBufDecoder w (concat (Provider.WriteBytes w <$> ids) ++ rest))
  = (ids, Provider.NewBufDecoder w rest).
Proof.
  induction ids as [|id ids IH]; intros rest Hids; [done |].
  apply Forall_cons in Hids as [Hid Hids].
  cbn [length Provider.readContracts fmap list_fmap concat].
  rewrite <- app_assoc, (Provider.read_bytes _ L) by (rewrite Hid; reflexivity).
  rewrite IH by done. rewrite copy_same_length; [done |].
  by rewrite Hid, length_replicate.
Qed.

(** X27. A request to renew contracts survives the wire in the same
    way, as long as the decoder can allocate its list of contract ids:
    from the bytes that [EncodeTo] wrote, followed by the encoded
    signature, [DecodeFrom] reads back the request with its ids when the
    ids, at 32 bytes each, take no more than [maxAlloc] bytes and fewer
    than 2^64; with more ids than that it panics in [make]. *)
Theorem renewRequest_round_trip (w : Provider.Wire) (maxAlloc : N)
    (rr old : Provider.renewRequest) (rest : list Byte.byte) :
  Provider.WireLaws w ->
  Provider.renewRequest_wf rr ->
  length (Provider.rr_PubKey old) = 32%nat ->
  let size := 32 * N.of_nat (length (Provider.rr_Contracts rr)) in
  Provider.renewRequest_DecodeFrom w maxAlloc old
    (Provider.NewBufDecoder w
       (Provider.renewRequest_EncodeTo w rr
        ++ Provider.Signature_EncodeTo w (Provider.rr_Signature rr) ++ rest))
  = if (size <=? maxAlloc) && (size <? 2 ^ 64)
    then Done (rr, Provider.NewBufDecoder w rest)
    else Panic "makeslice: len out of range".
Proof.
  intros L (Hpk & Hsig & Hids & Hn & Hu & Hc) Hold size.
  destruct rr. simpl in *.
  repeat match goal with
         | H : Forall _ (_ :: _) |- _ => apply Forall_cons in H as [? H]
         end.
  assert (Hlen : N.of_nat (length rr_PubKey) < 2 ^ 64) by (rewrite Hpk; reflexivity).
  assert (Hcount : wrap64 (N.of_nat (length rr_Contracts))
                   = N.of_nat (length rr_Contracts)).
  { unfold wrap64, uint64_mod. apply N.mod_small. lia. }
  assert (Hcount' : N.of_nat (length rr_Contracts) < 2 ^ 64) by lia.
  assert (Hint : toInt (N.of_nat (length rr_Contracts))
                 = Z.of_nat (length rr_Contracts)).
  { unfold toInt. rewrite Hcount.
    destruct (Z.ltb_spec (Z.of_N (N.of_nat (length rr_Contracts))) (2 ^ 63)); lia. }
  assert (Hmake : makeslice_ok maxAlloc 32 (Z.of_nat (length rr_Contracts))
                  = (size <=? maxAlloc) && (size <? 2 ^ 64)).
  { unfold makeslice_ok, size.
    destruct (Z.leb_spec 0 (Z.of_nat (length rr_Contracts))); [| lia].
    destruct (Z.ltb_spec (Z.of_N 32 * Z.of_nat (length rr_Contracts)) (2 ^ 64)),
             (Z.leb_spec (Z.of_N 32 * Z.of_nat (length rr_Contracts)) (Z.of_N maxAlloc)),
             (N.leb_spec (32 * N.of_nat (length rr_Contracts)) maxAlloc),
             (N.ltb_spec (32 * N.of_nat (length rr_Contracts)) (2 ^ 64));
      simpl; try reflexivity; lia. }
  unfold Provider.renewRequest_DecodeFrom, Provider.renewRequest_EncodeTo. simpl.
  rewrite Hcount, <- !app_assoc.
  rewrite (Provider.read_bytes _ L) by assumption.
  rewrite (Provider.read_uint64 _ L) by assumption.
  rewrite Hint, Hmake.
  destruct ((size <=? maxAlloc) && (size <? 2 ^ 64)); [| reflexivity]. cbn [negb].
  rewrite Nat2Z.id, (readContracts_written w L) by assumption.
  wire_read L.
  rewrite copy_same_length by congruence. reflexivity.
Qed.

Lemma renewRequest_round_trip_witness :
  Provider.renewRequest_DecodeFrom Provider.littleEndian (2 ^ 48) Provider.exampleRenew
    (Provider.renewRequest_EncodeTo Provider.littleEndian Provider.exampleRenew
     ++ Provider.rr_Signature Provider.exampleRenew ++ [])
  = Done (Provider.exampleRenew, []).
Proof.
  refine (renewRequest_round_trip Provider.littleEndian (2 ^ 48) Provider.exampleRenew
            Provider.exampleRenew [] littleEndian_laws _ _).
  - repeat split; repeat constructor.
  - reflexivity.
Defined.
(** ** The node API: middleware and client helpers *)

(** X28. A route behind [RequireUserAgent] and [RequirePassword] runs
    its handler for a request if and only if the user agent of the
    request contains the required agent and the request carries the
    required password (under any user name), or no password is required;
    a request with another user agent is answered 400 and a request
    with a missing or wrong password 401, with a [WWW-Authenticate]
    header, whatever the handler is.  The requests of
    [HttpGETAuthenticated] and [HttpPOSTAuthenticated] with the required
    password reach the handler when the required agent is [Sat-Agent]. *)
Theorem protected_route_access (h : API.Handle) (ua password : string)
    (req : API.Request) :
  let allowed :=
    API.strings_Contains (API.UserAgent req) ua
    && (String.eqb password ""
        || match API.Authorization req with
           | Some (_, pass) => String.eqb pass password
           | None => false
           end) in
  API.protected h ua password req =
  (if allowed then h req
   else if negb (API.strings_Contains (API.UserAgent req) ua)
        then API.WriteError ∅ "Browser access disabled due to security vulnerability."
               API.StatusBadRequest
        else API.WriteError (<["WWW-Authenticate" := API.realm]> ∅)
               "API authentication failed." API.StatusUnauthorized) /\
  (forall url,
     API.protected h "Sat-Agent" password (API.HttpGETAuthenticated url password)
     = h (API.HttpGETAuthenticated url password) /\
     API.protected h "Sat-Agent" password (API.HttpPOSTAuthenticated url password)
     = h (API.HttpPOSTAuthenticated url password)).
Proof.
  cbv zeta. split.
  - unfold API.protected, API.RequireUserAgent, API.RequirePassword, API.BasicAuth.
    destruct (API.strings_Contains (API.UserAgent req) ua); simpl; [| done].
    destruct (String.eqb password ""); simpl; [done |].
    destruct (API.Authorization req) as [[user pass]|]; simpl; [| done].
    by destruct (String.eqb pass password).
  - intros url.
    unfold API.protected, API.RequireUserAgent, API.RequirePassword, API.BasicAuth.
    simpl. destruct (String.eqb password ""); simpl; [done |].
    by rewrite String.eqb_refl.
Qed.
(** ** The dashboard of the web portal *)

Lemma countChar_fold pass : forall l u d s,
  fold_left Dashboard.countChar pass (l, u, d, s)
  = (l + N.of_nat (length (List.filter Dashboard.isLower pass)),
     u + N.of_nat (length (List.filter Dashboard.isUpper pass)),
     d + N.of_nat (length (List.filter Dashboard.isDigit pass)),
     s + N.of_nat (length (List.filter Dashboard.isSpecial pass))).
Proof.
  induction pass as [|ch pass IH]; intros l u d s; cbn [fold_left List.filter].
  - cbn [length]. by rewrite !N.add_0_r.
  - unfold Dashboard.countChar at 2. rewrite IH.
    destruct (Dashboard.isLower ch), (Dashboard.isUpper ch), (Dashboard.isDigit ch),
      (Dashboard.isSpecial ch); cbn [length]; rewrite ?Nat2N.inj_succ;
      repeat (apply pair_equal_spec; split); lia.
Qed.

Lemma filter_nonempty (f : N -> bool) l :
  (0 <? N.of_nat (length (List.filter f l))) = existsb f l.
Proof.
  induction l as [|x l IH]; simpl; [done |].
  destruct (f x); simpl; [| exact IH].
  apply N.ltb_lt. lia.
Qed.

(** X29. [validatePassword] accepts a password exactly when it has
    between 8 and 255 code units and holds at least one lower-case
    letter, one upper-case letter, one digit and one of the special
    characters; the verdict does not depend on the order of the
    characters. *)
Theorem validatePassword_spec (pass : list N) :
  (Dashboard.validatePassword pass = true <->
   (8 <= length pass <= 255)%nat /\
   existsb Dashboard.isLower pass = true /\ existsb Dashboard.isUpper pass = true /\
   existsb Dashboard.isDigit pass = true /\ existsb Dashboard.isSpecial pass = true) /\
  (forall pass', pass ≡ₚ pass' ->
     Dashboard.validatePassword pass' = Dashboard.validatePassword pass).
Proof.
  assert (Hval : forall p, Dashboard.validatePassword p =
            negb (length p <? 8)%nat && negb (255 <? length p)%nat
            && (existsb Dashboard.isLower p && existsb Dashboard.isUpper p
                && existsb Dashboard.isDigit p && existsb Dashboard.isSpecial p)).
  { intros p. unfold Dashboard.validatePassword.
    destruct (length p <? 8)%nat; [done |].
    destruct (255 <? length p)%nat; [done |].
    rewrite countChar_fold. cbv beta iota zeta.
    by rewrite !N.add_0_l, !filter_nonempty. }
  split.
  - rewrite Hval.
    destruct (Nat.ltb_spec (length pass) 8), (Nat.ltb_spec 255 (length pass)); simpl;
      rewrite ?andb_true_iff; split; try (intros; lia); try discriminate.
    + intros [[[? ?] ?] ?]. repeat split; auto; lia.
    + intros (_ & ? & ? & ? & ?). auto.
  - intros pass' Hp. rewrite !Hval.
    assert (He : forall f : N -> bool, existsb f pass' = existsb f pass).
    { intros f. apply eq_true_iff_eq. rewrite !existsb_exists.
      split; intros (x & Hx & Hf); exists x; (split; [| done]);
        apply list_elem_of_In; apply list_elem_of_In in Hx;
        [by rewrite Hp | by rewrite <- Hp]. }
    by rewrite !He, (Permutation_length Hp).
Qed.








